(** * intro_runtime: pipeline, shader binding table and accumulation loop

    A shallow embedding of [apps/intro_runtime/src/Application.cpp]:
    the scene instances and lights, the hit-group and callable records of
    the shader binding table (SBT), the live SBT update, the GUI-to-device
    material conversion, the device-code loader and the per-frame
    accumulation loop, together with the properties the specification
    states about them.

    Conventions.
    - C++ [int] and [unsigned int] values are [Z] with the 32-bit
      wrap-around written out; [size_t] is 64 bits wide.
    - [float] is IEEE-754 binary32 and [double] binary64, both through the
      executable [SpecFloat] operations of the standard library.
    - A [std::vector] is a [list]; [v[i]] outside the vector is undefined
      behaviour in C++ and is [None] here.
    - Device memory written through [cudaMemcpy] is mirrored in the state,
      and the stream, backend and display calls of the functions modelled
      are appended to a trace. *)

From Stdlib Require Import ZArith Bool Strings.String Strings.Byte SpecFloat Lia.
From stdpp Require Import base option list.

Local Open Scope Z_scope.

(** ** Machine integers *)

Module CInt.

Definition INT_MAX : Z := 2147483647.

(** Conversion to [int] (two's complement). *)
Definition wrap_int (x : Z) : Z := (x + 2 ^ 31) mod 2 ^ 32 - 2 ^ 31.

(** Conversion to [unsigned int]. *)
Definition to_uint (x : Z) : Z := x mod 2 ^ 32.

(** Conversion to [size_t]. *)
Definition to_size_t (x : Z) : Z := x mod 2 ^ 64.

Definition in_int (x : Z) : Prop := - 2 ^ 31 <= x < 2 ^ 31.

End CInt.

Import CInt.

(** ** Vectors *)

(** [v[i]] with an [int] index: the index is converted to [size_t]. *)
Definition vec_at {A} (v : list A) (i : Z) : option A :=
  v !! Z.to_nat (to_size_t i).

(** [v[i] = f(v[i])], an in-place change of one element. *)
Definition vec_update {A} (v : list A) (i : Z) (f : A → A) : option (list A) :=
  x ← vec_at v i; Some (<[Z.to_nat (to_size_t i) := f x]> v).

(** [for (int i = 0; i < n; ++i) body(i)] over a state that may fail. *)
Fixpoint for_int {S} (n : nat) (body : Z → S → option S) (s : S) : option S :=
  match n with
  | O => Some s
  | Datatypes.S k => s' ← for_int k body s; body (Z.of_nat k) s'
  end.

(** [memcpy(dst, src, n)] on byte arrays. *)
Definition memcpy (dst src : list byte) (n : nat) : list byte :=
  take n src ++ drop n dst.

(** ** Floating point *)

Definition float := spec_float.
Definition double := spec_float.

Module F32.
Definition prec : Z := 24.
Definition emax : Z := 128.
Definition of_Z (n : Z) : float := binary_normalize prec emax n 0 false.
Definition mul : float → float → float := SFmul prec emax.
Definition sub : float → float → float := SFsub prec emax.
Definition add : float → float → float := SFadd prec emax.
Definition div : float → float → float := SFdiv prec emax.
Definition sqrt : float → float := SFsqrt prec emax.
Definition neg : float → float := SFopp.
Definition ltb : float → float → bool := SFltb.
(** The literal [n/d] written in decimal, [d] a power of ten: both are
    exact in binary32 for the literals of this program, so the correctly
    rounded quotient is the literal's value. *)
Definition lit (n d : Z) : float := div (of_Z n) (of_Z d).
Definition zero : float := of_Z 0.
Definition one : float := of_Z 1.
End F32.

Module F64.
Definition prec : Z := 53.
Definition emax : Z := 1024.
Definition of_Z (n : Z) : double := binary_normalize prec emax n 0 false.
Definition div : double → double → double := SFdiv prec emax.
Definition ltb : double → double → bool := SFltb.
Definition one : double := of_Z 1.
Definition half : double := div (of_Z 1) (of_Z 2).
(** [ceil]: the least integral value not below the argument. A finite
    double with a non-negative exponent is integral already. *)
Definition ceil (f : double) : double :=
  match f with
  | S754_finite s m e =>
      if 0 <=? e then f
      else
        let n := if s then Z.neg m else Z.pos m in
        binary_normalize prec emax (- ((- n) / 2 ^ (- e))) 0 s
  | _ => f
  end.
End F64.

Record float3 := make_float3 { x : float; y : float; z : float }.

(** [make_float3(s)] *)
Definition make_float3_1 (s : float) : float3 := make_float3 s s s.

(** Modelled from the spec: [shaders/vector_math.h] is not among the sources.
    The spec names the cross product and its length; these are the usual
    component-wise single-precision definitions. *)
Module VectorMath.
Definition cross (a b : float3) : float3 :=
  make_float3 (F32.sub (F32.mul (y a) (z b)) (F32.mul (z a) (y b)))
              (F32.sub (F32.mul (z a) (x b)) (F32.mul (x a) (z b)))
              (F32.sub (F32.mul (x a) (y b)) (F32.mul (y a) (x b))).
Definition dot (a b : float3) : float :=
  F32.add (F32.add (F32.mul (x a) (x b)) (F32.mul (y a) (y b))) (F32.mul (z a) (z b)).
Definition length (v : float3) : float := F32.sqrt (dot v v).
Definition scale (v : float3) (s : float) : float3 :=
  make_float3 (F32.mul (x v) s) (F32.mul (y v) s) (F32.mul (z v) s).
Definition div_scalar (v : float3) (s : float) : float3 :=
  scale v (F32.div F32.one s).
End VectorMath.

(** ** Data model *)

Definition CUdeviceptr := Z.
Definition OptixTraversableHandle := Z.
Definition cudaTextureObject_t := Z.

(** [initPipeline] asserts [NUM_RAYTYPES == 2]. *)
Definition NUM_RAYTYPES : Z := 2.

(** The size of a record header in the OptiX headers. *)
Definition OPTIX_SBT_RECORD_HEADER_SIZE : nat := 32.

(** Modelled from the spec: the [ProgramIdentifier] enumeration is declared
    in [inc/Application.h], which is not among the sources. The identifiers
    are the ones [initPipeline] uses, the callables last, from
    [PROGRAM_ID_LENS_PINHOLE] to [PROGRAM_ID_BSDF_SPECULAR_EVAL]. *)
Inductive ProgramIdentifier :=
  | PROGRAM_ID_RAYGENERATION
  | PROGRAM_ID_EXCEPTION
  | PROGRAM_ID_MISS_RADIANCE
  | PROGRAM_ID_MISS_SHADOW
  | PROGRAM_ID_HIT_RADIANCE
  | PROGRAM_ID_HIT_SHADOW
  | PROGRAM_ID_HIT_RADIANCE_CUTOUT
  | PROGRAM_ID_HIT_SHADOW_CUTOUT
  | PROGRAM_ID_LENS_PINHOLE
  | PROGRAM_ID_LENS_FISHEYE
  | PROGRAM_ID_LENS_SPHERE
  | PROGRAM_ID_LIGHT_ENV
  | PROGRAM_ID_LIGHT_PARALLELOGRAM
  | PROGRAM_ID_BRDF_DIFFUSE_SAMPLE
  | PROGRAM_ID_BRDF_DIFFUSE_EVAL
  | PROGRAM_ID_BRDF_SPECULAR_SAMPLE
  | PROGRAM_ID_BRDF_SPECULAR_EVAL
  | PROGRAM_ID_BSDF_SPECULAR_SAMPLE
  | PROGRAM_ID_BSDF_SPECULAR_EVAL.

(** The integer value of an enumerator. *)
Definition program_id (p : ProgramIdentifier) : Z :=
  match p with
  | PROGRAM_ID_RAYGENERATION => 0
  | PROGRAM_ID_EXCEPTION => 1
  | PROGRAM_ID_MISS_RADIANCE => 2
  | PROGRAM_ID_MISS_SHADOW => 3
  | PROGRAM_ID_HIT_RADIANCE => 4
  | PROGRAM_ID_HIT_SHADOW => 5
  | PROGRAM_ID_HIT_RADIANCE_CUTOUT => 6
  | PROGRAM_ID_HIT_SHADOW_CUTOUT => 7
  | PROGRAM_ID_LENS_PINHOLE => 8
  | PROGRAM_ID_LENS_FISHEYE => 9
  | PROGRAM_ID_LENS_SPHERE => 10
  | PROGRAM_ID_LIGHT_ENV => 11
  | PROGRAM_ID_LIGHT_PARALLELOGRAM => 12
  | PROGRAM_ID_BRDF_DIFFUSE_SAMPLE => 13
  | PROGRAM_ID_BRDF_DIFFUSE_EVAL => 14
  | PROGRAM_ID_BRDF_SPECULAR_SAMPLE => 15
  | PROGRAM_ID_BRDF_SPECULAR_EVAL => 16
  | PROGRAM_ID_BSDF_SPECULAR_SAMPLE => 17
  | PROGRAM_ID_BSDF_SPECULAR_EVAL => 18
  end.

Definition NUM_PROGRAM_IDENTIFIERS : Z := 19.

(** The callable program identifiers, in enumeration order. *)
Definition callable_identifiers : list ProgramIdentifier :=
  [ PROGRAM_ID_LENS_PINHOLE; PROGRAM_ID_LENS_FISHEYE; PROGRAM_ID_LENS_SPHERE;
    PROGRAM_ID_LIGHT_ENV; PROGRAM_ID_LIGHT_PARALLELOGRAM;
    PROGRAM_ID_BRDF_DIFFUSE_SAMPLE; PROGRAM_ID_BRDF_DIFFUSE_EVAL;
    PROGRAM_ID_BRDF_SPECULAR_SAMPLE; PROGRAM_ID_BRDF_SPECULAR_EVAL;
    PROGRAM_ID_BSDF_SPECULAR_SAMPLE; PROGRAM_ID_BSDF_SPECULAR_EVAL ].

Inductive ModuleIdentifier :=
  | MODULE_ID_RAYGENERATION
  | MODULE_ID_EXCEPTION
  | MODULE_ID_MISS
  | MODULE_ID_CLOSESTHIT
  | MODULE_ID_ANYHIT
  | MODULE_ID_LENS_SHADER
  | MODULE_ID_LIGHT_SAMPLE
  | MODULE_ID_DIFFUSE_REFLECTION
  | MODULE_ID_SPECULAR_REFLECTION
  | MODULE_ID_SPECULAR_REFLECTION_TRANSMISSION.

Inductive OptixProgramGroupKind :=
  | OPTIX_PROGRAM_GROUP_KIND_NONE (* the zeroed descriptor *)
  | OPTIX_PROGRAM_GROUP_KIND_RAYGEN
  | OPTIX_PROGRAM_GROUP_KIND_MISS
  | OPTIX_PROGRAM_GROUP_KIND_EXCEPTION
  | OPTIX_PROGRAM_GROUP_KIND_HITGROUP
  | OPTIX_PROGRAM_GROUP_KIND_CALLABLES.

(** A module together with an entry function name; [None] is the null pair. *)
Definition entry := option (ModuleIdentifier * string).

(** [OptixProgramGroupDesc]: the union members in use are the single entry
    of raygen, miss, exception and direct callables, and the closest-hit and
    any-hit entries of a hit group. *)
Record OptixProgramGroupDesc := {
  kind : OptixProgramGroupKind;
  entryFunction : entry;
  entryCH : entry;
  entryAH : entry
}.

(** The backend's program-group handle, represented by the descriptor the
    group was created from. *)
Definition OptixProgramGroup := OptixProgramGroupDesc.

Definition SbtRecordHeader := list byte.

Record GeometryData := {
  gd_indices : CUdeviceptr;
  gd_attributes : CUdeviceptr;
  gd_numIndices : Z;
  gd_numAttributes : Z;
  gd_gas : CUdeviceptr
}.

Record GeometryInstanceData := {
  indices : CUdeviceptr;
  attributes : CUdeviceptr;
  materialIndex : Z;
  lightIndex : Z
}.

Record SbtRecordGeometryInstanceData := {
  header : SbtRecordHeader;
  data : GeometryInstanceData
}.

Record OptixInstance := {
  transform : list float;
  instanceId : Z;
  sbtOffset : Z;
  visibilityMask : Z;
  flags : Z;
  traversableHandle : OptixTraversableHandle
}.

Inductive FunctionIndex :=
  | INDEX_BSDF_DIFFUSE_REFLECTION
  | INDEX_BSDF_SPECULAR_REFLECTION
  | INDEX_BSDF_SPECULAR_REFLECTION_TRANSMISSION.

Record MaterialParameterGUI := {
  indexBSDF : FunctionIndex;
  albedo : float3;
  useAlbedoTexture : bool;
  useCutoutTexture : bool;
  thinwalled : bool;
  absorptionColor : float3;
  volumeDistanceScale : float;
  ior : float
}.

Record MaterialParameter := {
  mp_indexBSDF : FunctionIndex;
  mp_albedo : float3;
  mp_textureAlbedo : cudaTextureObject_t;
  mp_textureCutout : cudaTextureObject_t;
  mp_flags : Z;
  mp_absorption : float3;
  mp_ior : float
}.

Inductive LightType :=
  | LIGHT_ENVIRONMENT
  | LIGHT_PARALLELOGRAM.

Record LightDefinition := {
  type : LightType;
  position : float3;
  vecU : float3;
  vecV : float3;
  normal : float3;
  area : float;
  emission : float3
}.

Record CameraFrame := {
  cameraPosition : float3;
  cameraU : float3;
  cameraV : float3;
  cameraW : float3
}.

(** [SystemParameter], the launch parameter block. The environment-texture
    fields, which none of the functions below writes after construction,
    are left out; the light and material arrays it points to are the
    device arrays of [Device]. *)
Record SystemParameter := {
  topObject : OptixTraversableHandle;
  outputBuffer : CUdeviceptr;
  pathLengths : Z * Z;
  iterationIndex : Z;
  numLights : Z;
  cameraType : Z;
  camera : CameraFrame
}.

(** What the host asks of the CUDA stream, the backend and the display. *)
Inductive Event :=
  | StreamSynchronize
  | MemcpyAttributes
  | MemcpyIndices
  | AccelBuild
  | MemcpySystemParameter
  | MemcpyIterationIndex
  | MemcpyOutputBuffer
  | MemcpyMaterialParameters
  | MemcpyLightDefinitions
  | MemcpySbtRecords (first : Z) (count : Z)
  | MemcpySbtCallables
  | MapResources
  | UnmapResources
  | Launch (sysParameter : SystemParameter) (* the device block the launch reads *)
  | TimerRestart
  | MemcpyOutputToHost
  | TexImage
  | PrintFps.

(** ** Application state *)

Record Accumulation := {
  m_iterationIndex : Z;
  m_frames : Z;
  m_present : bool;
  m_presentNext : bool;
  m_presentAtSecond : double
}.

Record Scene := {
  m_instances : list OptixInstance;
  m_geometries : list GeometryData;
  m_lightDefinitions : list LightDefinition;
  m_guiMaterialParameters : list MaterialParameterGUI;
  m_textureAlbedo : cudaTextureObject_t;
  m_textureCutout : cudaTextureObject_t
}.

Record Sbt := {
  m_sbtRecordHitRadiance : SbtRecordGeometryInstanceData;
  m_sbtRecordHitShadow : SbtRecordGeometryInstanceData;
  m_sbtRecordHitRadianceCutout : SbtRecordGeometryInstanceData;
  m_sbtRecordHitShadowCutout : SbtRecordGeometryInstanceData;
  m_sbtRecordGeometryInstanceData : list SbtRecordGeometryInstanceData;
  hitgroupRecordCount : Z;   (* m_sbt.hitgroupRecordCount *)
  callablesRecordCount : Z   (* m_sbt.callablesRecordCount *)
}.

(** Device memory the host has written, and the calls issued so far. *)
Record Device := {
  m_d_systemParameter : SystemParameter;
  m_d_sbtRecordGeometryInstanceData : list SbtRecordGeometryInstanceData;
  m_d_sbtRecordCallables : list SbtRecordHeader;
  d_materialParameters : list MaterialParameter;
  d_lightDefinitions : list LightDefinition;
  trace : list Event
}.

Record Application := {
  m_lightID : Z;
  m_missID : Z;
  m_interop : bool;
  m_systemParameter : SystemParameter;
  accum : Accumulation;
  scene : Scene;
  sbt : Sbt;
  device : Device
}.

(** *** Field updates *)

Definition set_systemParameter (p : SystemParameter) (s : Application) : Application :=
  {| m_lightID := m_lightID s; m_missID := m_missID s; m_interop := m_interop s;
     m_systemParameter := p; accum := accum s; scene := scene s; sbt := sbt s;
     device := device s |}.

Definition set_accum (a : Accumulation) (s : Application) : Application :=
  {| m_lightID := m_lightID s; m_missID := m_missID s; m_interop := m_interop s;
     m_systemParameter := m_systemParameter s; accum := a; scene := scene s;
     sbt := sbt s; device := device s |}.

Definition set_scene (c : Scene) (s : Application) : Application :=
  {| m_lightID := m_lightID s; m_missID := m_missID s; m_interop := m_interop s;
     m_systemParameter := m_systemParameter s; accum := accum s; scene := c;
     sbt := sbt s; device := device s |}.

Definition set_sbt (t : Sbt) (s : Application) : Application :=
  {| m_lightID := m_lightID s; m_missID := m_missID s; m_interop := m_interop s;
     m_systemParameter := m_systemParameter s; accum := accum s; scene := scene s;
     sbt := t; device := device s |}.

Definition set_device (d : Device) (s : Application) : Application :=
  {| m_lightID := m_lightID s; m_missID := m_missID s; m_interop := m_interop s;
     m_systemParameter := m_systemParameter s; accum := accum s; scene := scene s;
     sbt := sbt s; device := d |}.

Definition set_iterationIndex (i : Z) (p : SystemParameter) : SystemParameter :=
  {| topObject := topObject p; outputBuffer := outputBuffer p;
     pathLengths := pathLengths p; iterationIndex := i; numLights := numLights p;
     cameraType := cameraType p; camera := camera p |}.

Definition set_outputBuffer (b : CUdeviceptr) (p : SystemParameter) : SystemParameter :=
  {| topObject := topObject p; outputBuffer := b;
     pathLengths := pathLengths p; iterationIndex := iterationIndex p;
     numLights := numLights p; cameraType := cameraType p; camera := camera p |}.

Definition set_camera (c : CameraFrame) (p : SystemParameter) : SystemParameter :=
  {| topObject := topObject p; outputBuffer := outputBuffer p;
     pathLengths := pathLengths p; iterationIndex := iterationIndex p;
     numLights := numLights p; cameraType := cameraType p; camera := c |}.

Definition set_m_iterationIndex (i : Z) (a : Accumulation) : Accumulation :=
  {| m_iterationIndex := i; m_frames := m_frames a; m_present := m_present a;
     m_presentNext := m_presentNext a; m_presentAtSecond := m_presentAtSecond a |}.

Definition set_m_presentNext (b : bool) (a : Accumulation) : Accumulation :=
  {| m_iterationIndex := m_iterationIndex a; m_frames := m_frames a;
     m_present := m_present a; m_presentNext := b;
     m_presentAtSecond := m_presentAtSecond a |}.

Definition set_m_presentAtSecond (t : double) (a : Accumulation) : Accumulation :=
  {| m_iterationIndex := m_iterationIndex a; m_frames := m_frames a;
     m_present := m_present a; m_presentNext := m_presentNext a;
     m_presentAtSecond := t |}.

Definition set_m_instances (l : list OptixInstance) (c : Scene) : Scene :=
  {| m_instances := l; m_geometries := m_geometries c;
     m_lightDefinitions := m_lightDefinitions c;
     m_guiMaterialParameters := m_guiMaterialParameters c;
     m_textureAlbedo := m_textureAlbedo c; m_textureCutout := m_textureCutout c |}.

Definition set_m_geometries (l : list GeometryData) (c : Scene) : Scene :=
  {| m_instances := m_instances c; m_geometries := l;
     m_lightDefinitions := m_lightDefinitions c;
     m_guiMaterialParameters := m_guiMaterialParameters c;
     m_textureAlbedo := m_textureAlbedo c; m_textureCutout := m_textureCutout c |}.

Definition set_m_lightDefinitions (l : list LightDefinition) (c : Scene) : Scene :=
  {| m_instances := m_instances c; m_geometries := m_geometries c;
     m_lightDefinitions := l;
     m_guiMaterialParameters := m_guiMaterialParameters c;
     m_textureAlbedo := m_textureAlbedo c; m_textureCutout := m_textureCutout c |}.

Definition set_m_guiMaterialParameters (l : list MaterialParameterGUI) (c : Scene) : Scene :=
  {| m_instances := m_instances c; m_geometries := m_geometries c;
     m_lightDefinitions := m_lightDefinitions c;
     m_guiMaterialParameters := l;
     m_textureAlbedo := m_textureAlbedo c; m_textureCutout := m_textureCutout c |}.

Definition set_textures (ta tc : cudaTextureObject_t) (c : Scene) : Scene :=
  {| m_instances := m_instances c; m_geometries := m_geometries c;
     m_lightDefinitions := m_lightDefinitions c;
     m_guiMaterialParameters := m_guiMaterialParameters c;
     m_textureAlbedo := ta; m_textureCutout := tc |}.

Definition set_records (l : list SbtRecordGeometryInstanceData) (t : Sbt) : Sbt :=
  {| m_sbtRecordHitRadiance := m_sbtRecordHitRadiance t;
     m_sbtRecordHitShadow := m_sbtRecordHitShadow t;
     m_sbtRecordHitRadianceCutout := m_sbtRecordHitRadianceCutout t;
     m_sbtRecordHitShadowCutout := m_sbtRecordHitShadowCutout t;
     m_sbtRecordGeometryInstanceData := l;
     hitgroupRecordCount := hitgroupRecordCount t;
     callablesRecordCount := callablesRecordCount t |}.

Definition set_hitgroupRecordCount (n : Z) (t : Sbt) : Sbt :=
  {| m_sbtRecordHitRadiance := m_sbtRecordHitRadiance t;
     m_sbtRecordHitShadow := m_sbtRecordHitShadow t;
     m_sbtRecordHitRadianceCutout := m_sbtRecordHitRadianceCutout t;
     m_sbtRecordHitShadowCutout := m_sbtRecordHitShadowCutout t;
     m_sbtRecordGeometryInstanceData := m_sbtRecordGeometryInstanceData t;
     hitgroupRecordCount := n;
     callablesRecordCount := callablesRecordCount t |}.

Definition set_callablesRecordCount (n : Z) (t : Sbt) : Sbt :=
  {| m_sbtRecordHitRadiance := m_sbtRecordHitRadiance t;
     m_sbtRecordHitShadow := m_sbtRecordHitShadow t;
     m_sbtRecordHitRadianceCutout := m_sbtRecordHitRadianceCutout t;
     m_sbtRecordHitShadowCutout := m_sbtRecordHitShadowCutout t;
     m_sbtRecordGeometryInstanceData := m_sbtRecordGeometryInstanceData t;
     hitgroupRecordCount := hitgroupRecordCount t;
     callablesRecordCount := n |}.

Definition set_header (h : SbtRecordHeader) (r : SbtRecordGeometryInstanceData)
  : SbtRecordGeometryInstanceData :=
  {| header := h; data := data r |}.

Definition set_data (g : GeometryInstanceData) (r : SbtRecordGeometryInstanceData)
  : SbtRecordGeometryInstanceData :=
  {| header := header r; data := g |}.

Definition set_lightIndex (i : Z) (g : GeometryInstanceData) : GeometryInstanceData :=
  {| indices := indices g; attributes := attributes g;
     materialIndex := materialIndex g; lightIndex := i |}.

Definition emit (es : list Event) (d : Device) : Device :=
  {| m_d_systemParameter := m_d_systemParameter d;
     m_d_sbtRecordGeometryInstanceData := m_d_sbtRecordGeometryInstanceData d;
     m_d_sbtRecordCallables := m_d_sbtRecordCallables d;
     d_materialParameters := d_materialParameters d;
     d_lightDefinitions := d_lightDefinitions d;
     trace := trace d ++ es |}.

Definition set_m_d_systemParameter (p : SystemParameter) (d : Device) : Device :=
  {| m_d_systemParameter := p;
     m_d_sbtRecordGeometryInstanceData := m_d_sbtRecordGeometryInstanceData d;
     m_d_sbtRecordCallables := m_d_sbtRecordCallables d;
     d_materialParameters := d_materialParameters d;
     d_lightDefinitions := d_lightDefinitions d;
     trace := trace d |}.

Definition set_m_d_records (l : list SbtRecordGeometryInstanceData) (d : Device) : Device :=
  {| m_d_systemParameter := m_d_systemParameter d;
     m_d_sbtRecordGeometryInstanceData := l;
     m_d_sbtRecordCallables := m_d_sbtRecordCallables d;
     d_materialParameters := d_materialParameters d;
     d_lightDefinitions := d_lightDefinitions d;
     trace := trace d |}.

Definition set_m_d_sbtRecordCallables (l : list SbtRecordHeader) (d : Device) : Device :=
  {| m_d_systemParameter := m_d_systemParameter d;
     m_d_sbtRecordGeometryInstanceData := m_d_sbtRecordGeometryInstanceData d;
     m_d_sbtRecordCallables := l;
     d_materialParameters := d_materialParameters d;
     d_lightDefinitions := d_lightDefinitions d;
     trace := trace d |}.

Definition set_d_materialParameters (l : list MaterialParameter) (d : Device) : Device :=
  {| m_d_systemParameter := m_d_systemParameter d;
     m_d_sbtRecordGeometryInstanceData := m_d_sbtRecordGeometryInstanceData d;
     m_d_sbtRecordCallables := m_d_sbtRecordCallables d;
     d_materialParameters := l;
     d_lightDefinitions := d_lightDefinitions d;
     trace := trace d |}.

Definition set_d_lightDefinitions (l : list LightDefinition) (d : Device) : Device :=
  {| m_d_systemParameter := m_d_systemParameter d;
     m_d_sbtRecordGeometryInstanceData := m_d_sbtRecordGeometryInstanceData d;
     m_d_sbtRecordCallables := m_d_sbtRecordCallables d;
     d_materialParameters := d_materialParameters d;
     d_lightDefinitions := l;
     trace := trace d |}.

(** ** The device-code loader *)



(** ** Construction *)

Record Options := {
  getInterop : bool;
  getLight : Z;
  getMiss : Z
}.

Definition zero_header : SbtRecordHeader :=
  replicate OPTIX_SBT_RECORD_HEADER_SIZE Byte.x00.

(** A value-initialised record, as [std::vector::resize] makes them. *)
Definition zero_record : SbtRecordGeometryInstanceData :=
  {| header := zero_header;
     data := {| indices := 0; attributes := 0; materialIndex := 0; lightIndex := 0 |} |}.

Definition initial_systemParameter : SystemParameter :=
  {| topObject := 0; outputBuffer := 0; pathLengths := (2, 5);
     iterationIndex := 0; numLights := 0; cameraType := 0;
     camera := {| cameraPosition := make_float3 F32.zero F32.zero F32.one;
                  cameraU := make_float3 F32.one F32.zero F32.zero;
                  cameraV := make_float3 F32.zero F32.one F32.zero;
                  cameraW := make_float3 F32.zero F32.zero (F32.of_Z (-1)) |} |}.

(** [Application::Application], up to the call of [initOptiX]. *)
Definition Application_new (options : Options) : Application :=
  {| m_lightID := getLight options;
     m_missID := getMiss options;
     m_interop := getInterop options;
     m_systemParameter := initial_systemParameter;
     accum := {| m_iterationIndex := 0; m_frames := 0; m_present := false;
                 m_presentNext := true; m_presentAtSecond := F64.one |};
     scene := {| m_instances := []; m_geometries := []; m_lightDefinitions := [];
                 m_guiMaterialParameters := [];
                 m_textureAlbedo := 0; m_textureCutout := 0 |};
     sbt := {| m_sbtRecordHitRadiance := zero_record;
               m_sbtRecordHitShadow := zero_record;
               m_sbtRecordHitRadianceCutout := zero_record;
               m_sbtRecordHitShadowCutout := zero_record;
               m_sbtRecordGeometryInstanceData := [];
               hitgroupRecordCount := 0; callablesRecordCount := 0 |};
     device := {| m_d_systemParameter := initial_systemParameter;
                  m_d_sbtRecordGeometryInstanceData := [];
                  m_d_sbtRecordCallables := [];
                  d_materialParameters := []; d_lightDefinitions := [];
                  trace := [] |} |}.

(** ** The accumulation loop *)

(** [Application::restartAccumulation] *)
Definition restartAccumulation (s : Application) : Application :=
  let a := set_m_presentAtSecond F64.one
             (set_m_presentNext true (set_m_iterationIndex 0 (accum s))) in
  let d := emit [StreamSynchronize; MemcpySystemParameter]
             (set_m_d_systemParameter (m_systemParameter s) (device s)) in
  set_device (emit [TimerRestart] d) (set_accum a s).

(** The launches of a trace, oldest first, each with the parameter block
    the device holds when it starts. *)
Definition launches (t : list Event) : list SystemParameter :=
  omap (λ e, match e with Launch p => Some p | _ => None end) t.

Section Program.

(** [logf] of the C library, and two constants of headers that are not
    among the sources. *)
Variable logf : float → float.
Variable RT_DEFAULT_MAX : float.
Variable FLAG_THINWALLED : Z.

(** The backend packs the header of a program group. *)
Variable optixSbtRecordPackHeader : OptixProgramGroup → SbtRecordHeader.

(** The accumulation step of [render]: the block guarded by
    [0 == m_frames || m_iterationIndex < m_frames]. *)
Definition render_launch (mapped : CUdeviceptr) (s : Application) : Application :=
  let a := accum s in
  if (0 =? m_frames a) || (m_iterationIndex a <? m_frames a) then
    (* m_systemParameter.iterationIndex = m_iterationIndex++; *)
    let s := set_systemParameter
               (set_iterationIndex (m_iterationIndex a) (m_systemParameter s)) s in
    let s := set_accum (set_m_iterationIndex (wrap_int (m_iterationIndex a + 1)) a) s in
    let d := device s in
    let d := emit [MemcpyIterationIndex]
               (set_m_d_systemParameter
                  (set_iterationIndex (iterationIndex (m_systemParameter s))
                     (m_d_systemParameter d)) d) in
    if m_interop s then
      let s := set_systemParameter (set_outputBuffer mapped (m_systemParameter s)) s in
      let d := emit [MapResources] d in
      let d := emit [MemcpyOutputBuffer]
                 (set_m_d_systemParameter
                    (set_outputBuffer (outputBuffer (m_systemParameter s))
                       (m_d_systemParameter d)) d) in
      let d := emit [Launch (m_d_systemParameter d); UnmapResources] d in
      set_device d s
    else
      set_device (emit [Launch (m_d_systemParameter d)] d) s
  else s.

(** The presentation step of [render]. *)
Definition render_present (s : Application) : Application * bool :=
  if m_presentNext (accum s) then
    let upload := if m_interop s then [TexImage] else [MemcpyOutputToHost; TexImage] in
    (set_accum (set_m_presentNext (m_present (accum s)) (accum s))
       (set_device (emit upload (device s)) s), true)
  else (s, false).

(** The timing step of [render]; [seconds] is [m_timer.getTime()]. *)
Definition render_timing (seconds : double) (s : Application) : Application :=
  if F64.ltb seconds F64.half then
    set_accum (set_m_presentNext true (set_m_presentAtSecond F64.one (accum s))) s
  else if F64.ltb (m_presentAtSecond (accum s)) seconds then
    set_accum (set_m_presentNext true
                 (set_m_presentAtSecond (F64.ceil seconds) (accum s)))
      (set_device (emit [PrintFps] (device s)) s)
  else s.

(** [Application::render]. The camera answers [getFrustum] with whether
    the frame changed and the frame; [mapped] is the pointer the graphics
    resource maps to and [seconds] the timer reading. *)
Definition render (frustum : bool * CameraFrame) (mapped : CUdeviceptr)
    (seconds : double) (s : Application) : Application * bool :=
  let '(cameraChanged, frame) := frustum in
  let s := set_systemParameter (set_camera frame (m_systemParameter s)) s in
  let s := if cameraChanged then restartAccumulation s else s in
  let s := render_launch mapped s in
  let '(s, repaint) := render_present s in
  (render_timing seconds s, repaint).

(** ** Materials *)

Definition absorption_coefficient (c : float) : float :=
  if F32.ltb F32.zero c then F32.neg (logf c) else RT_DEFAULT_MAX.

(** The body of the loop of [updateMaterialParameters]. *)
Definition convertMaterial (c : Scene) (src : MaterialParameterGUI) : MaterialParameter :=
  let ax := absorption_coefficient (x (absorptionColor src)) in
  let ay := absorption_coefficient (y (absorptionColor src)) in
  let az := absorption_coefficient (z (absorptionColor src)) in
  {| mp_indexBSDF := indexBSDF src;
     mp_albedo := albedo src;
     mp_textureAlbedo := if useAlbedoTexture src then m_textureAlbedo c else 0;
     mp_textureCutout := if useCutoutTexture src then m_textureCutout c else 0;
     mp_flags := if thinwalled src then FLAG_THINWALLED else 0;
     mp_absorption := VectorMath.scale (make_float3 ax ay az) (volumeDistanceScale src);
     mp_ior := ior src |}.

(** [Application::updateMaterialParameters] *)
Definition updateMaterialParameters (s : Application) : Application :=
  let materialParameters := map (convertMaterial (scene s)) (m_guiMaterialParameters (scene s)) in
  set_device (emit [StreamSynchronize; MemcpyMaterialParameters]
                (set_d_materialParameters materialParameters (device s))) s.

Definition gui_material (bsdf : FunctionIndex) (alb : float3) (useAlb useCut thin : bool)
    (absorb : float3) (scale ior_ : float) : MaterialParameterGUI :=
  {| indexBSDF := bsdf; albedo := alb; useAlbedoTexture := useAlb;
     useCutoutTexture := useCut; thinwalled := thin; absorptionColor := absorb;
     volumeDistanceScale := scale; ior := ior_ |}.

(** [Application::initMaterials]; the two texture objects come from the
    texture collaborator. *)
Definition initMaterials (textureAlbedo textureCutout : cudaTextureObject_t)
    (s : Application) : Application :=
  let c := set_textures textureAlbedo textureCutout (scene s) in
  let materials :=
    [ (* 0: Lambert material for the floor *)
      gui_material INDEX_BSDF_DIFFUSE_REFLECTION (make_float3_1 (F32.lit 5 10))
        true false false (make_float3_1 F32.one) F32.one (F32.lit 15 10);
      (* 1: water material for the box *)
      gui_material INDEX_BSDF_SPECULAR_REFLECTION_TRANSMISSION (make_float3_1 F32.one)
        false false false
        (make_float3 (F32.lit 75 100) (F32.lit 75 100) (F32.lit 95 100))
        F32.one (F32.lit 133 100);
      (* 2: glass material for the nested sphere *)
      gui_material INDEX_BSDF_SPECULAR_REFLECTION_TRANSMISSION (make_float3_1 F32.one)
        false false false
        (make_float3 (F32.lit 5 10) (F32.lit 75 100) (F32.lit 5 10))
        F32.one (F32.lit 152 100);
      (* 3: Lambert material with cutout opacity *)
      gui_material INDEX_BSDF_DIFFUSE_REFLECTION (make_float3_1 (F32.lit 75 100))
        false true true
        (make_float3 (F32.lit 980392 1000000) (F32.lit 729412 1000000)
           (F32.lit 470588 1000000))
        F32.one (F32.lit 15 10);
      (* 4: tinted mirror material *)
      gui_material INDEX_BSDF_SPECULAR_REFLECTION
        (make_float3 (F32.lit 462745 1000000) (F32.lit 72549 100000) F32.zero)
        false false false
        (make_float3 (F32.lit 9 10) (F32.lit 8 10) (F32.lit 8 10))
        F32.one (F32.lit 133 100);
      (* 5: black BSDF for the light *)
      gui_material INDEX_BSDF_SPECULAR_REFLECTION (make_float3_1 F32.zero)
        false false false (make_float3_1 F32.one) F32.one F32.one ] in
  set_scene (set_m_guiMaterialParameters
               (m_guiMaterialParameters c ++ materials) c) s.

(** ** Geometry, instances and lights *)

(** What the device hands back when a geometry is uploaded and its
    acceleration structure built. *)
Record GeometryBuild := {
  gb_data : GeometryData;
  gb_handle : OptixTraversableHandle
}.

(** [Application::createGeometry] *)
Definition createGeometry (b : GeometryBuild) (s : Application)
  : Application * OptixTraversableHandle :=
  let d := emit [MemcpyAttributes; MemcpyIndices; AccelBuild; StreamSynchronize] (device s) in
  let c := set_m_geometries (m_geometries (scene s) ++ [gb_data b]) (scene s) in
  (set_device d (set_scene c s), gb_handle b).

(** [createPlane], [createBox], [createSphere], [createTorus] and
    [createParallelogram] are in files that are not among the sources:
    each tessellates its shape and ends in [createGeometry]. [build k] is
    the device's answer for the geometry created when [k] exist. *)
Definition createShape (build : nat → GeometryBuild) (s : Application)
  : Application * OptixTraversableHandle :=
  createGeometry (build (length (m_geometries (scene s)))) s.

(** The block that appends one instance in [initPipeline] and in
    [createLights]. *)
Definition push_instance (trafo : list float) (h : OptixTraversableHandle)
    (s : Application) : Application :=
  let id := to_uint (Z.of_nat (length (m_instances (scene s)))) in
  let instance :=
    {| transform := trafo;
       instanceId := id;
       sbtOffset := to_uint (id * NUM_RAYTYPES);
       visibilityMask := 255;
       flags := 0;
       traversableHandle := h |} in
  set_scene (set_m_instances (m_instances (scene s) ++ [instance]) (scene s)) s.

Definition f0 : float := F32.zero.
Definition f1 : float := F32.one.

Definition trafoPlane : list float :=
  [ F32.of_Z 8; f0; f0; f0;
    f0; F32.of_Z 8; f0; f0;
    f0; f0; F32.of_Z 8; f0 ].

Definition trafoBox : list float :=
  [ f1; f0; f0; F32.lit (-25) 10;
    f0; f1; f0; F32.lit 125 100;
    f0; f0; f1; f0 ].

Definition trafoNested : list float :=
  [ F32.lit 75 100; f0; f0; F32.lit (-25) 10;
    f0; F32.lit 75 100; f0; F32.lit 125 100;
    f0; f0; F32.lit 75 100; f0 ].

Definition trafoSphere : list float :=
  [ f1; f0; f0; f0;
    f0; f1; f0; F32.lit 125 100;
    f0; f0; f1; f0 ].

Definition trafoTorus : list float :=
  [ f1; f0; f0; F32.lit 25 10;
    f0; f1; f0; F32.lit 125 100;
    f0; f0; f1; f0 ].

Definition trafoLight : list float :=
  [ f1; f0; f0; f0;
    f0; f1; f0; f0;
    f0; f0; f1; f0 ].

(** [M_PIf], 3.14159265358979323846f. *)
Definition M_PIf : float := S754_finite false 13176795 (-22).

Definition push_light (l : LightDefinition) (s : Application) : Application :=
  set_scene (set_m_lightDefinitions (m_lightDefinitions (scene s) ++ [l]) (scene s)) s.

(** The environment light of [createLights], for miss programs 1 and 2. *)
Definition environment_light : LightDefinition :=
  {| type := LIGHT_ENVIRONMENT;
     position := make_float3 f0 f0 f0;
     vecU := make_float3 f1 f0 f0;
     vecV := make_float3 f0 f1 f0;
     normal := make_float3 f0 f0 f1;
     area := F32.mul (F32.of_Z 4) M_PIf;
     emission := make_float3 f1 f1 f1 |}.

(** The parallelogram light of [createLights]. *)
Definition parallelogram_light : LightDefinition :=
  let u := make_float3 (F32.of_Z 4) f0 f0 in
  let v := make_float3 f0 f0 (F32.of_Z 4) in
  let n := VectorMath.cross u v in
  let a := VectorMath.length n in
  {| type := LIGHT_PARALLELOGRAM;
     position := make_float3 (F32.of_Z (-2)) (F32.of_Z 4) (F32.of_Z (-2));
     vecU := u;
     vecV := v;
     normal := VectorMath.div_scalar n a;
     area := a;
     emission := make_float3_1 (F32.of_Z 10) |}.

(** One geometry and its instance: the shape is created, then appended
    to [m_instances] with its traversable handle. *)
Definition add_instance (build : nat → GeometryBuild) (trafo : list float)
    (s : Application) : Application :=
  let '(s, geo) := createShape build s in
  push_instance trafo geo s.

(** [Application::createLights] *)
Definition createLights (build : nat → GeometryBuild) (s : Application) : Application :=
  let s :=
    match m_missID s with
    | 1 => push_light environment_light s
    | 2 => push_light environment_light s (* after loading the environment texture *)
    | _ => s
    end in
  if negb (m_lightID s =? 0) then
    let s := push_light parallelogram_light s in
    add_instance build trafoLight s (* createParallelogram and its instance *)
  else s.

(** The INSTANCES part of [initPipeline], up to and including the call
    of [createLights]. *)
Definition initPipeline_instances (build : nat → GeometryBuild) (s : Application)
  : Application :=
  let s := add_instance build trafoPlane s in   (* createPlane(1, 1, 1) *)
  let s := add_instance build trafoBox s in     (* createBox() *)
  let s := add_instance build trafoNested s in  (* createSphere(180, 90, 1.0f, M_PIf) *)
  let s := add_instance build trafoSphere s in  (* createSphere(180, 90, 1.0f, M_PIf) *)
  let s := add_instance build trafoTorus s in   (* createTorus(180, 180, 0.75f, 0.25f) *)
  createLights build s.

(** ** Program groups *)

Definition zero_desc : OptixProgramGroupDesc :=
  {| kind := OPTIX_PROGRAM_GROUP_KIND_NONE; entryFunction := None;
     entryCH := None; entryAH := None |}.

Definition ent (m : ModuleIdentifier) (name : string) : entry := Some (m, name).

Definition single (k : OptixProgramGroupKind) (m : ModuleIdentifier) (name : string)
  : OptixProgramGroupDesc :=
  {| kind := k; entryFunction := ent m name; entryCH := None; entryAH := None |}.

Definition hitgroup (ch ah : entry) : OptixProgramGroupDesc :=
  {| kind := OPTIX_PROGRAM_GROUP_KIND_HITGROUP; entryFunction := None;
     entryCH := ch; entryAH := ah |}.

Definition callable (m : ModuleIdentifier) (name : string) : OptixProgramGroupDesc :=
  single OPTIX_PROGRAM_GROUP_KIND_CALLABLES m name.

(** [programGroupDescriptions[id] = d] *)
Definition pgd_set (id : ProgramIdentifier) (d : OptixProgramGroupDesc)
    (v : list OptixProgramGroupDesc) : list OptixProgramGroupDesc :=
  <[Z.to_nat (program_id id) := d]> v.

(** The program group descriptions [initPipeline] sets up. *)
Definition programGroupDescriptions (missID : Z) : list OptixProgramGroupDesc :=
  let v := replicate (Z.to_nat NUM_PROGRAM_IDENTIFIERS) zero_desc in
  let v := pgd_set PROGRAM_ID_RAYGENERATION
             (single OPTIX_PROGRAM_GROUP_KIND_RAYGEN MODULE_ID_RAYGENERATION
                "__raygen__pathtracer") v in
  let v := pgd_set PROGRAM_ID_EXCEPTION
             (single OPTIX_PROGRAM_GROUP_KIND_EXCEPTION MODULE_ID_EXCEPTION
                "__exception__all") v in
  let v := pgd_set PROGRAM_ID_MISS_RADIANCE
             (single OPTIX_PROGRAM_GROUP_KIND_MISS MODULE_ID_MISS
                match missID with
                | 0 => "__miss__env_null"
                | 2 => "__miss__env_sphere"
                | _ => "__miss__env_constant"
                end) v in
  let v := pgd_set PROGRAM_ID_MISS_SHADOW
             {| kind := OPTIX_PROGRAM_GROUP_KIND_MISS; entryFunction := None;
                entryCH := None; entryAH := None |} v in
  let v := pgd_set PROGRAM_ID_HIT_RADIANCE
             (hitgroup (ent MODULE_ID_CLOSESTHIT "__closesthit__radiance") None) v in
  let v := pgd_set PROGRAM_ID_HIT_SHADOW
             (hitgroup None (ent MODULE_ID_ANYHIT "__anyhit__shadow")) v in
  let v := pgd_set PROGRAM_ID_HIT_RADIANCE_CUTOUT
             (hitgroup (ent MODULE_ID_CLOSESTHIT "__closesthit__radiance")
                (ent MODULE_ID_ANYHIT "__anyhit__radiance_cutout")) v in
  let v := pgd_set PROGRAM_ID_HIT_SHADOW_CUTOUT
             (hitgroup None (ent MODULE_ID_ANYHIT "__anyhit__shadow_cutout")) v in
  let v := pgd_set PROGRAM_ID_LENS_PINHOLE
             (callable MODULE_ID_LENS_SHADER "__direct_callable__pinhole") v in
  let v := pgd_set PROGRAM_ID_LENS_FISHEYE
             (callable MODULE_ID_LENS_SHADER "__direct_callable__fisheye") v in
  let v := pgd_set PROGRAM_ID_LENS_SPHERE
             (callable MODULE_ID_LENS_SHADER "__direct_callable__sphere") v in
  let v := pgd_set PROGRAM_ID_LIGHT_ENV
             (callable MODULE_ID_LIGHT_SAMPLE
                match missID with
                | 2 => "__direct_callable__light_env_sphere"
                | _ => "__direct_callable__light_env_constant"
                end) v in
  let v := pgd_set PROGRAM_ID_LIGHT_PARALLELOGRAM
             (callable MODULE_ID_LIGHT_SAMPLE "__direct_callable__light_parallelogram") v in
  let v := pgd_set PROGRAM_ID_BRDF_DIFFUSE_SAMPLE
             (callable MODULE_ID_DIFFUSE_REFLECTION
                "__direct_callable__sample_bsdf_diffuse_reflection") v in
  let v := pgd_set PROGRAM_ID_BRDF_DIFFUSE_EVAL
             (callable MODULE_ID_DIFFUSE_REFLECTION
                "__direct_callable__eval_bsdf_diffuse_reflection") v in
  let v := pgd_set PROGRAM_ID_BRDF_SPECULAR_SAMPLE
             (callable MODULE_ID_SPECULAR_REFLECTION
                "__direct_callable__sample_bsdf_specular_reflection") v in
  let v := pgd_set PROGRAM_ID_BRDF_SPECULAR_EVAL
             (callable MODULE_ID_SPECULAR_REFLECTION
                "__direct_callable__eval_bsdf_specular_reflection") v in
  let v := pgd_set PROGRAM_ID_BSDF_SPECULAR_SAMPLE
             (callable MODULE_ID_SPECULAR_REFLECTION_TRANSMISSION
                "__direct_callable__sample_bsdf_specular_reflection_transmission") v in
  pgd_set PROGRAM_ID_BSDF_SPECULAR_EVAL
    (callable MODULE_ID_SPECULAR_REFLECTION
       "__direct_callable__eval_bsdf_specular_reflection") v.

(** [optixProgramGroupCreate]: one program group per description. *)
Definition optixProgramGroupCreate (descs : list OptixProgramGroupDesc)
  : list OptixProgramGroup := descs.

(** ** The shader binding table *)

(** The four [optixSbtRecordPackHeader] calls for the hit groups: the
    backend writes the header of each member record, the data field is
    left as it is. *)
Definition packHitGroupHeaders (programGroups : list OptixProgramGroup)
    (s : Application) : option Application :=
  pgRadiance ← vec_at programGroups (program_id PROGRAM_ID_HIT_RADIANCE);
  pgShadow ← vec_at programGroups (program_id PROGRAM_ID_HIT_SHADOW);
  pgRadianceCutout ← vec_at programGroups (program_id PROGRAM_ID_HIT_RADIANCE_CUTOUT);
  pgShadowCutout ← vec_at programGroups (program_id PROGRAM_ID_HIT_SHADOW_CUTOUT);
  let t := sbt s in
  Some (set_sbt
    {| m_sbtRecordHitRadiance :=
         set_header (optixSbtRecordPackHeader pgRadiance) (m_sbtRecordHitRadiance t);
       m_sbtRecordHitShadow :=
         set_header (optixSbtRecordPackHeader pgShadow) (m_sbtRecordHitShadow t);
       m_sbtRecordHitRadianceCutout :=
         set_header (optixSbtRecordPackHeader pgRadianceCutout)
           (m_sbtRecordHitRadianceCutout t);
       m_sbtRecordHitShadowCutout :=
         set_header (optixSbtRecordPackHeader pgShadowCutout)
           (m_sbtRecordHitShadowCutout t);
       m_sbtRecordGeometryInstanceData := m_sbtRecordGeometryInstanceData t;
       hitgroupRecordCount := hitgroupRecordCount t;
       callablesRecordCount := callablesRecordCount t |} s).

(** [memcpy(records[i].header, src.header, OPTIX_SBT_RECORD_HEADER_SIZE)] *)
Definition copy_header (src : SbtRecordGeometryInstanceData) (i : Z)
    (records : list SbtRecordGeometryInstanceData)
  : option (list SbtRecordGeometryInstanceData) :=
  vec_update records i
    (λ r, set_header (memcpy (header r) (header src) OPTIX_SBT_RECORD_HEADER_SIZE) r).

(** The header switch on [useCutoutTexture], the same block in
    [initPipeline] and in [updateShaderBindingTable]; [idx] is the
    radiance record, [idx + 1] the shadow record. *)
Definition switchHitGroup (t : Sbt) (material : MaterialParameterGUI) (idx : Z)
    (records : list SbtRecordGeometryInstanceData)
  : option (list SbtRecordGeometryInstanceData) :=
  if negb (useCutoutTexture material) then
    records ← copy_header (m_sbtRecordHitRadiance t) idx records;
    copy_header (m_sbtRecordHitShadow t) (wrap_int (idx + 1)) records
  else
    records ← copy_header (m_sbtRecordHitRadianceCutout t) idx records;
    copy_header (m_sbtRecordHitShadowCutout t) (wrap_int (idx + 1)) records.

(** The body of the loop over the instances in [initPipeline]. *)
Definition hitRecord_body (s : Application) (i : Z)
    (records : list SbtRecordGeometryInstanceData)
  : option (list SbtRecordGeometryInstanceData) :=
  let idx := wrap_int (i * NUM_RAYTYPES) in
  material ← vec_at (m_guiMaterialParameters (scene s)) i;
  records ← switchHitGroup (sbt s) material idx records;
  geometry ← vec_at (m_geometries (scene s)) i;
  let g := {| indices := gd_indices geometry;
              attributes := gd_attributes geometry;
              materialIndex := i;
              lightIndex := -1 |} in
  records ← vec_update records idx (set_data g);
  vec_update records (wrap_int (idx + 1)) (set_data g).

(** The block guarded by [m_lightID] after the loop. *)
Definition hitRecord_light (s : Application) (numInstances : Z)
    (records : list SbtRecordGeometryInstanceData)
  : option (list SbtRecordGeometryInstanceData) :=
  if negb (m_lightID s =? 0) then
    let idx := wrap_int (wrap_int (numInstances - 1) * NUM_RAYTYPES) in
    let lightIndex_ := if negb (m_missID s =? 0) then 1 else 0 in
    records ← vec_update records idx
                (λ r, set_data (set_lightIndex lightIndex_ (data r)) r);
    vec_update records (wrap_int (idx + 1))
      (λ r, set_data (set_lightIndex lightIndex_ (data r)) r)
  else Some records.

(** The filled records become the host array, are copied to the device
    and counted in [m_sbt]. *)
Definition store_hitRecords (count : Z) (records : list SbtRecordGeometryInstanceData)
    (s : Application) : Application :=
  let d := emit [MemcpySbtRecords 0 count] (set_m_d_records records (device s)) in
  set_device d
    (set_sbt (set_hitgroupRecordCount (to_uint count) (set_records records (sbt s))) s).

(** The hit-group records of [initPipeline]: resize, fill, mark the
    light, copy to the device and set the count of [m_sbt]. *)
Definition initPipeline_hitRecords (s : Application) : option Application :=
  let numInstances := wrap_int (Z.of_nat (length (m_instances (scene s)))) in
  let count := wrap_int (NUM_RAYTYPES * numInstances) in
  let records := resize (Z.to_nat (to_size_t count)) zero_record
                   (m_sbtRecordGeometryInstanceData (sbt s)) in
  records ← for_int (Z.to_nat numInstances) (hitRecord_body s) records;
  records ← hitRecord_light s numInstances records;
  Some (store_hitRecords count records s).

(** The callable records of [initPipeline]. *)
Definition initPipeline_callables (programGroups : list OptixProgramGroup)
    (s : Application) : option Application :=
  let numCallables :=
    wrap_int (NUM_PROGRAM_IDENTIFIERS - program_id PROGRAM_ID_LENS_PINHOLE) in
  let sbtRecordCallables :=
    replicate (Z.to_nat (to_size_t numCallables)) zero_header in
  sbtRecordCallables ←
    for_int (Z.to_nat numCallables)
      (λ i recs,
         pg ← vec_at programGroups (wrap_int (program_id PROGRAM_ID_LENS_PINHOLE + i));
         vec_update recs i (λ _, optixSbtRecordPackHeader pg))
      sbtRecordCallables;
  let d := emit [MemcpySbtCallables]
             (set_m_d_sbtRecordCallables sbtRecordCallables (device s)) in
  Some (set_device d
          (set_sbt (set_callablesRecordCount
                      (to_uint (Z.of_nat (length sbtRecordCallables))) (sbt s)) s)).

(** The launch-parameter part at the end of [initPipeline]. *)
Definition initPipeline_systemParameter (root : OptixTraversableHandle)
    (output : CUdeviceptr) (frame : CameraFrame) (s : Application) : Application :=
  let s := set_device (emit [MemcpyLightDefinitions]
                         (set_d_lightDefinitions (m_lightDefinitions (scene s)) (device s))) s in
  let s := updateMaterialParameters s in
  let p := {| topObject := root;
              outputBuffer := output;
              pathLengths := (2, 10);
              iterationIndex := 0;
              numLights := to_uint (Z.of_nat (length (m_lightDefinitions (scene s))));
              cameraType := 0; (* LENS_SHADER_PINHOLE *)
              camera := frame |} in
  set_device (emit [MemcpySystemParameter] (set_m_d_systemParameter p (device s)))
    (set_systemParameter p s).

(** What the device, the backend and the camera answer during
    [initPipeline]. *)
Record PipelineEnv := {
  env_build : nat → GeometryBuild;
  env_root : OptixTraversableHandle;
  env_outputBuffer : CUdeviceptr;
  env_frustum : CameraFrame
}.

(** [Application::initPipeline]. The build of the instance acceleration
    structure (its handle is [env_root]), the modules, the pipeline with
    its stack sizes, and the raygeneration, exception and miss records
    write nothing of the state kept here and are left out. *)
Definition initPipeline (e : PipelineEnv) (s : Application) : option Application :=
  let s := initPipeline_instances (env_build e) s in
  let programGroups := optixProgramGroupCreate (programGroupDescriptions (m_missID s)) in
  s ← packHitGroupHeaders programGroups s;
  s ← initPipeline_hitRecords s;
  s ← initPipeline_callables programGroups s;
  Some (initPipeline_systemParameter (env_root e) (env_outputBuffer e) (env_frustum e) s).

(** [Application::initRenderer] *)
Definition initRenderer (textureAlbedo textureCutout : cudaTextureObject_t)
    (e : PipelineEnv) (s : Application) : option Application :=
  initPipeline e (initMaterials textureAlbedo textureCutout s).

(** The [cudaMemcpy] of [NUM_RAYTYPES] records from the host array to the
    device array, both at [idx]. *)
Definition copy_records_to_device (idx : Z)
    (host dev : list SbtRecordGeometryInstanceData)
  : option (list SbtRecordGeometryInstanceData) :=
  r0 ← vec_at host idx;
  r1 ← vec_at host (wrap_int (idx + 1));
  dev ← vec_update dev idx (λ _, r0);
  vec_update dev (wrap_int (idx + 1)) (λ _, r1).

(** [Application::updateShaderBindingTable]. The comparison converts
    [instance] to [size_t]. *)
Definition updateShaderBindingTable (instance : Z) (s : Application)
  : option Application :=
  if to_size_t instance <? Z.of_nat (length (m_instances (scene s))) then
    let idx := wrap_int (instance * NUM_RAYTYPES) in
    material ← vec_at (m_guiMaterialParameters (scene s)) instance;
    records ← switchHitGroup (sbt s) material idx
                (m_sbtRecordGeometryInstanceData (sbt s));
    d_records ← copy_records_to_device idx records
                  (m_d_sbtRecordGeometryInstanceData (device s));
    let d := emit [StreamSynchronize; MemcpySbtRecords idx NUM_RAYTYPES]
               (set_m_d_records d_records (device s)) in
    Some (set_device d (set_sbt (set_records records (sbt s)) s))
  else Some s.

(** The GUI toggles "Use Cutout Texture" of material [i] and calls
    [updateShaderBindingTable(i)]. *)
Definition set_useCutoutTexture (b : bool) (m : MaterialParameterGUI) : MaterialParameterGUI :=
  {| indexBSDF := indexBSDF m; albedo := albedo m;
     useAlbedoTexture := useAlbedoTexture m; useCutoutTexture := b;
     thinwalled := thinwalled m; absorptionColor := absorptionColor m;
     volumeDistanceScale := volumeDistanceScale m; ior := ior m |}.

Definition toggleCutout (i : Z) (s : Application) : option Application :=
  material ← vec_at (m_guiMaterialParameters (scene s)) i;
  let materials :=
    <[Z.to_nat (to_size_t i) := set_useCutoutTexture (negb (useCutoutTexture material)) material]>
      (m_guiMaterialParameters (scene s)) in
  updateShaderBindingTable i
    (set_scene (set_m_guiMaterialParameters materials (scene s)) s).

End Program.

(** ** The main loop and the system widgets *)

(** What one call of [render] is given: the camera's answer to
    [getFrustum], the pointer the graphics resource maps to and the
    reading of the timer. *)
Record FrameInput := {
  in_frustum : bool * CameraFrame;
  in_mapped : CUdeviceptr;
  in_seconds : double
}.

(** The calls of [render], one per frame, in order. *)
Definition render_frames (inputs : list FrameInput) (s : Application) : Application :=
  foldl (λ s i, (render (in_frustum i) (in_mapped i) (in_seconds i) s).1) s inputs.

Definition set_m_frames (n : Z) (a : Accumulation) : Accumulation :=
  {| m_iterationIndex := m_iterationIndex a; m_frames := n; m_present := m_present a;
     m_presentNext := m_presentNext a; m_presentAtSecond := m_presentAtSecond a |}.


Definition set_cameraType (t : Z) (p : SystemParameter) : SystemParameter :=
  {| topObject := topObject p; outputBuffer := outputBuffer p;
     pathLengths := pathLengths p; iterationIndex := iterationIndex p;
     numLights := numLights p; cameraType := t; camera := camera p |}.

Definition set_pathLengths (l : Z * Z) (p : SystemParameter) : SystemParameter :=
  {| topObject := topObject p; outputBuffer := outputBuffer p;
     pathLengths := l; iterationIndex := iterationIndex p;
     numLights := numLights p; cameraType := cameraType p; camera := camera p |}.

(** The widgets of the "System" header of [guiWindow] whose values are part
    of the state kept here. Each definition is the body run when the
    widget reports a change, the widget having written its new value. *)


(** [ImGui::Combo("Camera", &m_systemParameter.cameraType, ...)] *)
Definition guiWindow_Camera (v : Z) (s : Application) : Application :=
  restartAccumulation (set_systemParameter (set_cameraType v (m_systemParameter s)) s).

(** [ImGui::DragInt("Min Path Length", &m_systemParameter.pathLengths.x, ...)] *)
Definition guiWindow_MinPathLength (v : Z) (s : Application) : Application :=
  restartAccumulation
    (set_systemParameter
       (set_pathLengths (v, (pathLengths (m_systemParameter s)).2) (m_systemParameter s)) s).

(** [ImGui::DragInt("Max Path Length", &m_systemParameter.pathLengths.y, ...)] *)
Definition guiWindow_MaxPathLength (v : Z) (s : Application) : Application :=
  restartAccumulation
    (set_systemParameter
       (set_pathLengths ((pathLengths (m_systemParameter s)).1, v) (m_systemParameter s)) s).

(** [ImGui::DragInt("Frames", &m_frames, 1.0f, 0, 10000)] *)
Definition guiWindow_Frames (v : Z) (s : Application) : Application :=
  let s := set_accum (set_m_frames v (accum s)) s in
  if negb (m_frames (accum s) =? 0) && (m_frames (accum s) <? m_iterationIndex (accum s))
  then restartAccumulation s
  else s.

(** ** The material and light panels *)

Definition set_indexBSDF (v : FunctionIndex) (m : MaterialParameterGUI) : MaterialParameterGUI :=
  {| indexBSDF := v; albedo := albedo m;
     useAlbedoTexture := useAlbedoTexture m; useCutoutTexture := useCutoutTexture m;
     thinwalled := thinwalled m; absorptionColor := absorptionColor m;
     volumeDistanceScale := volumeDistanceScale m; ior := ior m |}.

Definition set_albedo (v : float3) (m : MaterialParameterGUI) : MaterialParameterGUI :=
  {| indexBSDF := indexBSDF m; albedo := v;
     useAlbedoTexture := useAlbedoTexture m; useCutoutTexture := useCutoutTexture m;
     thinwalled := thinwalled m; absorptionColor := absorptionColor m;
     volumeDistanceScale := volumeDistanceScale m; ior := ior m |}.

Definition set_useAlbedoTexture (v : bool) (m : MaterialParameterGUI) : MaterialParameterGUI :=
  {| indexBSDF := indexBSDF m; albedo := albedo m;
     useAlbedoTexture := v; useCutoutTexture := useCutoutTexture m;
     thinwalled := thinwalled m; absorptionColor := absorptionColor m;
     volumeDistanceScale := volumeDistanceScale m; ior := ior m |}.

Definition set_thinwalled (v : bool) (m : MaterialParameterGUI) : MaterialParameterGUI :=
  {| indexBSDF := indexBSDF m; albedo := albedo m;
     useAlbedoTexture := useAlbedoTexture m; useCutoutTexture := useCutoutTexture m;
     thinwalled := v; absorptionColor := absorptionColor m;
     volumeDistanceScale := volumeDistanceScale m; ior := ior m |}.

Definition set_absorptionColor (v : float3) (m : MaterialParameterGUI) : MaterialParameterGUI :=
  {| indexBSDF := indexBSDF m; albedo := albedo m;
     useAlbedoTexture := useAlbedoTexture m; useCutoutTexture := useCutoutTexture m;
     thinwalled := thinwalled m; absorptionColor := v;
     volumeDistanceScale := volumeDistanceScale m; ior := ior m |}.

Definition set_volumeDistanceScale (v : float) (m : MaterialParameterGUI)
  : MaterialParameterGUI :=
  {| indexBSDF := indexBSDF m; albedo := albedo m;
     useAlbedoTexture := useAlbedoTexture m; useCutoutTexture := useCutoutTexture m;
     thinwalled := thinwalled m; absorptionColor := absorptionColor m;
     volumeDistanceScale := v; ior := ior m |}.

Definition set_ior (v : float) (m : MaterialParameterGUI) : MaterialParameterGUI :=
  {| indexBSDF := indexBSDF m; albedo := albedo m;
     useAlbedoTexture := useAlbedoTexture m; useCutoutTexture := useCutoutTexture m;
     thinwalled := thinwalled m; absorptionColor := absorptionColor m;
     volumeDistanceScale := volumeDistanceScale m; ior := v |}.

Definition set_emission (v : float3) (l : LightDefinition) : LightDefinition :=
  {| type := type l; position := position l; vecU := vecU l; vecV := vecV l;
     normal := normal l; area := area l; emission := v |}.

(** What the widgets of one "Material %d" node answer in a frame: whether
    the tree node is open and, for each widget, the value it has written
    when it reports an edit; [None] when it reports none and leaves its
    variable alone. *)
Record MaterialWidgets := {
  w_TreeNode : bool;
  w_BSDFType : option FunctionIndex;
  w_Albedo : option float3;
  w_UseAlbedoTexture : option bool;
  w_UseCutoutTexture : option bool;
  w_ThinWalled : option bool;
  w_Absorption : option float3;
  w_VolumeScale : option float;
  w_IOR : option float
}.

(** The same for a "Light %d" node. *)
Record LightWidgets := {
  l_TreeNode : bool;
  l_Emission : option float3
}.

(** [if (ImGui::Widget(..., &parameters.field)) { changed = true; }] on
    material [i]; the state of the loop is the application and [changed]. *)
Definition material_widget {A} (answer : option A)
    (set : A → MaterialParameterGUI → MaterialParameterGUI) (i : Z)
    (st : Application * bool) : option (Application * bool) :=
  match answer with
  | Some v =>
      materials ← vec_update (m_guiMaterialParameters (scene st.1)) i (set v);
      Some (set_scene (set_m_guiMaterialParameters materials (scene st.1)) st.1, true)
  | None => Some st
  end.

(** The "Use Cutout Texture" checkbox, which also calls
    [updateShaderBindingTable(i)]. *)
Definition cutout_widget (answer : option bool) (i : Z) (st : Application * bool)
  : option (Application * bool) :=
  match answer with
  | Some v =>
      materials ← vec_update (m_guiMaterialParameters (scene st.1)) i
                    (set_useCutoutTexture v);
      s ← updateShaderBindingTable i
            (set_scene (set_m_guiMaterialParameters materials (scene st.1)) st.1);
      Some (s, true)
  | None => Some st
  end.

(** The body of the loop over the materials in [guiWindow]. *)
Definition guiWindow_material (w : MaterialWidgets) (i : Z) (st : Application * bool)
  : option (Application * bool) :=
  if w_TreeNode w then
    _ ← vec_at (m_guiMaterialParameters (scene st.1)) i;
    st ← material_widget (w_BSDFType w) set_indexBSDF i st;
    st ← material_widget (w_Albedo w) set_albedo i st;
    st ← material_widget (w_UseAlbedoTexture w) set_useAlbedoTexture i st;
    st ← cutout_widget (w_UseCutoutTexture w) i st;
    st ← material_widget (w_ThinWalled w) set_thinwalled i st;
    parameters ← vec_at (m_guiMaterialParameters (scene st.1)) i;
    match indexBSDF parameters with
    | INDEX_BSDF_SPECULAR_REFLECTION_TRANSMISSION =>
        st ← material_widget (w_Absorption w) set_absorptionColor i st;
        st ← material_widget (w_VolumeScale w) set_volumeDistanceScale i st;
        material_widget (w_IOR w) set_ior i st
    | _ => Some st
    end
  else Some st.

(** The body of the loop over the lights in [guiWindow]. *)
Definition guiWindow_light (w : LightWidgets) (i : Z) (st : Application * bool)
  : option (Application * bool) :=
  light ← vec_at (m_lightDefinitions (scene st.1)) i;
  match type light with
  | LIGHT_PARALLELOGRAM =>
      if l_TreeNode w then
        match l_Emission w with
        | Some v =>
            lights ← vec_update (m_lightDefinitions (scene st.1)) i (set_emission v);
            Some (set_scene (set_m_lightDefinitions lights (scene st.1)) st.1, true)
        | None => Some st
        end
      else Some st
  | LIGHT_ENVIRONMENT => Some st
  end.

Section Panels.

Variable logf : float → float.
Variable RT_DEFAULT_MAX : float.
Variable FLAG_THINWALLED : Z.

(** The "Materials" header of [guiWindow]; [header] is the answer of
    [ImGui::CollapsingHeader] and [widgets i] the answers of the widgets of
    material [i]. The last material is left out of the loop. *)
Definition guiWindow_Materials (header : bool) (widgets : Z → MaterialWidgets)
    (s : Application) : option Application :=
  if header then
    let n := wrap_int (wrap_int (Z.of_nat (length (m_guiMaterialParameters (scene s)))) - 1) in
    match for_int (Z.to_nat n) (λ i st, guiWindow_material (widgets i) i st) (s, false) with
    | Some (s, true) =>
        Some (restartAccumulation
                (updateMaterialParameters logf RT_DEFAULT_MAX FLAG_THINWALLED s))
    | Some (s, false) => Some s
    | None => None
    end
  else Some s.

End Panels.

(** The "Lights" header of [guiWindow]. *)
Definition guiWindow_Lights (header : bool) (widgets : Z → LightWidgets)
    (s : Application) : option Application :=
  if header then
    let n := wrap_int (Z.of_nat (length (m_lightDefinitions (scene s)))) in
    match for_int (Z.to_nat n) (λ i st, guiWindow_light (widgets i) i st) (s, false) with
    | Some (s, true) =>
        let d := emit [StreamSynchronize; MemcpyLightDefinitions]
                   (set_d_lightDefinitions (m_lightDefinitions (scene s)) (device s)) in
        Some (restartAccumulation (set_device d s))
    | Some (s, false) => Some s
    | None => None
    end
  else Some s.

(** ** The window: construction, resizing and the mouse *)

Inductive cudaError_t :=
  | cudaSuccess
  | cudaError (code : Z).

Inductive CUresult :=
  | CUDA_SUCCESS
  | CUDA_ERROR (code : Z).

Inductive OptixResult :=
  | OPTIX_SUCCESS
  | OPTIX_ERROR_LIBRARY_NOT_FOUND
  | OPTIX_ERROR_ENTRY_SYMBOL_NOT_FOUND
  | OPTIX_ERROR (code : Z).

(** What the CUDA runtime, the driver, the dynamic loader and the OptiX
    entry points answer during [initOptiX]. *)
Record Platform := {
  cudaFree_0 : cudaError_t;
  cuCtxGetCurrent : CUresult;
  cudaStreamCreate : cudaError_t;
  dlopen : bool;                          (* the handle is not null *)
  dlsym : bool;                           (* the symbol is not null *)
  optixQueryFunctionTable : OptixResult;
  optixDeviceContextCreate : OptixResult
}.

(** The lines [initOptiX] writes to [std::cerr]. *)
Inductive InitError :=
  | cudaFree_failed (e : cudaError_t)
  | cuCtxGetCurrent_failed (e : CUresult)
  | cudaStreamCreate_failed (e : cudaError_t)
  | initOptiXFunctionTable_failed (e : OptixResult)
  | optixDeviceContextCreate_failed (e : OptixResult).

(** [Application::initOptiXFunctionTable] *)
Definition initOptiXFunctionTable (p : Platform) : OptixResult :=
  if negb (dlopen p) then OPTIX_ERROR_LIBRARY_NOT_FOUND
  else if negb (dlsym p) then OPTIX_ERROR_ENTRY_SYMBOL_NOT_FOUND
  else optixQueryFunctionTable p.

(** [Application::initOptiX]; [renderer] is [initRenderer] with what it is
    given. The result is the state, the value returned and the lines on
    [std::cerr]. *)
Definition initOptiX (p : Platform) (renderer : Application → option Application)
    (s : Application) : option (Application * bool * list InitError) :=
  match cudaFree_0 p with
  | cudaError _ => Some (s, false, [cudaFree_failed (cudaFree_0 p)])
  | cudaSuccess =>
  match cuCtxGetCurrent p with
  | CUDA_ERROR _ => Some (s, false, [cuCtxGetCurrent_failed (cuCtxGetCurrent p)])
  | CUDA_SUCCESS =>
  match cudaStreamCreate p with
  | cudaError _ => Some (s, false, [cudaStreamCreate_failed (cudaStreamCreate p)])
  | cudaSuccess =>
  match initOptiXFunctionTable p with
  | OPTIX_SUCCESS =>
      match optixDeviceContextCreate p with
      | OPTIX_SUCCESS => s ← renderer s; Some (s, true, [])
      | res => Some (s, false, [optixDeviceContextCreate_failed res])
      end
  | res => Some (s, false, [initOptiXFunctionTable_failed res])
  end end end end.

Inductive GuiState :=
  | GUI_STATE_NONE
  | GUI_STATE_ORBIT
  | GUI_STATE_PAN
  | GUI_STATE_DOLLY.

(** The member functions of [m_pinholeCamera] the application calls. *)
Inductive CameraCall :=
  | setViewport (width height : Z)
  | setBaseCoordinates (x y : Z)
  | orbit (x y : Z)
  | pan (x y : Z)
  | dolly (x y : Z)
  | zoom (wheel : float).

(** The members of [Application] that belong to the window and the mouse,
    around the renderer's state; [m_pinholeCamera] is the list of the calls
    made on the camera, oldest first. *)
Record Window := {
  app : Application;
  m_width : Z;
  m_height : Z;
  m_isValid : bool;
  m_guiState : GuiState;
  m_isVisibleGUI : bool;
  m_pinholeCamera : list CameraCall
}.

(** [Application::Application]: the window members, then [initOptiX]. The
    GUI style and [initOpenGL] write nothing of the state kept here. *)
Definition Application_ctor (p : Platform) (renderer : Application → option Application)
    (getClientWidth getClientHeight : Z) (options : Options)
  : option (Window * list InitError) :=
  let width := Z.max 1 getClientWidth in
  let height := Z.max 1 getClientHeight in
  match initOptiX p renderer (Application_new options) with
  | Some (s, valid, errors) =>
      Some ({| app := s; m_width := width; m_height := height; m_isValid := valid;
               m_guiState := GUI_STATE_NONE; m_isVisibleGUI := true;
               m_pinholeCamera := [setViewport width height] |}, errors)
  | None => None
  end.

(** [Application::isValid] *)
Definition isValid (w : Window) : bool := m_isValid w.

(** [Application::reshape]. [pointer] is the device pointer of the new
    output buffer: the one the graphics resource maps to with interop, the
    one [cudaMalloc] returns without. The OpenGL calls and the host buffer
    are not part of the state kept here. *)
Definition reshape (width height : Z) (pointer : CUdeviceptr) (w : Window) : Window :=
  if (negb (width =? 0) && negb (height =? 0)) &&
     (negb (m_width w =? width) || negb (m_height w =? height))
  then
    let s := app w in
    let d := if m_interop s then emit [MapResources; UnmapResources] (device s)
             else device s in
    let s := set_device d
               (set_systemParameter (set_outputBuffer pointer (m_systemParameter s)) s) in
    {| app := restartAccumulation s;
       m_width := width; m_height := height; m_isValid := m_isValid w;
       m_guiState := m_guiState w; m_isVisibleGUI := m_isVisibleGUI w;
       m_pinholeCamera := m_pinholeCamera w ++ [setViewport width height] |}
  else w.

(** What ImGui reports to [guiEventHandler]: the SPACE key, the mouse
    position converted to [int], whether the GUI wants the mouse, the
    buttons and the wheel. *)
Record ImGuiIO := {
  IsKeyPressed_space : bool;
  mouse_x : Z;
  mouse_y : Z;
  WantCaptureMouse : bool;
  IsMouseDown : Z → bool;
  IsMouseReleased : Z → bool;
  MouseWheel : float
}.

Definition set_gui (state : GuiState) (calls : list CameraCall) (w : Window) : Window :=
  {| app := app w; m_width := m_width w; m_height := m_height w;
     m_isValid := m_isValid w; m_guiState := state;
     m_isVisibleGUI := m_isVisibleGUI w;
     m_pinholeCamera := m_pinholeCamera w ++ calls |}.

Definition set_m_isVisibleGUI (b : bool) (w : Window) : Window :=
  {| app := app w; m_width := m_width w; m_height := m_height w;
     m_isValid := m_isValid w; m_guiState := m_guiState w;
     m_isVisibleGUI := b; m_pinholeCamera := m_pinholeCamera w |}.

(** [Application::guiEventHandler] *)
Definition guiEventHandler (io : ImGuiIO) (w : Window) : Window :=
  let w := if IsKeyPressed_space io then set_m_isVisibleGUI (negb (m_isVisibleGUI w)) w
           else w in
  let x := mouse_x io in
  let y := mouse_y io in
  match m_guiState w with
  | GUI_STATE_NONE =>
      if negb (WantCaptureMouse io) then
        if IsMouseDown io 0 then set_gui GUI_STATE_ORBIT [setBaseCoordinates x y] w
        else if IsMouseDown io 1 then set_gui GUI_STATE_DOLLY [setBaseCoordinates x y] w
        else if IsMouseDown io 2 then set_gui GUI_STATE_PAN [setBaseCoordinates x y] w
        else if negb (SFeqb (MouseWheel io) F32.zero)
        then set_gui GUI_STATE_NONE [zoom (MouseWheel io)] w
        else w
      else w
  | GUI_STATE_ORBIT =>
      if IsMouseReleased io 0 then set_gui GUI_STATE_NONE [] w
      else set_gui GUI_STATE_ORBIT [orbit x y] w
  | GUI_STATE_DOLLY =>
      if IsMouseReleased io 1 then set_gui GUI_STATE_NONE [] w
      else set_gui GUI_STATE_DOLLY [dolly x y] w
  | GUI_STATE_PAN =>
      if IsMouseReleased io 2 then set_gui GUI_STATE_NONE [] w
      else set_gui GUI_STATE_PAN [pan x y] w
  end.

(** What reaches the window between two frames. *)
Inductive WindowEvent :=
  | Reshape (width height : Z) (pointer : CUdeviceptr)
  | Mouse (io : ImGuiIO).

Definition handle (w : Window) (e : WindowEvent) : Window :=
  match e with
  | Reshape width height pointer => reshape width height pointer w
  | Mouse io => guiEventHandler io w
  end.

Definition handle_all (events : list WindowEvent) (w : Window) : Window :=
  foldl handle w events.

(** ** Stack sizes *)

Record OptixStackSizes := {
  cssRG : Z;
  cssMS : Z;
  cssCH : Z;
  cssAH : Z;
  cssIS : Z;
  cssCC : Z;
  dssDC : Z
}.

(** [OptixStackSizes stackSizesPipeline = {};] *)
Definition zero_stackSizes : OptixStackSizes :=
  {| cssRG := 0; cssMS := 0; cssCH := 0; cssAH := 0; cssIS := 0; cssCC := 0; dssDC := 0 |}.

(** The body of the loop over the program groups. *)
Definition max_stackSizes (p s : OptixStackSizes) : OptixStackSizes :=
  {| cssRG := Z.max (cssRG p) (cssRG s);
     cssMS := Z.max (cssMS p) (cssMS s);
     cssCH := Z.max (cssCH p) (cssCH s);
     cssAH := Z.max (cssAH p) (cssAH s);
     cssIS := Z.max (cssIS p) (cssIS s);
     cssCC := Z.max (cssCC p) (cssCC s);
     dssDC := Z.max (dssDC p) (dssDC s) |}.

(** The loop: [getStackSize] is [optixProgramGroupGetStackSize]. *)
Definition stackSizesPipeline (getStackSize : OptixProgramGroup → OptixStackSizes)
    (programGroups : list OptixProgramGroup) : OptixStackSizes :=
  foldl (λ p pg, max_stackSizes p (getStackSize pg)) zero_stackSizes programGroups.

(** The arguments of [optixPipelineSetStackSize]. *)
Record PipelineStackSize := {
  directCallableStackSizeFromTraversal : Z;
  directCallableStackSizeFromState : Z;
  continuationStackSize : Z;
  maxTraversableGraphDepth : Z
}.

(** [pipelineLinkOptions.maxTraceDepth = 2] *)
Definition maxTraceDepth : Z := 2.

(** The stack sizes computed in [initPipeline], in [unsigned int]. *)
Definition pipelineStackSize (p : OptixStackSizes) : PipelineStackSize :=
  let cssCCTree := cssCC p in
  let cssCHOrMSPlusCCTree := to_uint (Z.max (cssCH p) (cssMS p) + cssCCTree) in
  {| directCallableStackSizeFromTraversal := dssDC p;
     directCallableStackSizeFromState := dssDC p;
     continuationStackSize :=
       to_uint
         (to_uint
            (to_uint (cssRG p + cssCCTree) +
             to_uint (cssCHOrMSPlusCCTree * to_uint (Z.max 1 maxTraceDepth - 1))) +
          to_uint (Z.min 1 maxTraceDepth *
                   Z.max cssCHOrMSPlusCCTree (to_uint (cssAH p + cssIS p))));
     maxTraversableGraphDepth := 2 |}.

(** ** System information *)

(** The decoding of a CUDA version in [getSystemInformation], in [int]:
    division truncates. *)
Definition version_major (version : Z) : Z := Z.quot version 1000.

Definition version_minor (version : Z) : Z :=
  Z.quot (wrap_int (version - wrap_int (version_major version * 1000))) 10.

(** The loop of [getSystemInformation] over the devices: [properties i] is
    what [cudaGetDeviceProperties] fills in for device [i]. *)
Definition getSystemInformation_devices {cudaDeviceProp} (countDevices : Z)
    (properties : Z → cudaDeviceProp) (m_deviceProperties : list cudaDeviceProp)
  : option (list cudaDeviceProp) :=
  for_int (Z.to_nat countDevices) (λ i l, Some (l ++ [properties i])) m_deviceProperties.

(** ** Destruction *)

(** What [Application::~Application] releases. A [cudaFree] of a pointer
    that is part of the state kept here carries the pointer; the
    [cudaFree] of a member whose value is not part of it is named after
    the member. *)
Inductive Release :=
  | release_StreamSynchronize
  | delete_textures
  | cudaGraphicsUnregisterResource
  | glDeleteBuffers_pbo
  | delete_outputBuffer
  | cudaFree (p : CUdeviceptr)
  | cudaFree_lightDefinitions
  | cudaFree_materialParameters
  | cudaFree_systemParameter
  | cudaFree_ias
  | cudaFree_sbtRecordRaygeneration
  | cudaFree_sbtRecordException
  | cudaFree_sbtRecordMiss
  | cudaFree_sbtRecordCallables
  | cudaFree_sbtRecordGeometryInstanceData
  | optixPipelineDestroy
  | optixDeviceContextDestroy
  | cudaStreamDestroy
  | glDeleteBuffers_vbo
  | glDeleteProgram
  | ImGui_Shutdown.

(** [Application::~Application] *)
Definition Application_dtor (w : Window) : list Release :=
  (if m_isValid w then
     [release_StreamSynchronize; delete_textures] ++
     (if m_interop (app w) then [cudaGraphicsUnregisterResource; glDeleteBuffers_pbo]
      else [cudaFree (outputBuffer (m_systemParameter (app w))); delete_outputBuffer]) ++
     [cudaFree_lightDefinitions; cudaFree_materialParameters; cudaFree_systemParameter] ++
     flat_map (λ g, [cudaFree (gd_indices g); cudaFree (gd_attributes g); cudaFree (gd_gas g)])
       (m_geometries (scene (app w))) ++
     [cudaFree_ias; cudaFree_sbtRecordRaygeneration; cudaFree_sbtRecordException;
      cudaFree_sbtRecordMiss; cudaFree_sbtRecordCallables;
      cudaFree_sbtRecordGeometryInstanceData; optixPipelineDestroy;
      optixDeviceContextDestroy; cudaStreamDestroy; glDeleteBuffers_vbo; glDeleteBuffers_vbo;
      glDeleteProgram]
   else []) ++
  [ImGui_Shutdown].

(** ** A session *)



Section Session.

Variable logf : float → float.
Variable RT_DEFAULT_MAX : float.
Variable FLAG_THINWALLED : Z.



End Session.

(** ** A concrete run

    A backend, a device and a file system to run the program on. *)

(** A stand-in for the C library's [logf] with the one entry that is exact,
    [logf(1.0f) = 0], and NaN elsewhere. *)
Definition logf_table (c : float) : float :=
  if SFeqb c F32.one then F32.zero else S754_nan.

(** 1.0e27f *)
Definition sample_RT_DEFAULT_MAX : float := binary_normalize F32.prec F32.emax (10 ^ 27) 0 false.

Definition sample_FLAG_THINWALLED : Z := 32.

Definition entry_bytes (e : entry) : list byte :=
  match e with
  | Some (_, name) => list_byte_of_string name
  | None => []
  end.

(** A backend that packs the entry function names, cut or padded to the
    header size. *)
Definition sample_packHeader (pg : OptixProgramGroup) : SbtRecordHeader :=
  resize OPTIX_SBT_RECORD_HEADER_SIZE Byte.x00
    (entry_bytes (entryFunction pg) ++ entry_bytes (entryAH pg) ++ entry_bytes (entryCH pg)).

Definition sample_build (k : nat) : GeometryBuild :=
  {| gb_data := {| gd_indices := 4096 + 3 * Z.of_nat k;
                   gd_attributes := 4097 + 3 * Z.of_nat k;
                   gd_numIndices := 6;
                   gd_numAttributes := 4;
                   gd_gas := 4098 + 3 * Z.of_nat k |};
     gb_handle := 100 + Z.of_nat k |}.

Definition sample_frame : CameraFrame := camera initial_systemParameter.

Definition sample_env : PipelineEnv :=
  {| env_build := sample_build; env_root := 99; env_outputBuffer := 8192;
     env_frustum := sample_frame |}.

Definition sample_options : Options :=
  {| getInterop := false; getLight := 1; getMiss := 1 |}.

(** The application after construction with the parallelogram light and
    the constant environment. *)
Definition sample_run : option Application :=
  initRenderer logf_table sample_RT_DEFAULT_MAX sample_FLAG_THINWALLED sample_packHeader
    7 8 sample_env (Application_new sample_options).

Definition sample_app : Application :=
  default (Application_new sample_options) sample_run.

(** The same run stopped before the hit-group records are filled. *)
Definition sample_scene : Application :=
  default (Application_new sample_options)
    (packHitGroupHeaders sample_packHeader
       (optixProgramGroupCreate (programGroupDescriptions (getMiss sample_options)))
       (initPipeline_instances sample_build
          (initMaterials 7 8 (Application_new sample_options)))).


(** The GUI has just ticked "Use Cutout Texture" of material 0 and is about
    to call [updateShaderBindingTable(0)]. *)
Definition sample_toggled : Application :=
  set_scene
    (set_m_guiMaterialParameters
       (alter (set_useCutoutTexture true) 0%nat (m_guiMaterialParameters (scene sample_app)))
       (scene sample_app))
    sample_app.


(** A frame of the material panel: the user ticks "Use Cutout Texture" of
    material 0 and picks the specular BSDF for material 1. *)
Definition sample_material_widgets (i : Z) : MaterialWidgets :=
  {| w_TreeNode := (i =? 0) || (i =? 1);
     w_BSDFType := if i =? 1 then Some INDEX_BSDF_SPECULAR_REFLECTION else None;
     w_Albedo := None;
     w_UseAlbedoTexture := None;
     w_UseCutoutTexture := if i =? 0 then Some true else None;
     w_ThinWalled := None;
     w_Absorption := None;
     w_VolumeScale := None;
     w_IOR := None |}.

(** A frame of the light panel: every emission is dragged to 20. *)
Definition sample_light_widgets (i : Z) : LightWidgets :=
  {| l_TreeNode := true; l_Emission := Some (make_float3_1 (F32.of_Z 20)) |}.

(** A platform on which everything succeeds, and one without the OptiX
    library. *)
Definition sample_platform : Platform :=
  {| cudaFree_0 := cudaSuccess; cuCtxGetCurrent := CUDA_SUCCESS;
     cudaStreamCreate := cudaSuccess; dlopen := true; dlsym := true;
     optixQueryFunctionTable := OPTIX_SUCCESS;
     optixDeviceContextCreate := OPTIX_SUCCESS |}.

Definition sample_platform_no_library : Platform :=
  {| cudaFree_0 := cudaSuccess; cuCtxGetCurrent := CUDA_SUCCESS;
     cudaStreamCreate := cudaSuccess; dlopen := false; dlsym := false;
     optixQueryFunctionTable := OPTIX_SUCCESS;
     optixDeviceContextCreate := OPTIX_SUCCESS |}.

Definition sample_renderer : Application → option Application :=
  initRenderer logf_table sample_RT_DEFAULT_MAX sample_FLAG_THINWALLED sample_packHeader
    7 8 sample_env.

(** The window of the concrete run, 512 by 512. *)
Definition sample_window : Window :=
  {| app := sample_app; m_width := 512; m_height := 512; m_isValid := true;
     m_guiState := GUI_STATE_NONE; m_isVisibleGUI := true;
     m_pinholeCamera := [setViewport 512 512] |}.

(** The left button goes down at (10, 20), is dragged to (30, 40) and
    released; in between the window is resized. *)
Definition sample_io (x y : Z) (down released : bool) : ImGuiIO :=
  {| IsKeyPressed_space := false; mouse_x := x; mouse_y := y;
     WantCaptureMouse := false;
     IsMouseDown := λ b, (b =? 0) && down;
     IsMouseReleased := λ b, (b =? 0) && released;
     MouseWheel := F32.zero |}.

Definition sample_events : list WindowEvent :=
  [ Mouse (sample_io 10 20 true false);
    Reshape 640 480 12288;
    Mouse (sample_io 30 40 true false);
    Mouse (sample_io 30 40 false true) ].

(** Stack sizes a backend could report: 64 bytes of continuation stack for
    the ray generation program, 32 for a hit group's closest hit and 16 for
    its any hit, 8 of direct stack for a callable. *)
Definition sample_getStackSize (pg : OptixProgramGroup) : OptixStackSizes :=
  match kind pg with
  | OPTIX_PROGRAM_GROUP_KIND_RAYGEN =>
      {| cssRG := 64; cssMS := 0; cssCH := 0; cssAH := 0; cssIS := 0; cssCC := 0; dssDC := 0 |}
  | OPTIX_PROGRAM_GROUP_KIND_HITGROUP =>
      {| cssRG := 0; cssMS := 0; cssCH := 32; cssAH := 16; cssIS := 0; cssCC := 0; dssDC := 0 |}
  | OPTIX_PROGRAM_GROUP_KIND_CALLABLES =>
      {| cssRG := 0; cssMS := 0; cssCH := 0; cssAH := 0; cssIS := 0; cssCC := 0; dssDC := 8 |}
  | _ => zero_stackSizes
  end.


(** ** Predicates of the properties *)

(** Every instance sits at the position its identifier names, and its SBT
    offset is that position times the number of ray types. *)
Definition instances_wf (l : list OptixInstance) : Prop :=
  ∀ (i : nat) inst, l !! i = Some inst →
    instanceId inst = Z.of_nat i ∧ sbtOffset inst = Z.of_nat i * NUM_RAYTYPES.

(** Instances appended one after the other, in the order of the list. *)
Definition push_all (pushes : list (list float * OptixTraversableHandle))
    (s : Application) : Application :=
  foldl (λ s p, push_instance p.1 p.2 s) s pushes.

(** The member record whose header an instance's radiance (resp. shadow)
    record is to carry, by the cutout flag of its material. *)
Definition radiance_group (t : Sbt) (material : MaterialParameterGUI)
  : SbtRecordGeometryInstanceData :=
  if useCutoutTexture material then m_sbtRecordHitRadianceCutout t
  else m_sbtRecordHitRadiance t.

Definition shadow_group (t : Sbt) (material : MaterialParameterGUI)
  : SbtRecordGeometryInstanceData :=
  if useCutoutTexture material then m_sbtRecordHitShadowCutout t
  else m_sbtRecordHitShadow t.

(** A header array holds [OPTIX_SBT_RECORD_HEADER_SIZE] bytes. *)
Definition header_ok (r : SbtRecordGeometryInstanceData) : Prop :=
  length (header r) = OPTIX_SBT_RECORD_HEADER_SIZE.

Definition groups_ok (t : Sbt) : Prop :=
  header_ok (m_sbtRecordHitRadiance t) ∧ header_ok (m_sbtRecordHitShadow t) ∧
  header_ok (m_sbtRecordHitRadianceCutout t) ∧ header_ok (m_sbtRecordHitShadowCutout t).

(** What [initPipeline] has established when it reaches the hit-group
    records: a material and a geometry for every instance, the light
    instance if there is to be one, and header arrays of the right size. *)
Definition scene_ok (s : Application) : Prop :=
  let n := length (m_instances (scene s)) in
  Z.of_nat n * NUM_RAYTYPES <= INT_MAX ∧
  (n ≤ length (m_guiMaterialParameters (scene s)))%nat ∧
  (n ≤ length (m_geometries (scene s)))%nat ∧
  (m_lightID s ≠ 0 → (1 ≤ n)%nat) ∧
  groups_ok (sbt s) ∧
  Forall header_ok (m_sbtRecordGeometryInstanceData (sbt s)).

(** What holds of the SBT once [initPipeline] is through, and from then on. *)
Definition pipeline_ok (s : Application) : Prop :=
  let n := length (m_instances (scene s)) in
  Z.of_nat n * NUM_RAYTYPES <= INT_MAX ∧
  (n ≤ length (m_guiMaterialParameters (scene s)))%nat ∧
  length (m_sbtRecordGeometryInstanceData (sbt s)) = (2 * n)%nat ∧
  m_d_sbtRecordGeometryInstanceData (device s) = m_sbtRecordGeometryInstanceData (sbt s) ∧
  groups_ok (sbt s) ∧
  Forall header_ok (m_sbtRecordGeometryInstanceData (sbt s)).

(** The two records of instance [i] carry the headers of the hit groups its
    material selects. *)
Definition headers_follow (s : Application) (i : nat) : Prop :=
  ∃ material r0 r1,
    m_guiMaterialParameters (scene s) !! i = Some material ∧
    m_sbtRecordGeometryInstanceData (sbt s) !! (2 * i)%nat = Some r0 ∧
    m_sbtRecordGeometryInstanceData (sbt s) !! S (2 * i) = Some r1 ∧
    header r0 = header (radiance_group (sbt s) material) ∧
    header r1 = header (shadow_group (sbt s) material).

(** The member records hold the headers the backend packs for the four
    hit groups of [initPipeline]. *)
Definition groups_packed (pack : OptixProgramGroup → SbtRecordHeader) (t : Sbt) : Prop :=
  header (m_sbtRecordHitRadiance t) =
    pack (hitgroup (ent MODULE_ID_CLOSESTHIT "__closesthit__radiance") None) ∧
  header (m_sbtRecordHitShadow t) =
    pack (hitgroup None (ent MODULE_ID_ANYHIT "__anyhit__shadow")) ∧
  header (m_sbtRecordHitRadianceCutout t) =
    pack (hitgroup (ent MODULE_ID_CLOSESTHIT "__closesthit__radiance")
            (ent MODULE_ID_ANYHIT "__anyhit__radiance_cutout")) ∧
  header (m_sbtRecordHitShadowCutout t) =
    pack (hitgroup None (ent MODULE_ID_ANYHIT "__anyhit__shadow_cutout")).

(** The light index [initPipeline] gives the records of instance [i] of [n]. *)
Definition expected_lightIndex (s : Application) (n i : nat) : Z :=
  if negb (m_lightID s =? 0) && bool_decide (S i = n) then
    (if negb (m_missID s =? 0) then 1 else 0)
  else -1.

(** The payload [initPipeline] writes for instance [k] with light index [light]. *)
Definition payload (geometry : GeometryData) (k : nat) (light : Z) : GeometryInstanceData :=
  {| indices := gd_indices geometry; attributes := gd_attributes geometry;
     materialIndex := Z.of_nat k; lightIndex := light |}.

(** The device copy of the launch parameters equals the host block. *)
Definition in_step (s : Application) : Prop :=
  m_d_systemParameter (device s) = m_systemParameter s.

(** The accumulation is within a budget of [v] frames. *)
Definition within_budget (v : Z) (s : Application) : Prop :=
  m_frames (accum s) = v ∧ 0 <= m_iterationIndex (accum s) <= v.


(** Geometry [i] is what the device built for it, and instance [i] refers
    to that geometry's traversable. *)
Definition built_from (build : nat → GeometryBuild) (s : Application) : Prop :=
  length (m_instances (scene s)) = length (m_geometries (scene s)) ∧
  ∀ i : nat, (i < length (m_geometries (scene s)))%nat →
    m_geometries (scene s) !! i = Some (gb_data (build i)) ∧
    traversableHandle <$> m_instances (scene s) !! i = Some (gb_handle (build i)).


(** The SBT is in order and the records of every instance carry the
    headers of the hit groups its material selects. *)
Definition sbt_consistent (s : Application) : Prop :=
  pipeline_ok s ∧
  ∀ j : nat, (j < length (m_instances (scene s)))%nat → headers_follow s j.

(** What holds in the loop over the materials of [guiWindow] when the
    materials below [k] have been gone through, [s0] being the state on
    entry. *)
Definition materials_inv (s0 : Application) (k : nat) (st : Application * bool) : Prop :=
  sbt_consistent st.1 ∧
  m_instances (scene st.1) = m_instances (scene s0) ∧
  m_lightDefinitions (scene st.1) = m_lightDefinitions (scene s0) ∧
  m_textureAlbedo (scene st.1) = m_textureAlbedo (scene s0) ∧
  m_textureCutout (scene st.1) = m_textureCutout (scene s0) ∧
  m_systemParameter st.1 = m_systemParameter s0 ∧
  d_lightDefinitions (device st.1) = d_lightDefinitions (device s0) ∧
  length (m_guiMaterialParameters (scene st.1)) =
    length (m_guiMaterialParameters (scene s0)) ∧
  (∀ j : nat, (k ≤ j)%nat →
     m_guiMaterialParameters (scene st.1) !! j = m_guiMaterialParameters (scene s0) !! j) ∧
  (st.2 = false → st.1 = s0).

(** The device's material array is the conversion of the GUI's. *)
Definition materials_uploaded (logf : float → float) (RT_DEFAULT_MAX : float)
    (FLAG_THINWALLED : Z) (s : Application) : Prop :=
  d_materialParameters (device s) =
    map (convertMaterial logf RT_DEFAULT_MAX FLAG_THINWALLED (scene s))
      (m_guiMaterialParameters (scene s)).

(** The device's light array is the host's, and the launch parameters count
    its elements. *)
Definition lights_uploaded (s : Application) : Prop :=
  d_lightDefinitions (device s) = m_lightDefinitions (scene s) ∧
  numLights (m_systemParameter s) = Z.of_nat (length (m_lightDefinitions (scene s))).

(** What holds in the loop over the lights of [guiWindow]. *)
Definition lights_inv (s0 : Application) (st : Application * bool) : Prop :=
  length (m_lightDefinitions (scene st.1)) = length (m_lightDefinitions (scene s0)) ∧
  (∀ (j : nat) l0, m_lightDefinitions (scene s0) !! j = Some l0 →
     ∃ l, m_lightDefinitions (scene st.1) !! j = Some l ∧
          (type l0 = LIGHT_ENVIRONMENT → l = l0) ∧
          l = set_emission (emission l) l0) ∧
  m_systemParameter st.1 = m_systemParameter s0 ∧
  m_guiMaterialParameters (scene st.1) = m_guiMaterialParameters (scene s0) ∧
  m_instances (scene st.1) = m_instances (scene s0) ∧
  sbt st.1 = sbt s0 ∧
  device st.1 = device s0 ∧
  m_textureAlbedo (scene st.1) = m_textureAlbedo (scene s0) ∧
  m_textureCutout (scene st.1) = m_textureCutout (scene s0) ∧
  (st.2 = false → st.1 = s0).


(** The viewport the camera was given last. *)
Definition last_viewport (calls : list CameraCall) : option (Z * Z) :=
  last (omap (λ c, match c with setViewport width height => Some (width, height)
                            | _ => None end) calls).

(** Where a sequence of camera calls stands: no base coordinates are set,
    or they are set and the moves made from them so far are of one kind
    ([GUI_STATE_NONE]: none yet). *)
Inductive Drag :=
  | NoBase
  | Based (k : GuiState).

(** One more call is in order if a move follows base coordinates and moves
    of its own kind only. *)
Definition drag_step (d : Drag) (c : CameraCall) : option Drag :=
  match c with
  | setViewport _ _ => Some d
  | setBaseCoordinates _ _ => Some (Based GUI_STATE_NONE)
  | zoom _ => Some NoBase
  | orbit _ _ =>
      match d with
      | Based GUI_STATE_NONE | Based GUI_STATE_ORBIT => Some (Based GUI_STATE_ORBIT)
      | _ => None
      end
  | pan _ _ =>
      match d with
      | Based GUI_STATE_NONE | Based GUI_STATE_PAN => Some (Based GUI_STATE_PAN)
      | _ => None
      end
  | dolly _ _ =>
      match d with
      | Based GUI_STATE_NONE | Based GUI_STATE_DOLLY => Some (Based GUI_STATE_DOLLY)
      | _ => None
      end
  end.

Definition drag_run (d : Drag) (calls : list CameraCall) : option Drag :=
  foldl (λ d c, d ← d; drag_step d c) (Some d) calls.

(** The calls made on the camera are in order, and a drag in progress has
    its base coordinates. *)
Definition gui_inv (w : Window) : Prop :=
  ∃ d, drag_run NoBase (m_pinholeCamera w) = Some d ∧
       match m_guiState w with
       | GUI_STATE_NONE => True
       | k => d = Based GUI_STATE_NONE ∨ d = Based k
       end.

(** The window has no zero dimension and the camera knows its size. *)
Definition size_inv (w : Window) : Prop :=
  m_width w ≠ 0 ∧ m_height w ≠ 0 ∧
  last_viewport (m_pinholeCamera w) = Some (m_width w, m_height w).

(** All seven answers [initOptiX] waits for are successes. *)
Definition platform_ok (p : Platform) : Prop :=
  cudaFree_0 p = cudaSuccess ∧ cuCtxGetCurrent p = CUDA_SUCCESS ∧
  cudaStreamCreate p = cudaSuccess ∧ dlopen p = true ∧ dlsym p = true ∧
  optixQueryFunctionTable p = OPTIX_SUCCESS ∧ optixDeviceContextCreate p = OPTIX_SUCCESS.


(** Every stack size of [a] is at most that of [b]. *)
Definition le_stackSizes (a b : OptixStackSizes) : Prop :=
  cssRG a <= cssRG b ∧ cssMS a <= cssMS b ∧ cssCH a <= cssCH b ∧ cssAH a <= cssAH b ∧
  cssIS a <= cssIS b ∧ cssCC a <= cssCC b ∧ dssDC a <= dssDC b.

(** The device pointers of the state kept here that are handed to
    [cudaFree], in order. *)
Definition freed (releases : list Release) : list CUdeviceptr :=
  omap (λ r, match r with cudaFree p => Some p | _ => None end) releases.

(** The three device buffers of a geometry. *)
Definition geometry_buffers (g : GeometryData) : list CUdeviceptr :=
  [gd_indices g; gd_attributes g; gd_gas g].




(** [s'] has the scene, the SBT, the device arrays and the light count of
    [s]. *)
Definition same_arrays (s s' : Application) : Prop :=
  scene s' = scene s ∧ sbt s' = sbt s ∧
  m_d_sbtRecordGeometryInstanceData (device s') =
    m_d_sbtRecordGeometryInstanceData (device s) ∧
  d_materialParameters (device s') = d_materialParameters (device s) ∧
  d_lightDefinitions (device s') = d_lightDefinitions (device s) ∧
  numLights (m_systemParameter s') = numLights (m_systemParameter s).


(** The mouse button that holds a drag, and the camera call a drag makes
    for a mouse position. *)
Definition drag_button (k : GuiState) : Z :=
  match k with
  | GUI_STATE_DOLLY => 1
  | GUI_STATE_PAN => 2
  | _ => 0
  end.

Definition drag_call (k : GuiState) (io : ImGuiIO) : list CameraCall :=
  match k with
  | GUI_STATE_NONE => []
  | GUI_STATE_ORBIT => [orbit (mouse_x io) (mouse_y io)]
  | GUI_STATE_PAN => [pan (mouse_x io) (mouse_y io)]
  | GUI_STATE_DOLLY => [dolly (mouse_x io) (mouse_y io)]
  end.

(** ** Machine integers and vectors *)

Lemma wrap_int_small (v : Z) : - 2 ^ 31 <= v < 2 ^ 31 → wrap_int v = v.
Proof. intros H. unfold wrap_int. rewrite Z.mod_small by lia. lia. Qed.

Lemma to_uint_small (v : Z) : 0 <= v < 2 ^ 32 → to_uint v = v.
Proof. intros H. unfold to_uint. by rewrite Z.mod_small. Qed.

Lemma to_size_t_small (v : Z) : 0 <= v < 2 ^ 64 → to_size_t v = v.
Proof. intros H. unfold to_size_t. by rewrite Z.mod_small. Qed.

(** A negative [int] converts to a [size_t] beyond every [int]. *)
Lemma to_size_t_negative (v : Z) : - 2 ^ 31 <= v < 0 → 2 ^ 63 <= to_size_t v.
Proof.
  intros H. unfold to_size_t.
  replace v with (v + 2 ^ 64 + (-1) * 2 ^ 64) by lia.
  rewrite Z.mod_add by lia. rewrite Z.mod_small; lia.
Qed.

Lemma vec_at_nat {A} (v : list A) (k : nat) :
  Z.of_nat k < 2 ^ 64 → vec_at v (Z.of_nat k) = v !! k.
Proof.
  intros H. unfold vec_at. rewrite to_size_t_small by lia. by rewrite Nat2Z.id.
Qed.

Lemma vec_update_nat {A} (v : list A) (k : nat) (f : A → A) (a : A) :
  Z.of_nat k < 2 ^ 64 → v !! k = Some a →
  vec_update v (Z.of_nat k) f = Some (<[k := f a]> v).
Proof.
  intros H Hk. unfold vec_update. rewrite vec_at_nat, Hk by done. simpl.
  rewrite to_size_t_small by lia. by rewrite Nat2Z.id.
Qed.

Lemma memcpy_whole (dst src : list byte) (n : nat) :
  length src = n → length dst = n → memcpy dst src n = src.
Proof.
  intros Hs Hd. unfold memcpy.
  rewrite take_ge, drop_ge by lia. apply app_nil_r.
Qed.

(** ** Instances *)

Lemma push_instance_instances trafo h s :
  m_instances (scene (push_instance trafo h s)) =
  m_instances (scene s) ++
    [ {| transform := trafo;
         instanceId := to_uint (Z.of_nat (length (m_instances (scene s))));
         sbtOffset := to_uint (to_uint (Z.of_nat (length (m_instances (scene s)))) * NUM_RAYTYPES);
         visibilityMask := 255; flags := 0; traversableHandle := h |} ].
Proof. reflexivity. Qed.

Lemma createShape_instances build s :
  m_instances (scene (createShape build s).1) = m_instances (scene s).
Proof. reflexivity. Qed.

Lemma push_light_instances l s :
  m_instances (scene (push_light l s)) = m_instances (scene s).
Proof. reflexivity. Qed.

Lemma instances_wf_nil : instances_wf [].
Proof. intros i inst H. by rewrite lookup_nil in H. Qed.

Lemma instances_wf_push trafo h s :
  Z.of_nat (length (m_instances (scene s))) < 2 ^ 31 →
  instances_wf (m_instances (scene s)) →
  instances_wf (m_instances (scene (push_instance trafo h s))).
Proof.
  intros Hlen Hwf i inst. rewrite push_instance_instances.
  intros [Hi | [Hi Heq]]%lookup_app_Some; [by apply Hwf |].
  apply list_lookup_singleton_Some in Heq as [Hz <-]. simpl.
  assert (i = length (m_instances (scene s))) as -> by lia.
  rewrite (to_uint_small (Z.of_nat _)) by lia.
  unfold NUM_RAYTYPES. by rewrite to_uint_small by lia.
Qed.

Lemma push_instance_length trafo h s :
  length (m_instances (scene (push_instance trafo h s))) =
  S (length (m_instances (scene s))).
Proof. rewrite push_instance_instances, length_app. simpl. lia. Qed.

Lemma push_all_wf pushes : ∀ s,
  Z.of_nat (length (m_instances (scene s)) + length pushes) <= 2 ^ 31 →
  instances_wf (m_instances (scene s)) →
  instances_wf (m_instances (scene (push_all pushes s))).
Proof.
  induction pushes as [|[trafo h] pushes IH]; intros s Hlen Hwf; [done |].
  simpl in *. apply IH.
  - rewrite push_instance_length. lia.
  - apply instances_wf_push; [lia | done].
Qed.

Lemma add_instance_eq build trafo s :
  add_instance build trafo s =
  push_instance trafo (gb_handle (build (length (m_geometries (scene s)))))
    (createShape build s).1.
Proof. reflexivity. Qed.

Lemma add_instance_length build trafo s :
  length (m_instances (scene (add_instance build trafo s))) =
  S (length (m_instances (scene s))).
Proof. by rewrite add_instance_eq, push_instance_length, createShape_instances. Qed.

Lemma add_instance_wf build trafo s :
  Z.of_nat (length (m_instances (scene s))) < 2 ^ 31 →
  instances_wf (m_instances (scene s)) →
  instances_wf (m_instances (scene (add_instance build trafo s))).
Proof.
  intros Hlen Hwf. rewrite add_instance_eq.
  apply instances_wf_push; by rewrite createShape_instances.
Qed.

Lemma add_instance_lightID build trafo s :
  m_lightID (add_instance build trafo s) = m_lightID s.
Proof. reflexivity. Qed.

Lemma add_instance_missID build trafo s :
  m_missID (add_instance build trafo s) = m_missID s.
Proof. reflexivity. Qed.

Lemma createLights_length build s :
  length (m_instances (scene (createLights build s))) =
  (length (m_instances (scene s)) + if (m_lightID s =? 0)%Z then 0 else 1)%nat.
Proof.
  unfold createLights.
  set (s1 := match m_missID s with 1 | 2 => push_light environment_light s | _ => s end).
  assert (m_instances (scene s1) = m_instances (scene s) ∧ m_lightID s1 = m_lightID s)
    as [Hi Hl].
  { unfold s1. destruct (m_missID s) as [|[[]|[]|]|]; done. }
  rewrite Hl. destruct (m_lightID s =? 0); cbn [negb].
  - rewrite Hi. lia.
  - rewrite add_instance_length, push_light_instances, Hi. lia.
Qed.

Lemma createLights_wf build s :
  Z.of_nat (length (m_instances (scene s))) < 2 ^ 31 →
  instances_wf (m_instances (scene s)) →
  instances_wf (m_instances (scene (createLights build s))).
Proof.
  intros Hlen Hwf. unfold createLights.
  set (s1 := match m_missID s with 1 | 2 => push_light environment_light s | _ => s end).
  assert (m_instances (scene s1) = m_instances (scene s)) as Hi.
  { unfold s1. destruct (m_missID s) as [|[[]|[]|]|]; done. }
  destruct (negb (m_lightID s1 =? 0)); [| by rewrite Hi].
  apply add_instance_wf; by rewrite push_light_instances, Hi.
Qed.

(** [initPipeline_instances] appends its five instances, and the light's
    when there is one, to those already there. *)
Lemma initPipeline_instances_length build s :
  length (m_instances (scene (initPipeline_instances build s))) =
  (length (m_instances (scene s)) + if (m_lightID s =? 0)%Z then 5 else 6)%nat.
Proof.
  unfold initPipeline_instances.
  rewrite createLights_length, !add_instance_length, !add_instance_lightID.
  destruct (m_lightID s =? 0); lia.
Qed.

Lemma initPipeline_instances_wf build s :
  Z.of_nat (length (m_instances (scene s))) + 6 <= 2 ^ 31 →
  instances_wf (m_instances (scene s)) →
  instances_wf (m_instances (scene (initPipeline_instances build s))).
Proof.
  intros Hlen Hwf. unfold initPipeline_instances.
  apply createLights_wf; [rewrite !add_instance_length; lia |].
  repeat (apply add_instance_wf; [rewrite ?add_instance_length; lia |]).
  done.
Qed.

(** ** Hit-group records *)

Lemma copy_header_nat src (k : nat) records r :
  Z.of_nat k < 2 ^ 64 → records !! k = Some r →
  copy_header src (Z.of_nat k) records =
  Some (<[k := set_header (memcpy (header r) (header src) OPTIX_SBT_RECORD_HEADER_SIZE) r]>
          records).
Proof. intros. unfold copy_header. by erewrite vec_update_nat. Qed.

Lemma switchHitGroup_spec t material (k : nat) records r0 r1 :
  Z.of_nat k + 1 < 2 ^ 31 →
  records !! k = Some r0 → records !! S k = Some r1 →
  switchHitGroup t material (Z.of_nat k) records =
  Some (<[S k := set_header (memcpy (header r1) (header (shadow_group t material))
                               OPTIX_SBT_RECORD_HEADER_SIZE) r1]>
          (<[k := set_header (memcpy (header r0) (header (radiance_group t material))
                                OPTIX_SBT_RECORD_HEADER_SIZE) r0]> records)).
Proof.
  intros Hk H0 H1. unfold switchHitGroup, radiance_group, shadow_group.
  rewrite wrap_int_small by lia.
  replace (Z.of_nat k + 1) with (Z.of_nat (S k)) by lia.
  destruct (useCutoutTexture material); simpl.
  - erewrite copy_header_nat by (done || lia). simpl.
    erewrite copy_header_nat; [done | lia |].
    by rewrite list_lookup_insert_ne by lia.
  - erewrite copy_header_nat by (done || lia). simpl.
    erewrite copy_header_nat; [done | lia |].
    by rewrite list_lookup_insert_ne by lia.
Qed.

Lemma hitRecord_body_spec s (k : nat) records r0 r1 material geometry :
  Z.of_nat (2 * k) + 1 < 2 ^ 31 →
  m_guiMaterialParameters (scene s) !! k = Some material →
  m_geometries (scene s) !! k = Some geometry →
  records !! (2 * k)%nat = Some r0 → records !! S (2 * k) = Some r1 →
  hitRecord_body s (Z.of_nat k) records =
  Some (<[S (2 * k) :=
            {| header := memcpy (header r1) (header (shadow_group (sbt s) material))
                           OPTIX_SBT_RECORD_HEADER_SIZE;
               data := payload geometry k (-1) |}]>
          (<[(2 * k)%nat :=
               {| header := memcpy (header r0) (header (radiance_group (sbt s) material))
                              OPTIX_SBT_RECORD_HEADER_SIZE;
                  data := payload geometry k (-1) |}]> records)).
Proof.
  intros Hk Hm Hg H0 H1. unfold hitRecord_body.
  assert (Z.of_nat k * NUM_RAYTYPES = Z.of_nat (2 * k)) as -> by (unfold NUM_RAYTYPES; lia).
  rewrite (wrap_int_small (Z.of_nat (2 * k))) by lia.
  rewrite (vec_at_nat (m_guiMaterialParameters (scene s))), Hm by lia. simpl.
  erewrite switchHitGroup_spec by (done || lia). simpl.
  rewrite (vec_at_nat (m_geometries (scene s))), Hg by lia. simpl.
  rewrite wrap_int_small by lia.
  replace (Z.of_nat (k + (k + 0)) + 1) with (Z.of_nat (S (k + (k + 0)))) by lia.
  erewrite vec_update_nat; [| lia |].
  2:{ rewrite list_lookup_insert_ne by lia. apply list_lookup_insert_eq.
      by eapply lookup_lt_Some. }
  simpl. erewrite vec_update_nat; [| lia |].
  2:{ rewrite list_lookup_insert_ne by lia. apply list_lookup_insert_eq.
      rewrite !length_insert. by eapply lookup_lt_Some. }
  f_equal. unfold set_data, set_header, payload. simpl.
  rewrite (list_insert_insert_ne _ (k + (k + 0))%nat (S (k + (k + 0)))) by lia.
  rewrite list_insert_insert_eq.
  by rewrite list_insert_insert_eq.
Qed.

(** The loop over the instances: it runs through, keeps the length, fills
    the records of the instances done and leaves the others alone. *)
Lemma hitRecord_loop s records0 (n : nat) :
  (2 * n ≤ length records0)%nat →
  Z.of_nat (2 * n) < 2 ^ 31 →
  (n ≤ length (m_guiMaterialParameters (scene s)))%nat →
  (n ≤ length (m_geometries (scene s)))%nat →
  ∃ records,
    for_int n (hitRecord_body s) records0 = Some records ∧
    length records = length records0 ∧
    (∀ j : nat, (2 * n ≤ j)%nat → records !! j = records0 !! j) ∧
    (∀ k : nat, (k < n)%nat →
       ∃ material geometry r0 r1,
         m_guiMaterialParameters (scene s) !! k = Some material ∧
         m_geometries (scene s) !! k = Some geometry ∧
         records0 !! (2 * k)%nat = Some r0 ∧ records0 !! S (2 * k) = Some r1 ∧
         records !! (2 * k)%nat =
           Some {| header := memcpy (header r0) (header (radiance_group (sbt s) material))
                               OPTIX_SBT_RECORD_HEADER_SIZE;
                   data := payload geometry k (-1) |} ∧
         records !! S (2 * k) =
           Some {| header := memcpy (header r1) (header (shadow_group (sbt s) material))
                               OPTIX_SBT_RECORD_HEADER_SIZE;
                   data := payload geometry k (-1) |}).
Proof.
  induction n as [|n IH]; intros Hlen Hint Hmat Hgeo.
  - exists records0. do 3 (split; [done |]). intros; lia.
  - destruct IH as (records & Hrun & Hl & Hrest & Hdone); [lia .. |].
    destruct (lookup_lt_is_Some_2 (m_guiMaterialParameters (scene s)) n) as [material Hm];
      [lia |].
    destruct (lookup_lt_is_Some_2 (m_geometries (scene s)) n) as [geometry Hg]; [lia |].
    destruct (lookup_lt_is_Some_2 records0 (2 * n)) as [r0 H0]; [lia |].
    destruct (lookup_lt_is_Some_2 records0 (S (2 * n))) as [r1 H1]; [lia |].
    eexists. split.
    { simpl for_int. rewrite Hrun. simpl.
      eapply hitRecord_body_spec; [lia | done | done | |].
      - by rewrite Hrest by lia.
      - by rewrite Hrest by lia. }
    split; [by rewrite !length_insert |].
    split.
    { intros j Hj. rewrite !list_lookup_insert_ne by lia. apply Hrest. lia. }
    intros k Hk. destruct (decide (k = n)) as [-> | Hne].
    + exists material, geometry, r0, r1. repeat split; try done.
      * rewrite list_lookup_insert_ne by lia.
        apply list_lookup_insert_eq. lia.
      * apply list_lookup_insert_eq. rewrite length_insert. lia.
    + destruct (Hdone k) as (m & g & a & b & ? & ? & ? & ? & Ha & Hb); [lia |].
      exists m, g, a, b. repeat split; try done.
      * by rewrite !list_lookup_insert_ne by lia.
      * by rewrite !list_lookup_insert_ne by lia.
Qed.

Lemma header_ok_zero : header_ok zero_record.
Proof. reflexivity. Qed.

Lemma expected_lightIndex_off s n k :
  m_lightID s = 0 ∨ S k ≠ n → expected_lightIndex s n k = -1.
Proof.
  unfold expected_lightIndex. intros [-> | Hne]; [done |].
  rewrite bool_decide_eq_false_2 by done. by rewrite andb_false_r.
Qed.

Lemma expected_lightIndex_on s n k :
  m_lightID s ≠ 0 → S k = n →
  expected_lightIndex s n k = if negb (m_missID s =? 0) then 1 else 0.
Proof.
  unfold expected_lightIndex. intros Hl Hk.
  rewrite bool_decide_eq_true_2 by done.
  by destruct (Z.eqb_spec (m_lightID s) 0).
Qed.

(** The hit-group part of [initPipeline] runs through on a scene that is
    ready for it, and this is what it leaves. *)
Lemma initPipeline_hitRecords_spec s :
  scene_ok s →
  ∃ records,
    initPipeline_hitRecords s =
      Some (store_hitRecords
              (Z.of_nat (length (m_instances (scene s))) * NUM_RAYTYPES) records s) ∧
    length records = (2 * length (m_instances (scene s)))%nat ∧
    Forall header_ok records ∧
    (∀ k : nat, (k < length (m_instances (scene s)))%nat →
       ∃ material geometry,
         m_guiMaterialParameters (scene s) !! k = Some material ∧
         m_geometries (scene s) !! k = Some geometry ∧
         records !! (2 * k)%nat =
           Some {| header := header (radiance_group (sbt s) material);
                   data := payload geometry k
                             (expected_lightIndex s (length (m_instances (scene s))) k) |} ∧
         records !! S (2 * k) =
           Some {| header := header (shadow_group (sbt s) material);
                   data := payload geometry k
                             (expected_lightIndex s (length (m_instances (scene s))) k) |}).
Proof.
  intros (Hint & Hmat & Hgeo & Hlight & Hgroups & Hrecs).
  set (n := length (m_instances (scene s))) in *.
  unfold INT_MAX, NUM_RAYTYPES in Hint.
  unfold initPipeline_hitRecords. fold n.
  rewrite (wrap_int_small (Z.of_nat n)) by lia.
  assert (NUM_RAYTYPES * Z.of_nat n = Z.of_nat (2 * n)) as -> by (unfold NUM_RAYTYPES; lia).
  assert (Z.of_nat n * NUM_RAYTYPES = Z.of_nat (2 * n)) as -> by (unfold NUM_RAYTYPES; lia).
  rewrite (wrap_int_small (Z.of_nat (2 * n))) by lia.
  rewrite to_size_t_small by lia. rewrite !Nat2Z.id.
  set (records0 := resize (2 * n) zero_record _).
  assert (Forall header_ok records0) as Hok0.
  { apply Forall_resize; [apply header_ok_zero | done]. }
  assert (length records0 = (2 * n)%nat) as Hlen0 by apply length_resize.
  destruct (hitRecord_loop s records0 n) as (records1 & Hrun & Hlen1 & _ & Hdone);
    [lia .. |].
  rewrite Hrun. simpl.
  assert (∀ material, header_ok (radiance_group (sbt s) material) ∧
                      header_ok (shadow_group (sbt s) material)) as Hsel.
  { intros material. destruct Hgroups as (? & ? & ? & ?).
    unfold radiance_group, shadow_group. by destruct (useCutoutTexture material). }
  assert (∀ k : nat, (k < n)%nat →
            ∃ material geometry,
              m_guiMaterialParameters (scene s) !! k = Some material ∧
              m_geometries (scene s) !! k = Some geometry ∧
              records1 !! (2 * k)%nat =
                Some {| header := header (radiance_group (sbt s) material);
                        data := payload geometry k (-1) |} ∧
              records1 !! S (2 * k) =
                Some {| header := header (shadow_group (sbt s) material);
                        data := payload geometry k (-1) |}) as Hdone'.
  { intros k Hk. destruct (Hdone k Hk) as (m & g & a & b & Hm & Hg & Ha & Hb & H0 & H1).
    exists m, g. destruct (Hsel m) as [Hr Hs].
    rewrite memcpy_whole in H0, H1; try done.
    - eapply (Forall_lookup_1 header_ok); [exact Hok0 | exact Hb].
    - eapply (Forall_lookup_1 header_ok); [exact Hok0 | exact Ha]. }
  assert (Forall header_ok records1) as Hok1.
  { apply Forall_lookup_2. intros j r Hj.
    assert (j < 2 * n)%nat as Hjn by (apply lookup_lt_Some in Hj; lia).
    destruct (Nat.Even_or_Odd j) as [[c ->] | [c ->]].
    - destruct (Hdone' c) as (m & g & _ & _ & H0 & _); [lia |].
      destruct (Hsel m) as [Hr _].
      rewrite H0 in Hj. by injection Hj as <-.
    - destruct (Hdone' c) as (m & g & _ & _ & _ & H1); [lia |].
      destruct (Hsel m) as [_ Hs].
      replace (2 * c + 1)%nat with (S (2 * c)) in Hj by lia.
      rewrite H1 in Hj. by injection Hj as <-. }
  unfold hitRecord_light.
  destruct (Z.eqb_spec (m_lightID s) 0) as [Hl0 | Hl1]; simpl.
  - exists records1. split; [done |]. split; [lia |]. split; [done |].
    intros k Hk. destruct (Hdone' k Hk) as (m & g & ? & ? & ? & ?).
    exists m, g. rewrite expected_lightIndex_off by auto. done.
  - specialize (Hlight Hl1).
    assert (Z.of_nat n - 1 = Z.of_nat (n - 1)) as -> by lia.
    rewrite (wrap_int_small (Z.of_nat (n - 1))) by lia.
    assert (Z.of_nat (n - 1) * NUM_RAYTYPES = Z.of_nat (2 * (n - 1)))
      as -> by (unfold NUM_RAYTYPES; lia).
    rewrite (wrap_int_small (Z.of_nat (2 * (n - 1)))) by lia.
    rewrite wrap_int_small by lia.
    replace (Z.of_nat (2 * (n - 1)) + 1) with (Z.of_nat (S (2 * (n - 1)))) by lia.
    destruct (Hdone' (n - 1)%nat) as (ml & gl & Hml & Hgl & Hl0 & Hl1'); [lia |].
    erewrite vec_update_nat; [| lia | exact Hl0]. simpl.
    erewrite vec_update_nat; [| lia |].
    2:{ rewrite list_lookup_insert_ne by lia. exact Hl1'. }
    simpl. eexists. split; [done |].
    split; [rewrite !length_insert; lia |].
    split.
    { apply Forall_insert; [apply Forall_insert; [done |] |];
        unfold header_ok; simpl; apply Hsel. }
    intros k Hk. destruct (decide (S k = n)) as [Hkn | Hkn].
    + assert (k = (n - 1)%nat) as -> by lia.
      exists ml, gl. rewrite expected_lightIndex_on by (done || lia).
      repeat split; try done.
      * rewrite list_lookup_insert_ne by lia.
        rewrite list_lookup_insert_eq by lia. done.
      * rewrite list_lookup_insert_eq by (rewrite length_insert; lia). done.
    + destruct (Hdone' k Hk) as (m & g & ? & ? & ? & ?).
      exists m, g. rewrite expected_lightIndex_off by auto.
      repeat split; try done; by rewrite !list_lookup_insert_ne by lia.
Qed.

(** ** The live update *)

Lemma updateShaderBindingTable_spec s (i : nat) :
  pipeline_ok s → (i < length (m_instances (scene s)))%nat →
  ∃ material r0 r1,
    m_guiMaterialParameters (scene s) !! i = Some material ∧
    m_sbtRecordGeometryInstanceData (sbt s) !! (2 * i)%nat = Some r0 ∧
    m_sbtRecordGeometryInstanceData (sbt s) !! S (2 * i) = Some r1 ∧
    let records :=
      <[S (2 * i) := set_header (header (shadow_group (sbt s) material)) r1]>
        (<[(2 * i)%nat := set_header (header (radiance_group (sbt s) material)) r0]>
           (m_sbtRecordGeometryInstanceData (sbt s))) in
    updateShaderBindingTable (Z.of_nat i) s =
      Some (set_device
              (emit [StreamSynchronize; MemcpySbtRecords (Z.of_nat (2 * i)) NUM_RAYTYPES]
                 (set_m_d_records records (device s)))
              (set_sbt (set_records records (sbt s)) s)).
Proof.
  intros (Hint & Hmat & Hlen & Hmirror & Hgroups & Hrecs) Hi.
  set (n := length (m_instances (scene s))) in *.
  unfold INT_MAX, NUM_RAYTYPES in Hint.
  destruct (lookup_lt_is_Some_2 (m_guiMaterialParameters (scene s)) i) as [material Hm];
    [lia |].
  destruct (lookup_lt_is_Some_2 (m_sbtRecordGeometryInstanceData (sbt s)) (2 * i))
    as [r0 H0]; [lia |].
  destruct (lookup_lt_is_Some_2 (m_sbtRecordGeometryInstanceData (sbt s)) (S (2 * i)))
    as [r1 H1]; [lia |].
  exists material, r0, r1. repeat split; try done.
  assert (header_ok (radiance_group (sbt s) material) ∧
          header_ok (shadow_group (sbt s) material)) as [Hr Hs].
  { destruct Hgroups as (? & ? & ? & ?).
    unfold radiance_group, shadow_group. by destruct (useCutoutTexture material). }
  unfold updateShaderBindingTable. fold n.
  rewrite to_size_t_small by lia.
  destruct (Z.ltb_spec (Z.of_nat i) (Z.of_nat n)) as [_ | ?]; [| lia].
  assert (Z.of_nat i * NUM_RAYTYPES = Z.of_nat (2 * i)) as -> by (unfold NUM_RAYTYPES; lia).
  rewrite (wrap_int_small (Z.of_nat (2 * i))) by lia.
  rewrite vec_at_nat, Hm by lia. simpl.
  erewrite switchHitGroup_spec by (done || lia). simpl.
  rewrite !memcpy_whole; try done.
  2:{ eapply (Forall_lookup_1 header_ok); [exact Hrecs | exact H0]. }
  2:{ eapply (Forall_lookup_1 header_ok); [exact Hrecs | exact H1]. }
  unfold copy_records_to_device.
  rewrite wrap_int_small by lia.
  replace (Z.of_nat (i + (i + 0)) + 1) with (Z.of_nat (S (i + (i + 0)))) by lia.
  rewrite !vec_at_nat by lia.
  rewrite (list_lookup_insert_eq _ (S (i + (i + 0)))) by (rewrite length_insert; lia).
  rewrite list_lookup_insert_ne by lia.
  rewrite list_lookup_insert_eq by lia. simpl.
  rewrite Hmirror.
  erewrite vec_update_nat; [| lia | exact H0]. simpl.
  erewrite vec_update_nat; [| lia |].
  2:{ rewrite list_lookup_insert_ne by lia. exact H1. }
  done.
Qed.

Lemma updateShaderBindingTable_outside s (instance : Z) :
  in_int instance →
  Z.of_nat (length (m_instances (scene s))) < 2 ^ 63 →
  ¬ (0 <= instance < Z.of_nat (length (m_instances (scene s)))) →
  updateShaderBindingTable instance s = Some s.
Proof.
  intros Hint Hlen Hout. unfold updateShaderBindingTable, in_int in *.
  destruct (Z.ltb_spec (to_size_t instance) (Z.of_nat (length (m_instances (scene s)))))
    as [Hlt | _]; [| done].
  exfalso. destruct (Z.lt_ge_cases instance 0) as [Hneg | Hpos].
  - pose proof (to_size_t_negative instance). lia.
  - rewrite to_size_t_small in Hlt by lia. lia.
Qed.

(** The update keeps the SBT as [initPipeline] left it. *)
Lemma updateShaderBindingTable_ok s (i : nat) s' :
  pipeline_ok s → (i < length (m_instances (scene s)))%nat →
  updateShaderBindingTable (Z.of_nat i) s = Some s' → pipeline_ok s'.
Proof.
  intros Hok Hi Hupd.
  destruct (updateShaderBindingTable_spec s i Hok Hi)
    as (material & r0 & r1 & Hm & H0 & H1 & Heq).
  simpl in Heq. rewrite Heq in Hupd. injection Hupd as <-.
  destruct Hok as (Hint & Hmat & Hlen & Hmirror & Hgroups & Hrecs).
  repeat split; simpl; try done.
  - by rewrite !length_insert.
  - apply Hgroups.
  - apply Hgroups.
  - apply Hgroups.
  - apply Hgroups.
  - destruct Hgroups as (? & ? & ? & ?).
    apply Forall_insert; [apply Forall_insert; [done |] |];
      unfold header_ok, radiance_group, shadow_group; simpl;
      by destruct (useCutoutTexture material).
Qed.

Lemma initPipeline_hitRecords_ok s s' :
  scene_ok s → initPipeline_hitRecords s = Some s' → pipeline_ok s'.
Proof.
  intros Hok Hrun.
  destruct (initPipeline_hitRecords_spec s Hok) as (records & Heq & Hlen & Hrecs & _).
  rewrite Heq in Hrun. injection Hrun as <-.
  destruct Hok as (Hint & Hmat & Hgeo & Hlight & Hgroups & _).
  repeat split; simpl; try done; apply Hgroups.
Qed.

(** ** Callable records *)

Lemma callables_loop pack (programGroups : list OptixProgramGroup)
    (recs0 : list SbtRecordHeader) (n : nat) :
  (n ≤ length recs0)%nat →
  (Z.to_nat (program_id PROGRAM_ID_LENS_PINHOLE) + n ≤ length programGroups)%nat →
  Z.of_nat n < 2 ^ 30 →
  ∃ recs,
    for_int n
      (λ i recs,
         pg ← vec_at programGroups (wrap_int (program_id PROGRAM_ID_LENS_PINHOLE + i));
         vec_update recs i (λ _, pack pg)) recs0 = Some recs ∧
    length recs = length recs0 ∧
    (∀ k : nat, (k < n)%nat →
       ∃ pg, programGroups !! (Z.to_nat (program_id PROGRAM_ID_LENS_PINHOLE) + k)%nat = Some pg ∧
             recs !! k = Some (pack pg)) ∧
    (∀ k : nat, (n ≤ k)%nat → recs !! k = recs0 !! k).
Proof.
  change (program_id PROGRAM_ID_LENS_PINHOLE) with 8.
  induction n as [|n IH]; intros Hrecs Hpgs Hn.
  - exists recs0. do 2 (split; [done |]). split; [intros; lia | done].
  - destruct IH as (recs & Hrun & Hlen & Hdone & Hrest); [lia .. |].
    destruct (lookup_lt_is_Some_2 programGroups (Z.to_nat 8 + n)) as [pg Hpg]; [lia |].
    destruct (lookup_lt_is_Some_2 recs n) as [r Hr]; [lia |].
    exists (<[n := pack pg]> recs). split.
    { simpl for_int. rewrite Hrun. simpl.
      rewrite wrap_int_small by lia.
      replace (8 + Z.of_nat n) with (Z.of_nat (Z.to_nat 8 + n)) by lia.
      rewrite vec_at_nat, Hpg by lia. simpl.
      by erewrite vec_update_nat by (done || lia). }
    split; [by rewrite length_insert |].
    split.
    + intros k Hk. destruct (decide (k = n)) as [-> | Hne].
      * exists pg. split; [done |]. apply list_lookup_insert_eq. lia.
      * destruct (Hdone k) as (pg' & ? & ?); [lia |].
        exists pg'. split; [done |]. by rewrite list_lookup_insert_ne by lia.
    + intros k Hk. rewrite list_lookup_insert_ne by lia. apply Hrest. lia.
Qed.

Lemma initPipeline_callables_spec pack programGroups s :
  length programGroups = Z.to_nat NUM_PROGRAM_IDENTIFIERS →
  ∃ recs,
    initPipeline_callables pack programGroups s =
      Some (set_device (emit [MemcpySbtCallables] (set_m_d_sbtRecordCallables recs (device s)))
              (set_sbt (set_callablesRecordCount 11 (sbt s)) s)) ∧
    length recs = 11%nat ∧
    (∀ k : nat, (k < 11)%nat →
       ∃ pg, programGroups !! (Z.to_nat (program_id PROGRAM_ID_LENS_PINHOLE) + k)%nat = Some pg ∧
             recs !! k = Some (pack pg)).
Proof.
  intros Hlen. unfold initPipeline_callables.
  change (wrap_int (NUM_PROGRAM_IDENTIFIERS - program_id PROGRAM_ID_LENS_PINHOLE)) with 11.
  change (Z.to_nat (to_size_t 11)) with 11%nat.
  change (Z.to_nat 11) with 11%nat.
  destruct (callables_loop pack programGroups (replicate 11 zero_header) 11)
    as (recs & Hrun & Hl & Hdone & _).
  - by rewrite length_replicate.
  - rewrite Hlen. vm_compute. lia.
  - lia.
  - rewrite Hrun. simpl. rewrite length_replicate in Hl. rewrite Hl.
    exists recs. repeat split; done.
Qed.

(** ** Initialisation as a whole *)

Lemma add_instance_geometries_length build trafo s :
  length (m_geometries (scene (add_instance build trafo s))) =
  S (length (m_geometries (scene s))).
Proof.
  change (m_geometries (scene (add_instance build trafo s)))
    with (m_geometries (scene s) ++ [gb_data (build (length (m_geometries (scene s))))]).
  rewrite length_app. simpl. lia.
Qed.

Lemma add_instance_materials build trafo s :
  m_guiMaterialParameters (scene (add_instance build trafo s)) =
  m_guiMaterialParameters (scene s).
Proof. reflexivity. Qed.

Lemma add_instance_sbt build trafo s : sbt (add_instance build trafo s) = sbt s.
Proof. reflexivity. Qed.

Lemma createLights_frame build s :
  m_guiMaterialParameters (scene (createLights build s)) = m_guiMaterialParameters (scene s) ∧
  sbt (createLights build s) = sbt s ∧
  m_lightID (createLights build s) = m_lightID s ∧
  m_missID (createLights build s) = m_missID s ∧
  length (m_geometries (scene (createLights build s))) =
    (length (m_geometries (scene s)) + if (m_lightID s =? 0)%Z then 0 else 1)%nat.
Proof.
  unfold createLights.
  set (s1 := match m_missID s with 1 | 2 => push_light environment_light s | _ => s end).
  assert (m_guiMaterialParameters (scene s1) = m_guiMaterialParameters (scene s) ∧
          sbt s1 = sbt s ∧ m_lightID s1 = m_lightID s ∧ m_missID s1 = m_missID s ∧
          m_geometries (scene s1) = m_geometries (scene s)) as (Hm & Hs & Hl & Hmi & Hg).
  { unfold s1. destruct (m_missID s) as [|[[]|[]|]|] eqn:E;
      repeat split; first [reflexivity | exact E]. }
  rewrite Hl. destruct (m_lightID s =? 0); cbn [negb].
  - rewrite Hg. repeat split; try done; lia.
  - rewrite add_instance_materials, add_instance_sbt, add_instance_lightID,
      add_instance_missID, add_instance_geometries_length.
    change (m_geometries (scene (push_light parallelogram_light s1)))
      with (m_geometries (scene s1)).
    rewrite Hg. repeat split; try done; lia.
Qed.

Lemma initPipeline_instances_frame build s :
  m_guiMaterialParameters (scene (initPipeline_instances build s)) =
    m_guiMaterialParameters (scene s) ∧
  sbt (initPipeline_instances build s) = sbt s ∧
  m_lightID (initPipeline_instances build s) = m_lightID s ∧
  m_missID (initPipeline_instances build s) = m_missID s ∧
  length (m_geometries (scene (initPipeline_instances build s))) =
    (length (m_geometries (scene s)) + if (m_lightID s =? 0)%Z then 5 else 6)%nat.
Proof.
  unfold initPipeline_instances.
  set (s5 := add_instance build trafoTorus _).
  destruct (createLights_frame build s5) as (Hm & Hs & Hl & Hmi & Hg).
  rewrite Hm, Hs, Hl, Hmi, Hg. unfold s5.
  rewrite !add_instance_materials, !add_instance_sbt, !add_instance_lightID,
    !add_instance_missID, !add_instance_geometries_length.
  repeat split; try done; destruct (m_lightID s =? 0); lia.
Qed.

Lemma packHitGroupHeaders_spec pack missID s :
  packHitGroupHeaders pack (optixProgramGroupCreate (programGroupDescriptions missID)) s =
  Some (set_sbt
    {| m_sbtRecordHitRadiance :=
         set_header (pack (hitgroup (ent MODULE_ID_CLOSESTHIT "__closesthit__radiance") None))
           (m_sbtRecordHitRadiance (sbt s));
       m_sbtRecordHitShadow :=
         set_header (pack (hitgroup None (ent MODULE_ID_ANYHIT "__anyhit__shadow")))
           (m_sbtRecordHitShadow (sbt s));
       m_sbtRecordHitRadianceCutout :=
         set_header (pack (hitgroup (ent MODULE_ID_CLOSESTHIT "__closesthit__radiance")
                             (ent MODULE_ID_ANYHIT "__anyhit__radiance_cutout")))
           (m_sbtRecordHitRadianceCutout (sbt s));
       m_sbtRecordHitShadowCutout :=
         set_header (pack (hitgroup None (ent MODULE_ID_ANYHIT "__anyhit__shadow_cutout")))
           (m_sbtRecordHitShadowCutout (sbt s));
       m_sbtRecordGeometryInstanceData := m_sbtRecordGeometryInstanceData (sbt s);
       hitgroupRecordCount := hitgroupRecordCount (sbt s);
       callablesRecordCount := callablesRecordCount (sbt s) |} s).
Proof. reflexivity. Qed.

Lemma programGroupDescriptions_length missID :
  length (programGroupDescriptions missID) = Z.to_nat NUM_PROGRAM_IDENTIFIERS.
Proof. reflexivity. Qed.

(** A frame rule for [pipeline_ok]: it only reads the instances, the
    materials, the host and device records and the member records. *)
Lemma pipeline_ok_frame s s' :
  m_instances (scene s') = m_instances (scene s) →
  m_guiMaterialParameters (scene s') = m_guiMaterialParameters (scene s) →
  m_sbtRecordGeometryInstanceData (sbt s') = m_sbtRecordGeometryInstanceData (sbt s) →
  m_d_sbtRecordGeometryInstanceData (device s') = m_d_sbtRecordGeometryInstanceData (device s) →
  m_sbtRecordHitRadiance (sbt s') = m_sbtRecordHitRadiance (sbt s) →
  m_sbtRecordHitShadow (sbt s') = m_sbtRecordHitShadow (sbt s) →
  m_sbtRecordHitRadianceCutout (sbt s') = m_sbtRecordHitRadianceCutout (sbt s) →
  m_sbtRecordHitShadowCutout (sbt s') = m_sbtRecordHitShadowCutout (sbt s) →
  pipeline_ok s → pipeline_ok s'.
Proof.
  unfold pipeline_ok, groups_ok. intros -> -> -> -> -> -> -> ->. done.
Qed.

Lemma packHitGroupHeaders_scene_ok pack missID s :
  (∀ pg, length (pack pg) = OPTIX_SBT_RECORD_HEADER_SIZE) →
  Z.of_nat (length (m_instances (scene s))) * NUM_RAYTYPES <= INT_MAX →
  (length (m_instances (scene s)) ≤ length (m_guiMaterialParameters (scene s)))%nat →
  (length (m_instances (scene s)) ≤ length (m_geometries (scene s)))%nat →
  (m_lightID s ≠ 0 → (1 ≤ length (m_instances (scene s)))%nat) →
  Forall header_ok (m_sbtRecordGeometryInstanceData (sbt s)) →
  ∃ s',
    packHitGroupHeaders pack (optixProgramGroupCreate (programGroupDescriptions missID)) s =
      Some s' ∧
    scene_ok s' ∧ scene s' = scene s ∧ m_lightID s' = m_lightID s ∧ m_missID s' = m_missID s ∧
    groups_packed pack (sbt s').
Proof.
  intros Hpack Hint Hmat Hgeo Hlight Hrecs.
  rewrite packHitGroupHeaders_spec. eexists. split; [reflexivity |].
  split; [| by repeat split].
  unfold scene_ok, groups_ok, header_ok. cbn.
  repeat split; try done; apply Hpack.
Qed.

(** Construction runs through for every choice of options, textures,
    device answers and backend that packs headers of the right size, and
    leaves the SBT in order. *)
Lemma initRenderer_ok logf RT_DEFAULT_MAX FLAG_THINWALLED pack textureAlbedo textureCutout
    e options :
  (∀ pg, length (pack pg) = OPTIX_SBT_RECORD_HEADER_SIZE) →
  ∃ s,
    initRenderer logf RT_DEFAULT_MAX FLAG_THINWALLED pack textureAlbedo textureCutout e
      (Application_new options) = Some s ∧
    pipeline_ok s ∧
    length (m_instances (scene s)) = (if (getLight options =? 0)%Z then 5 else 6)%nat ∧
    instances_wf (m_instances (scene s)) ∧
    m_lightID s = getLight options ∧ m_missID s = getMiss options ∧
    groups_packed pack (sbt s).
Proof.
  intros Hpack. unfold initRenderer, initPipeline.
  pose (s0 := initMaterials textureAlbedo textureCutout (Application_new options)).
  destruct (initPipeline_instances_frame (env_build e) s0) as (Hm & Hs & Hl & Hmi & Hg).
  pose proof (initPipeline_instances_length (env_build e) s0) as Hn.
  pose proof (initPipeline_instances_wf (env_build e) s0) as Hwf.
  assert (length (m_guiMaterialParameters (scene s0)) = 6%nat) as Hm0 by reflexivity.
  assert (m_sbtRecordGeometryInstanceData (sbt s0) = []) as Hr0 by reflexivity.
  change (m_lightID s0) with (getLight options) in *.
  change (m_missID s0) with (getMiss options) in *.
  change (m_instances (scene s0)) with (@nil OptixInstance) in *.
  change (m_geometries (scene s0)) with (@nil GeometryData) in *.
  simpl length in Hn, Hg, Hwf.
  specialize (Hwf ltac:(lia) instances_wf_nil).
  fold s0. remember (initPipeline_instances (env_build e) s0) as s1 eqn:Es1.
  clear Es1. clearbody s0.
  destruct (packHitGroupHeaders_scene_ok pack (m_missID s1) s1 Hpack)
    as (s2 & Hrun2 & Hok2 & Hsc2 & Hl2 & Hmi2 & Hpacked).
  { rewrite Hn. unfold INT_MAX, NUM_RAYTYPES. destruct (getLight options =? 0); lia. }
  { rewrite Hn, Hm, Hm0. destruct (getLight options =? 0); lia. }
  { rewrite Hn, Hg. lia. }
  { rewrite Hn. destruct (getLight options =? 0); lia. }
  { rewrite Hs, Hr0. apply Forall_nil_2. }
  rewrite Hrun2. cbn [mbind option_bind].
  destruct (initPipeline_hitRecords_spec s2 Hok2) as (records & Hrun & Hlen & Hrecs & _).
  pose proof (initPipeline_hitRecords_ok s2 _ Hok2 Hrun) as Hok3.
  rewrite Hrun. cbn [mbind option_bind].
  remember (store_hitRecords _ records s2) as s3 eqn:Es3.
  destruct (initPipeline_callables_spec pack
              (optixProgramGroupCreate (programGroupDescriptions (m_missID s1))) s3)
    as (recs & Hcall & _); [apply programGroupDescriptions_length |].
  rewrite Hcall. cbn [mbind option_bind].
  eexists. split; [reflexivity |].
  split; [by eapply pipeline_ok_frame; [.. | exact Hok3] |].
  assert (scene s3 = scene s1 ∧ m_lightID s3 = m_lightID s1 ∧ m_missID s3 = m_missID s1 ∧
          groups_packed pack (sbt s3))
    as (Hsc3 & Hl3 & Hmi3 & Hpacked3).
  { rewrite Es3. do 3 (split; [done |]). exact Hpacked. }
  assert (∀ root output frame t,
            initPipeline_systemParameter logf RT_DEFAULT_MAX FLAG_THINWALLED root output frame t =
            set_device (device (initPipeline_systemParameter logf RT_DEFAULT_MAX
                                  FLAG_THINWALLED root output frame t))
              (set_systemParameter
                 (m_systemParameter (initPipeline_systemParameter logf RT_DEFAULT_MAX
                                       FLAG_THINWALLED root output frame t)) t)) as ->
    by reflexivity.
  cbn [scene sbt m_lightID m_missID set_device set_sbt set_systemParameter].
  rewrite Hsc3, Hl3, Hmi3, Hn, Hl, Hmi.
  do 4 (split; [done |]). exact Hpacked3.
Qed.

(** ** The accumulation loop *)

Lemma launches_app t1 t2 : launches (t1 ++ t2) = launches t1 ++ launches t2.
Proof. apply omap_app. Qed.

Lemma restartAccumulation_accum s :
  m_iterationIndex (accum (restartAccumulation s)) = 0 ∧
  m_presentNext (accum (restartAccumulation s)) = true ∧
  m_presentAtSecond (accum (restartAccumulation s)) = F64.one ∧
  m_frames (accum (restartAccumulation s)) = m_frames (accum s) ∧
  m_systemParameter (restartAccumulation s) = m_systemParameter s ∧
  m_d_systemParameter (device (restartAccumulation s)) = m_systemParameter s ∧
  launches (trace (device (restartAccumulation s))) = launches (trace (device s)).
Proof.
  repeat split. cbn. rewrite !launches_app. cbn. by rewrite !app_nil_r.
Qed.

(** Below its budget, or without one, the accumulation step launches once,
    and the device block of that launch carries the iteration index the
    host had on entry. *)
Lemma render_launch_spec mapped s :
  m_frames (accum s) = 0 ∨ m_iterationIndex (accum s) < m_frames (accum s) →
  let s' := render_launch mapped s in
  ∃ p, launches (trace (device s')) = launches (trace (device s)) ++ [p] ∧
       iterationIndex p = m_iterationIndex (accum s) ∧
       camera p = camera (m_d_systemParameter (device s)) ∧
       iterationIndex (m_systemParameter s') = m_iterationIndex (accum s) ∧
       iterationIndex (m_d_systemParameter (device s')) = m_iterationIndex (accum s) ∧
       m_iterationIndex (accum s') = wrap_int (m_iterationIndex (accum s) + 1) ∧
       m_presentNext (accum s') = m_presentNext (accum s) ∧
       m_present (accum s') = m_present (accum s).
Proof.
  intros Hbudget. unfold render_launch.
  assert ((0 =? m_frames (accum s)) || (m_iterationIndex (accum s) <? m_frames (accum s)) = true)
    as ->.
  { apply orb_true_iff. destruct Hbudget as [H | H]; [left | right]; lia. }
  cbn. destruct (m_interop s); cbn; rewrite !launches_app; cbn; rewrite !app_nil_r;
    eexists; (split; [reflexivity |]); repeat split.
Qed.

Lemma render_present_spec s :
  m_presentNext (accum s) = true →
  (render_present s).2 = true ∧
  m_iterationIndex (accum (render_present s).1) = m_iterationIndex (accum s) ∧
  m_systemParameter (render_present s).1 = m_systemParameter s ∧
  m_d_systemParameter (device (render_present s).1) = m_d_systemParameter (device s) ∧
  launches (trace (device (render_present s).1)) = launches (trace (device s)).
Proof.
  intros H. unfold render_present. rewrite H. cbn.
  rewrite launches_app. destruct (m_interop s); cbn; by rewrite app_nil_r.
Qed.

Lemma render_timing_frame seconds s :
  m_iterationIndex (accum (render_timing seconds s)) = m_iterationIndex (accum s) ∧
  m_systemParameter (render_timing seconds s) = m_systemParameter s ∧
  m_d_systemParameter (device (render_timing seconds s)) = m_d_systemParameter (device s) ∧
  launches (trace (device (render_timing seconds s))) = launches (trace (device s)).
Proof.
  unfold render_timing.
  destruct (F64.ltb seconds F64.half); [done |].
  destruct (F64.ltb (m_presentAtSecond (accum s)) seconds); [| done].
  cbn. rewrite launches_app. cbn. by rewrite app_nil_r.
Qed.

(** ** Materials *)


(** Whatever finite value the sentinel has, a volume distance scale of 0
    turns the coefficient of a zero channel into a zero. *)
Lemma derived_absorption_zero_scale (logf : float → float) (FLAG_THINWALLED : Z)
    (c : Scene) (src : MaterialParameterGUI) (sign : bool) (m : positive) (e : Z) :
  x (absorptionColor src) = F32.zero → volumeDistanceScale src = F32.zero →
  x (mp_absorption (convertMaterial logf (S754_finite sign m e) FLAG_THINWALLED c src)) =
    S754_zero sign.
Proof.
  intros Hx Hs. cbn. unfold absorption_coefficient. rewrite Hx, Hs.
  by destruct sign.
Qed.

(** For the miss programs 0, 1 and 2 the light index of the last
    instance's records is the position of the parallelogram light in
    [m_lightDefinitions]. *)
Lemma parallelogram_light_position (build : nat → GeometryBuild) (s : Application) :
  m_lightDefinitions (scene s) = [] → m_lightID s ≠ 0 →
  m_missID s = 0 ∨ m_missID s = 1 ∨ m_missID s = 2 →
  m_lightDefinitions (scene (createLights build s))
    !! Z.to_nat (if negb (m_missID s =? 0) then 1 else 0) = Some parallelogram_light.
Proof.
  intros Hnil Hlight Hmiss. unfold createLights.
  destruct Hmiss as [-> | [-> | ->]];
    cbn [negb Z.eqb Pos.eqb];
    match goal with |- context [negb (m_lightID ?a =? 0)] =>
      change (m_lightID a) with (m_lightID s) end;
    (destruct (Z.eqb_spec (m_lightID s) 0) as [? | _]; [done |]); cbn [negb].
  - change (m_lightDefinitions
              (scene (add_instance build trafoLight (push_light parallelogram_light s))))
      with (m_lightDefinitions (scene s) ++ [parallelogram_light]).
    by rewrite Hnil.
  - change (m_lightDefinitions
              (scene (add_instance build trafoLight
                        (push_light parallelogram_light (push_light environment_light s)))))
      with ((m_lightDefinitions (scene s) ++ [environment_light]) ++ [parallelogram_light]).
    by rewrite Hnil.
  - change (m_lightDefinitions
              (scene (add_instance build trafoLight
                        (push_light parallelogram_light (push_light environment_light s)))))
      with ((m_lightDefinitions (scene s) ++ [environment_light]) ++ [parallelogram_light]).
    by rewrite Hnil.
Qed.

(** ** The properties of the specification *)

(** C2 — Every instance the scene construction of [initPipeline] appends,
    the parallelogram light's included, has its position in [m_instances]
    as [instanceId] and that position times the number of ray types as
    [sbtOffset]; so every offset is a multiple of the number of ray types
    and no two instances share one. The same holds for instances appended
    in any order and number that [unsigned int] can count. *)
Theorem instance_sbt_offsets (build : nat → GeometryBuild) (s : Application) :
  m_instances (scene s) = [] →
  (∀ (i : nat) inst,
     m_instances (scene (initPipeline_instances build s)) !! i = Some inst →
     instanceId inst = Z.of_nat i ∧
     sbtOffset inst = Z.of_nat i * NUM_RAYTYPES ∧
     (NUM_RAYTYPES | sbtOffset inst)) ∧
  (∀ (i j : nat) a b,
     m_instances (scene (initPipeline_instances build s)) !! i = Some a →
     m_instances (scene (initPipeline_instances build s)) !! j = Some b →
     sbtOffset a = sbtOffset b → i = j) ∧
  (∀ pushes, Z.of_nat (length pushes) <= 2 ^ 31 →
     instances_wf (m_instances (scene (push_all pushes s)))).
Proof.
  intros Hnil.
  assert (instances_wf (m_instances (scene (initPipeline_instances build s)))) as Hwf.
  { apply initPipeline_instances_wf; rewrite Hnil; [simpl; lia | apply instances_wf_nil]. }
  split; [| split].
  - intros i inst Hi. destruct (Hwf i inst Hi) as [Hid Hoff].
    repeat split; try done. rewrite Hoff. by apply Z.divide_factor_r.
  - intros i j a b Hi Hj Heq.
    destruct (Hwf i a Hi) as [_ Ha]. destruct (Hwf j b Hj) as [_ Hb].
    unfold NUM_RAYTYPES in *. lia.
  - intros pushes Hlen. apply push_all_wf; rewrite Hnil; [simpl; lia | apply instances_wf_nil].
Qed.

(** C5 — When the camera reports a changed frame, [render] restarts the
    accumulation before it uses the counter: the restart sets the counter
    to 0, sets the present-next flag and resets the present-time threshold
    to one second; the launch of this call then reads iteration index 0
    and the new frame from the device, the host counter ends at 1, and
    the call presents (it returns [true]). *)
Theorem render_after_camera_change (frame : CameraFrame) (mapped : CUdeviceptr)
    (seconds : double) (s : Application) :
  0 <= m_frames (accum s) →
  let restarted :=
    restartAccumulation (set_systemParameter (set_camera frame (m_systemParameter s)) s) in
  let result := render (true, frame) mapped seconds s in
  m_iterationIndex (accum restarted) = 0 ∧
  m_presentNext (accum restarted) = true ∧
  m_presentAtSecond (accum restarted) = F64.one ∧
  (∃ p, launches (trace (device result.1)) = launches (trace (device s)) ++ [p] ∧
        iterationIndex p = 0 ∧ camera p = frame) ∧
  iterationIndex (m_systemParameter result.1) = 0 ∧
  iterationIndex (m_d_systemParameter (device result.1)) = 0 ∧
  m_iterationIndex (accum result.1) = 1 ∧
  result.2 = true.
Proof.
  intros Hframes restarted result.
  destruct (restartAccumulation_accum
              (set_systemParameter (set_camera frame (m_systemParameter s)) s))
    as (Hi & Hn & Ht & Hf & Hp & Hd & Hl).
  fold restarted in Hi, Hn, Ht, Hf, Hp, Hd, Hl.
  do 3 (split; [done |]).
  destruct (render_launch_spec mapped restarted)
    as (p & Hlaunch & Hpi & Hpc & Hhost & Hdev & Hcount & Hnext & _).
  { rewrite Hi, Hf. cbn. lia. }
  assert (result = (render_timing seconds (render_present (render_launch mapped restarted)).1,
                    (render_present (render_launch mapped restarted)).2)) as ->.
  { unfold result, render. fold restarted.
    by destruct (render_present (render_launch mapped restarted)). }
  destruct (render_present_spec (render_launch mapped restarted))
    as (Hrep & Hci & Hcp & Hcd & Hcl); [by rewrite Hnext |].
  destruct (render_timing_frame seconds (render_present (render_launch mapped restarted)).1)
    as (Hti & Htp & Htd & Htl).
  cbn [fst snd]. rewrite Hti, Htp, Htd, Htl, Hci, Hcp, Hcd, Hcl.
  split.
  { exists p. rewrite Hlaunch, Hl, Hpi, Hi, Hpc, Hd. done. }
  rewrite Hhost, Hdev, Hcount, Hi. done.
Qed.


(** C7 — With the constant environment (miss program 1) and the
    parallelogram light, [createLights] makes two light definitions, the
    environment light first and the parallelogram light second; the
    parallelogram's area is the length of the cross product of its edge
    vectors and its normal is that cross product divided by the area. The
    launch parameters then count two lights and the device array holds
    the two definitions. *)
Theorem lights_constant_environment_and_parallelogram (logf : float → float)
    (RT_DEFAULT_MAX : float) (FLAG_THINWALLED : Z) (build : nat → GeometryBuild)
    (root : OptixTraversableHandle) (output : CUdeviceptr) (frame : CameraFrame)
    (s : Application) :
  m_lightDefinitions (scene s) = [] → m_missID s = 1 → m_lightID s ≠ 0 →
  ∃ env para,
    m_lightDefinitions (scene (createLights build s)) = [env; para] ∧
    type env = LIGHT_ENVIRONMENT ∧
    type para = LIGHT_PARALLELOGRAM ∧
    area para = VectorMath.length (VectorMath.cross (vecU para) (vecV para)) ∧
    normal para =
      VectorMath.div_scalar (VectorMath.cross (vecU para) (vecV para)) (area para) ∧
    numLights (m_systemParameter
                 (initPipeline_systemParameter logf RT_DEFAULT_MAX FLAG_THINWALLED
                    root output frame (createLights build s))) = 2 ∧
    d_lightDefinitions (device
                 (initPipeline_systemParameter logf RT_DEFAULT_MAX FLAG_THINWALLED
                    root output frame (createLights build s))) = [env; para].
Proof.
  intros Hnil Hmiss Hlight.
  exists environment_light, parallelogram_light.
  assert (m_lightDefinitions (scene (createLights build s)) =
          [environment_light; parallelogram_light]) as Hlights.
  { unfold createLights. rewrite Hmiss.
    change (m_lightID (push_light environment_light s)) with (m_lightID s).
    destruct (Z.eqb_spec (m_lightID s) 0) as [? | _]; [done |]. cbn [negb].
    change (m_lightDefinitions
              (scene (add_instance build trafoLight
                        (push_light parallelogram_light (push_light environment_light s)))))
      with ((m_lightDefinitions (scene s) ++ [environment_light]) ++ [parallelogram_light]).
    by rewrite Hnil. }
  split; [done |]. do 4 (split; [reflexivity |]).
  unfold initPipeline_systemParameter, updateMaterialParameters. cbn.
  by rewrite Hlights.
Qed.


(** C1 — For a scene of [N] instances, the hit-group records [initPipeline]
    builds are exactly [N * NUM_RAYTYPES], on the host, on the device and
    in the count of the shader binding table; the callable records are as
    many as there are callable program identifiers,
    [NUM_PROGRAM_IDENTIFIERS - PROGRAM_ID_LENS_PINHOLE]. *)
Theorem sbt_record_counts (pack : OptixProgramGroup → SbtRecordHeader)
    (programGroups : list OptixProgramGroup) (s : Application) :
  scene_ok s →
  length programGroups = Z.to_nat NUM_PROGRAM_IDENTIFIERS →
  ∃ s1 s2,
    initPipeline_hitRecords s = Some s1 ∧
    initPipeline_callables pack programGroups s1 = Some s2 ∧
    m_instances (scene s2) = m_instances (scene s) ∧
    Z.of_nat (length (m_sbtRecordGeometryInstanceData (sbt s2))) =
      Z.of_nat (length (m_instances (scene s))) * NUM_RAYTYPES ∧
    Z.of_nat (length (m_d_sbtRecordGeometryInstanceData (device s2))) =
      Z.of_nat (length (m_instances (scene s))) * NUM_RAYTYPES ∧
    hitgroupRecordCount (sbt s2) = Z.of_nat (length (m_instances (scene s))) * NUM_RAYTYPES ∧
    Z.of_nat (length (m_d_sbtRecordCallables (device s2))) =
      NUM_PROGRAM_IDENTIFIERS - program_id PROGRAM_ID_LENS_PINHOLE ∧
    callablesRecordCount (sbt s2) =
      NUM_PROGRAM_IDENTIFIERS - program_id PROGRAM_ID_LENS_PINHOLE ∧
    length (m_d_sbtRecordCallables (device s2)) = length callable_identifiers.
Proof.
  intros Hok Hpgs.
  destruct (initPipeline_hitRecords_spec s Hok) as (records & Hrun & Hlen & _).
  destruct (initPipeline_callables_spec pack programGroups
              (store_hitRecords (Z.of_nat (length (m_instances (scene s))) * NUM_RAYTYPES)
                 records s) Hpgs) as (recs & Hcall & Hlenc & _).
  eexists _, _. split; [exact Hrun |]. split; [exact Hcall |].
  destruct Hok as (Hint & _). unfold INT_MAX, NUM_RAYTYPES in *.
  cbn. rewrite Hlen, Hlenc. rewrite to_uint_small by lia.
  repeat split; lia.
Qed.

(** C9 — In the records [initPipeline] fills, both records of instance [i]
    carry material index [i]; their light index is -1, except that with
    the parallelogram light enabled the records of the last instance
    carry 1 when the miss program is not 0 and 0 when it is. *)
Theorem hit_record_indices (s : Application) :
  scene_ok s →
  ∃ s',
    initPipeline_hitRecords s = Some s' ∧
    ∀ i : nat, (i < length (m_instances (scene s)))%nat →
      ∃ r0 r1,
        m_sbtRecordGeometryInstanceData (sbt s') !! (2 * i)%nat = Some r0 ∧
        m_sbtRecordGeometryInstanceData (sbt s') !! (2 * i + 1)%nat = Some r1 ∧
        materialIndex (data r0) = Z.of_nat i ∧
        materialIndex (data r1) = Z.of_nat i ∧
        lightIndex (data r0) = lightIndex (data r1) ∧
        (m_lightID s ≠ 0 ∧ S i = length (m_instances (scene s)) →
         lightIndex (data r0) = if m_missID s =? 0 then 0 else 1) ∧
        (¬ (m_lightID s ≠ 0 ∧ S i = length (m_instances (scene s))) →
         lightIndex (data r0) = -1).
Proof.
  intros Hok.
  destruct (initPipeline_hitRecords_spec s Hok) as (records & Hrun & _ & _ & Hdone).
  eexists. split; [exact Hrun |].
  intros i Hi. destruct (Hdone i Hi) as (material & geometry & _ & _ & H0 & H1).
  eexists _, _. cbn. replace (i + (i + 0) + 1)%nat with (S (2 * i)) by lia.
  split; [exact H0 |]. split; [exact H1 |]. cbn.
  do 3 (split; [done |]). split.
  - intros [Hl Hlast]. rewrite expected_lightIndex_on by done.
    by destruct (m_missID s =? 0).
  - intros Hnot. apply expected_lightIndex_off.
    destruct (decide (m_lightID s = 0)); [by left | right]. naive_solver.
Qed.

(** The effect of the live update on a valid instance, in one place. *)
Lemma updateShaderBindingTable_effect s (instance : Z) :
  pipeline_ok s → 0 <= instance < Z.of_nat (length (m_instances (scene s))) →
  ∃ s' material r0 r1,
    updateShaderBindingTable instance s = Some s' ∧
    m_guiMaterialParameters (scene s) !! Z.to_nat instance = Some material ∧
    m_sbtRecordGeometryInstanceData (sbt s) !! (2 * Z.to_nat instance)%nat = Some r0 ∧
    m_sbtRecordGeometryInstanceData (sbt s) !! S (2 * Z.to_nat instance) = Some r1 ∧
    m_sbtRecordGeometryInstanceData (sbt s') =
      <[S (2 * Z.to_nat instance) := set_header (header (shadow_group (sbt s) material)) r1]>
        (<[(2 * Z.to_nat instance)%nat :=
             set_header (header (radiance_group (sbt s) material)) r0]>
           (m_sbtRecordGeometryInstanceData (sbt s))) ∧
    m_d_sbtRecordGeometryInstanceData (device s') = m_sbtRecordGeometryInstanceData (sbt s') ∧
    scene s' = scene s ∧
    (∀ material', radiance_group (sbt s') material' = radiance_group (sbt s) material' ∧
                  shadow_group (sbt s') material' = shadow_group (sbt s) material').
Proof.
  intros Hok Hi.
  destruct (updateShaderBindingTable_spec s (Z.to_nat instance) Hok)
    as (material & r0 & r1 & Hm & H0 & H1 & Hupd); [lia |].
  rewrite Z2Nat.id in Hupd by lia. cbv zeta in Hupd.
  eexists _, material, r0, r1. split; [exact Hupd |].
  do 3 (split; [done |]). cbn. done.
Qed.

Lemma lookup_insert_data (records : list SbtRecordGeometryInstanceData) (k j : nat) r h :
  records !! k = Some r →
  data <$> <[k := set_header h r]> records !! j = data <$> records !! j.
Proof.
  intros Hk. destruct (decide (k = j)) as [<- | Hne].
  - rewrite list_lookup_insert_eq by (by eapply lookup_lt_Some). by rewrite Hk.
  - by rewrite list_lookup_insert_ne.
Qed.


(** C4 — For a valid instance index [i], [updateShaderBindingTable(i)]
    changes no hit-group record outside the indices from
    [i * NUM_RAYTYPES] up to, and not including,
    [i * NUM_RAYTYPES + NUM_RAYTYPES], on the host and on the device, keeps
    the number of records, and leaves the payload of the two records it
    touches as it was. *)
Theorem update_touches_two_records (s : Application) (instance : Z) :
  pipeline_ok s →
  0 <= instance < Z.of_nat (length (m_instances (scene s))) →
  ∃ s',
    updateShaderBindingTable instance s = Some s' ∧
    length (m_sbtRecordGeometryInstanceData (sbt s')) =
      length (m_sbtRecordGeometryInstanceData (sbt s)) ∧
    length (m_d_sbtRecordGeometryInstanceData (device s')) =
      length (m_d_sbtRecordGeometryInstanceData (device s)) ∧
    (∀ j : nat,
       ¬ (instance * NUM_RAYTYPES <= Z.of_nat j < instance * NUM_RAYTYPES + NUM_RAYTYPES) →
       m_sbtRecordGeometryInstanceData (sbt s') !! j =
         m_sbtRecordGeometryInstanceData (sbt s) !! j ∧
       m_d_sbtRecordGeometryInstanceData (device s') !! j =
         m_d_sbtRecordGeometryInstanceData (device s) !! j) ∧
    (∀ j : nat,
       instance * NUM_RAYTYPES <= Z.of_nat j < instance * NUM_RAYTYPES + NUM_RAYTYPES →
       data <$> m_sbtRecordGeometryInstanceData (sbt s') !! j =
         data <$> m_sbtRecordGeometryInstanceData (sbt s) !! j ∧
       data <$> m_d_sbtRecordGeometryInstanceData (device s') !! j =
         data <$> m_d_sbtRecordGeometryInstanceData (device s) !! j).
Proof.
  intros Hok Hi.
  assert (m_d_sbtRecordGeometryInstanceData (device s) =
          m_sbtRecordGeometryInstanceData (sbt s)) as Hmirror by apply Hok.
  destruct (updateShaderBindingTable_effect s instance Hok Hi)
    as (s' & material & r0 & r1 & Hupd & Hm & H0 & H1 & Hrecs & Hdev & Hscene & Hgroups).
  exists s'. split; [done |].
  rewrite Hdev, Hmirror, Hrecs, !length_insert.
  do 2 (split; [done |]). unfold NUM_RAYTYPES. split.
  - intros j Hj. by rewrite !list_lookup_insert_ne by lia.
  - intros j _.
    rewrite lookup_insert_data by (by rewrite list_lookup_insert_ne by lia).
    by rewrite lookup_insert_data.
Qed.

(** C10 — [updateShaderBindingTable] with an [int] outside the range of
    the instances is a no-op: the state it returns is the state it was
    given, so the host records, the device records and the trace of
    device calls are as before. *)
Theorem update_outside_is_noop (s : Application) (instance : Z) :
  in_int instance →
  Z.of_nat (length (m_instances (scene s))) < 2 ^ 63 →
  ¬ (0 <= instance < Z.of_nat (length (m_instances (scene s)))) →
  ∃ s',
    updateShaderBindingTable instance s = Some s' ∧
    s' = s ∧
    m_sbtRecordGeometryInstanceData (sbt s') = m_sbtRecordGeometryInstanceData (sbt s) ∧
    m_d_sbtRecordGeometryInstanceData (device s') =
      m_d_sbtRecordGeometryInstanceData (device s) ∧
    trace (device s') = trace (device s).
Proof.
  intros Hint Hlen Hout. exists s.
  split; [by apply updateShaderBindingTable_outside | done].
Qed.

(** ** The concrete run *)

Lemma sample_packHeader_size pg : length (sample_packHeader pg) = OPTIX_SBT_RECORD_HEADER_SIZE.
Proof. apply length_resize. Qed.

Lemma sample_scene_ok : scene_ok sample_scene.
Proof.
  destruct (packHitGroupHeaders_scene_ok sample_packHeader (getMiss sample_options)
              (initPipeline_instances sample_build
                 (initMaterials 7 8 (Application_new sample_options))))
    as (s' & Hrun & Hok & _);
    [apply sample_packHeader_size | by vm_compute | vm_compute; lia | vm_compute; lia
    | vm_compute; lia | apply Forall_nil_2 |].
  unfold sample_scene. by rewrite Hrun.
Qed.

Lemma sample_app_ok :
  pipeline_ok sample_app ∧ length (m_instances (scene sample_app)) = 6%nat.
Proof.
  destruct (initRenderer_ok logf_table sample_RT_DEFAULT_MAX sample_FLAG_THINWALLED
              sample_packHeader 7 8 sample_env sample_options sample_packHeader_size)
    as (s & Hrun & Hok & Hn & _).
  unfold sample_app, sample_run. rewrite Hrun. cbn [default from_option id].
  split; [exact Hok | exact Hn].
Qed.

(** Ticking a box of a material in the GUI keeps the SBT in order. *)
Lemma pipeline_ok_alter_material s f (k : nat) :
  pipeline_ok s →
  pipeline_ok (set_scene
                 (set_m_guiMaterialParameters
                    (alter f k (m_guiMaterialParameters (scene s))) (scene s)) s).
Proof.
  intros (Hint & Hmat & Hlen & Hmirror & Hgroups & Hrecs).
  unfold pipeline_ok. cbn. rewrite length_alter. done.
Qed.

Lemma sample_toggled_ok :
  pipeline_ok sample_toggled ∧ length (m_instances (scene sample_toggled)) = 6%nat.
Proof.
  split.
  - apply pipeline_ok_alter_material, sample_app_ok.
  - by vm_compute.
Qed.

(** The parallelogram light of the scene has area 16 and normal (0, -1, 0). *)
Example parallelogram_light_area :
  area parallelogram_light = F32.of_Z 16 ∧
  normal parallelogram_light = make_float3 F32.zero (F32.of_Z (-1)) F32.zero.
Proof. by vm_compute. Qed.

(** Ticking the cutout box of the floor material switches its two records
    from the radiance and shadow hit groups to the cutout ones. *)
Example toggle_floor_cutout :
  (λ s, map header (take 2 (m_sbtRecordGeometryInstanceData (sbt s)))) <$>
    toggleCutout 0 sample_app =
  Some [ sample_packHeader
           (hitgroup (ent MODULE_ID_CLOSESTHIT "__closesthit__radiance")
              (ent MODULE_ID_ANYHIT "__anyhit__radiance_cutout"));
         sample_packHeader (hitgroup None (ent MODULE_ID_ANYHIT "__anyhit__shadow_cutout")) ] ∧
  map header (take 2 (m_sbtRecordGeometryInstanceData (sbt sample_app))) =
  [ sample_packHeader (hitgroup (ent MODULE_ID_CLOSESTHIT "__closesthit__radiance") None);
    sample_packHeader (hitgroup None (ent MODULE_ID_ANYHIT "__anyhit__shadow")) ].
Proof. by vm_compute. Qed.

Lemma instance_sbt_offsets_witness :
  m_instances (scene (Application_new sample_options)) = [] ∧
  ∀ (i : nat) inst,
    m_instances (scene (initPipeline_instances sample_build (Application_new sample_options)))
      !! i = Some inst →
    instanceId inst = Z.of_nat i ∧
    sbtOffset inst = Z.of_nat i * NUM_RAYTYPES ∧
    (NUM_RAYTYPES | sbtOffset inst).
Proof.
  split; [reflexivity |].
  apply (instance_sbt_offsets sample_build (Application_new sample_options)).
  reflexivity.
Defined.

Lemma render_after_camera_change_witness :
  0 <= m_frames (accum sample_app) ∧
  (render (true, sample_frame) 0 F64.half sample_app).2 = true ∧
  m_iterationIndex (accum (render (true, sample_frame) 0 F64.half sample_app).1) = 1.
Proof.
  assert (0 <= m_frames (accum sample_app)) as H by (by vm_compute).
  split; [exact H |].
  pose proof (render_after_camera_change sample_frame 0 F64.half sample_app H) as Hr.
  cbv zeta in Hr. destruct Hr as (_ & _ & _ & _ & _ & _ & Hi & Hrep).
  split; [exact Hrep | exact Hi].
Defined.



Lemma lights_constant_environment_and_parallelogram_witness :
  m_lightDefinitions (scene (Application_new sample_options)) = [] ∧
  m_missID (Application_new sample_options) = 1 ∧
  m_lightID (Application_new sample_options) ≠ 0 ∧
  map type (m_lightDefinitions
              (scene (createLights sample_build (Application_new sample_options)))) =
    [LIGHT_ENVIRONMENT; LIGHT_PARALLELOGRAM].
Proof.
  assert (m_lightID (Application_new sample_options) ≠ 0) as Hl by (by vm_compute).
  do 2 (split; [reflexivity |]). split; [exact Hl |].
  destruct (lights_constant_environment_and_parallelogram logf_table sample_RT_DEFAULT_MAX
              sample_FLAG_THINWALLED sample_build 99 8192 sample_frame
              (Application_new sample_options) eq_refl eq_refl Hl)
    as (env & para & -> & Henv & Hpara & _).
  simpl. by rewrite Henv, Hpara.
Defined.


Lemma sbt_record_counts_witness :
  scene_ok sample_scene ∧
  length (programGroupDescriptions 1) = Z.to_nat NUM_PROGRAM_IDENTIFIERS ∧
  ∃ s1 s2,
    initPipeline_hitRecords sample_scene = Some s1 ∧
    initPipeline_callables sample_packHeader (programGroupDescriptions 1) s1 = Some s2 ∧
    length (m_sbtRecordGeometryInstanceData (sbt s2)) = 12%nat ∧
    length (m_d_sbtRecordCallables (device s2)) = 11%nat.
Proof.
  split; [exact sample_scene_ok |]. split; [reflexivity |].
  destruct (sbt_record_counts sample_packHeader (programGroupDescriptions 1) sample_scene
              sample_scene_ok eq_refl)
    as (s1 & s2 & H1 & H2 & _ & Hlen & _ & _ & _ & _ & Hcall).
  exists s1, s2. split; [exact H1 |]. split; [exact H2 |].
  split; [| exact Hcall].
  assert (length (m_instances (scene sample_scene)) = 6%nat) as E by (by vm_compute).
  rewrite E in Hlen. unfold NUM_RAYTYPES in Hlen. lia.
Defined.

Lemma hit_record_indices_witness :
  scene_ok sample_scene ∧ is_Some (initPipeline_hitRecords sample_scene).
Proof.
  split; [exact sample_scene_ok |].
  destruct (hit_record_indices sample_scene sample_scene_ok) as (s' & Hrun & _).
  exists s'. exact Hrun.
Defined.


Lemma update_touches_two_records_witness :
  pipeline_ok sample_toggled ∧
  0 <= 3 < Z.of_nat (length (m_instances (scene sample_toggled))) ∧
  is_Some (updateShaderBindingTable 3 sample_toggled).
Proof.
  destruct sample_toggled_ok as [Hok Hn].
  assert (0 <= 3 < Z.of_nat (length (m_instances (scene sample_toggled)))) as Hi
    by (rewrite Hn; lia).
  split; [exact Hok |]. split; [exact Hi |].
  destruct (update_touches_two_records sample_toggled 3 Hok Hi) as (s' & Hupd & _).
  exists s'. exact Hupd.
Defined.

Lemma update_outside_is_noop_witness :
  in_int (-1) ∧
  Z.of_nat (length (m_instances (scene sample_app))) < 2 ^ 63 ∧
  ¬ (0 <= -1 < Z.of_nat (length (m_instances (scene sample_app)))) ∧
  updateShaderBindingTable (-1) sample_app = Some sample_app.
Proof.
  assert (in_int (-1)) as H1 by (unfold in_int; lia).
  assert (Z.of_nat (length (m_instances (scene sample_app))) < 2 ^ 63) as H2
    by (rewrite (proj2 sample_app_ok); lia).
  assert (¬ (0 <= -1 < Z.of_nat (length (m_instances (scene sample_app))))) as H3 by lia.
  do 3 (split; [done |]).
  destruct (update_outside_is_noop sample_app (-1) H1 H2 H3) as (s' & Hupd & -> & _).
  exact Hupd.
Defined.

(** ** Further properties: the accumulation loop *)

Lemma render_unfold frustum mapped seconds s :
  render frustum mapped seconds s =
  let entered :=
    if frustum.1
    then restartAccumulation
           (set_systemParameter (set_camera frustum.2 (m_systemParameter s)) s)
    else set_systemParameter (set_camera frustum.2 (m_systemParameter s)) s in
  (render_timing seconds (render_present (render_launch mapped entered)).1,
   (render_present (render_launch mapped entered)).2).
Proof.
  destruct frustum as [changed frame]. unfold render. cbn [fst snd].
  by destruct (render_present (render_launch mapped _)).
Qed.

(** Outside its budget the accumulation step does nothing. *)
Lemma render_launch_idle mapped s :
  m_frames (accum s) ≠ 0 → m_frames (accum s) <= m_iterationIndex (accum s) →
  render_launch mapped s = s.
Proof.
  intros Hne Hle. unfold render_launch.
  destruct (Z.eqb_spec 0 (m_frames (accum s))) as [? | _]; [congruence |].
  destruct (Z.ltb_spec (m_iterationIndex (accum s)) (m_frames (accum s))); [lia | done].
Qed.

Lemma render_present_flag s :
  (render_present s).2 = m_presentNext (accum s) ∧
  m_presentNext (accum (render_present s).1) =
    m_presentNext (accum s) && m_present (accum s) ∧
  m_present (accum (render_present s).1) = m_present (accum s) ∧
  m_presentAtSecond (accum (render_present s).1) = m_presentAtSecond (accum s) ∧
  m_iterationIndex (accum (render_present s).1) = m_iterationIndex (accum s) ∧
  m_frames (accum (render_present s).1) = m_frames (accum s) ∧
  m_systemParameter (render_present s).1 = m_systemParameter s ∧
  m_d_systemParameter (device (render_present s).1) = m_d_systemParameter (device s) ∧
  launches (trace (device (render_present s).1)) = launches (trace (device s)).
Proof.
  unfold render_present. destruct (m_presentNext (accum s)) eqn:E; cbn; [| by rewrite E].
  rewrite launches_app. destruct (m_interop s); cbn; by rewrite app_nil_r.
Qed.

Lemma render_timing_flag seconds s :
  m_presentNext (accum (render_timing seconds s)) =
    F64.ltb seconds F64.half || F64.ltb (m_presentAtSecond (accum s)) seconds ||
    m_presentNext (accum s) ∧
  m_frames (accum (render_timing seconds s)) = m_frames (accum s) ∧
  m_present (accum (render_timing seconds s)) = m_present (accum s).
Proof.
  unfold render_timing.
  destruct (F64.ltb seconds F64.half); [done |].
  by destruct (F64.ltb (m_presentAtSecond (accum s)) seconds).
Qed.

Lemma render_launch_frame mapped s :
  m_frames (accum (render_launch mapped s)) = m_frames (accum s) ∧
  m_presentNext (accum (render_launch mapped s)) = m_presentNext (accum s) ∧
  m_present (accum (render_launch mapped s)) = m_present (accum s) ∧
  m_presentAtSecond (accum (render_launch mapped s)) = m_presentAtSecond (accum s).
Proof.
  unfold render_launch.
  destruct ((0 =? m_frames (accum s)) || (m_iterationIndex (accum s) <? m_frames (accum s)));
    [| done].
  cbn. by destruct (m_interop s).
Qed.

(** The accumulation step leaves the device block equal to the host
    block if it was so before. *)
Lemma render_launch_in_step mapped s :
  in_step s →
  in_step (render_launch mapped s) ∧
  ∃ ps, launches (trace (device (render_launch mapped s))) =
          launches (trace (device s)) ++ ps ∧
        Forall (λ p, p = m_systemParameter (render_launch mapped s)) ps.
Proof.
  unfold in_step, render_launch. intros Hstep.
  destruct ((0 =? m_frames (accum s)) || (m_iterationIndex (accum s) <? m_frames (accum s))).
  - cbn. destruct (m_interop s); cbn; rewrite Hstep, !launches_app; cbn;
      rewrite ?app_nil_r; (split; [done |]); eexists [_]; (split; [reflexivity |]);
      by apply Forall_singleton.
  - split; [done |]. exists []. by rewrite app_nil_r.
Qed.

(** X1 — Restarting the accumulation twice in a row leaves what one
    restart leaves: the same counters and flags, the same host and device
    parameter blocks, scene and SBT; only the stream sees the second
    synchronisation, upload and timer restart. *)
Theorem restartAccumulation_idempotent (s : Application) :
  m_systemParameter (restartAccumulation (restartAccumulation s)) =
    m_systemParameter (restartAccumulation s) ∧
  accum (restartAccumulation (restartAccumulation s)) = accum (restartAccumulation s) ∧
  m_d_systemParameter (device (restartAccumulation (restartAccumulation s))) =
    m_d_systemParameter (device (restartAccumulation s)) ∧
  scene (restartAccumulation (restartAccumulation s)) = scene (restartAccumulation s) ∧
  sbt (restartAccumulation (restartAccumulation s)) = sbt (restartAccumulation s) ∧
  in_step (restartAccumulation s) ∧
  trace (device (restartAccumulation (restartAccumulation s))) =
    trace (device (restartAccumulation s)) ++
    [StreamSynchronize; MemcpySystemParameter; TimerRestart].
Proof.
  do 6 (split; [reflexivity |]). cbn. by rewrite <- !app_assoc.
Qed.

(** X2 — Without a camera change and inside the frame budget (or without
    one), [render] launches once with the iteration index the counter had
    on entry, moves the counter on by one, and presents exactly if a
    present was pending. *)
Theorem render_continues_accumulation (frame : CameraFrame) (mapped : CUdeviceptr)
    (seconds : double) (s : Application) :
  m_frames (accum s) = 0 ∨ m_iterationIndex (accum s) < m_frames (accum s) →
  0 <= m_iterationIndex (accum s) < INT_MAX →
  ∃ p,
    launches (trace (device (render (false, frame) mapped seconds s).1)) =
      launches (trace (device s)) ++ [p] ∧
    iterationIndex p = m_iterationIndex (accum s) ∧
    m_iterationIndex (accum (render (false, frame) mapped seconds s).1) =
      m_iterationIndex (accum s) + 1 ∧
    (render (false, frame) mapped seconds s).2 = m_presentNext (accum s).
Proof.
  intros Hbudget Hrange. rewrite render_unfold. cbn [fst snd].
  set (entered := set_systemParameter (set_camera frame (m_systemParameter s)) s).
  destruct (render_launch_spec mapped entered Hbudget)
    as (p & Hl & Hp & _ & _ & _ & Hcount & Hnext & _).
  destruct (render_present_flag (render_launch mapped entered))
    as (Hrep & _ & _ & _ & Hci & _ & _ & _ & Hcl).
  destruct (render_timing_frame seconds (render_present (render_launch mapped entered)).1)
    as (Hti & _ & _ & Htl).
  exists p. rewrite Htl, Hcl, Hl, Hti, Hci, Hcount, Hrep, Hnext.
  unfold INT_MAX in Hrange. rewrite wrap_int_small by (cbn; lia). done.
Qed.

(** X3 — With a frame budget that is used up and no camera change,
    [render] launches nothing and leaves the counter, the host block's
    iteration index and the device block as they are. *)
Theorem render_stops_at_budget (frame : CameraFrame) (mapped : CUdeviceptr)
    (seconds : double) (s : Application) :
  m_frames (accum s) ≠ 0 → m_frames (accum s) <= m_iterationIndex (accum s) →
  launches (trace (device (render (false, frame) mapped seconds s).1)) =
    launches (trace (device s)) ∧
  m_iterationIndex (accum (render (false, frame) mapped seconds s).1) =
    m_iterationIndex (accum s) ∧
  iterationIndex (m_systemParameter (render (false, frame) mapped seconds s).1) =
    iterationIndex (m_systemParameter s) ∧
  m_d_systemParameter (device (render (false, frame) mapped seconds s).1) =
    m_d_systemParameter (device s).
Proof.
  intros Hne Hle. rewrite render_unfold. cbn [fst snd].
  set (entered := set_systemParameter (set_camera frame (m_systemParameter s)) s).
  rewrite (render_launch_idle mapped entered) by done.
  destruct (render_present_flag entered) as (_ & _ & _ & _ & Hci & _ & Hcp & Hcd & Hcl).
  destruct (render_timing_frame seconds (render_present entered).1) as (Hti & Htp & Htd & Htl).
  rewrite Htl, Hcl, Hti, Hci, Htp, Hcp, Htd, Hcd. done.
Qed.

(** One [render] inside a budget of [v] frames keeps the counter inside
    the budget, and what it launches carries an index below [v]. *)
Lemma render_within_budget v frustum mapped seconds s :
  0 < v <= INT_MAX → within_budget v s →
  within_budget v (render frustum mapped seconds s).1 ∧
  ∃ ps, launches (trace (device (render frustum mapped seconds s).1)) =
          launches (trace (device s)) ++ ps ∧
        Forall (λ p, 0 <= iterationIndex p < v) ps.
Proof.
  intros Hv [Hf Hi]. rewrite render_unfold. cbn [fst snd].
  set (entered := if frustum.1 then _ else _).
  assert (within_budget v entered ∧
          launches (trace (device entered)) = launches (trace (device s)))
    as [[Hf1 Hi1] Hl1].
  { subst entered. destruct frustum.1; [| done].
    destruct (restartAccumulation_accum
                (set_systemParameter (set_camera frustum.2 (m_systemParameter s)) s))
      as (Hz & _ & _ & Hfr & _ & _ & Hl).
    unfold within_budget. rewrite Hz, Hfr, Hl. cbn. split; [split; [done | lia] | done]. }
  clearbody entered.
  destruct (render_present_flag (render_launch mapped entered))
    as (_ & _ & _ & _ & Hci & Hcf & _ & _ & Hcl).
  destruct (render_timing_frame seconds (render_present (render_launch mapped entered)).1)
    as (Hti & _ & _ & Htl).
  destruct (render_timing_flag seconds (render_present (render_launch mapped entered)).1)
    as (_ & Htf & _).
  destruct (render_launch_frame mapped entered) as (Hlf & _).
  unfold within_budget. rewrite Htf, Hcf, Hlf, Hti, Hci, Htl, Hcl.
  destruct (Z_lt_le_dec (m_iterationIndex (accum entered)) v) as [Hlt | Hge].
  - destruct (render_launch_spec mapped entered) as (p & Hl & Hp & _ & _ & _ & Hcount & _).
    { right. lia. }
    rewrite Hcount, Hl, Hl1. unfold INT_MAX in Hv.
    rewrite wrap_int_small by (cbn; lia).
    split; [split; [done | lia] |]. exists [p]. split; [done |].
    apply Forall_singleton. lia.
  - rewrite (render_launch_idle mapped entered) by lia. rewrite Hl1.
    split; [done |]. exists []. by rewrite app_nil_r.
Qed.

Lemma render_frames_snoc inputs i s :
  render_frames (inputs ++ [i]) s =
  (render (in_frustum i) (in_mapped i) (in_seconds i) (render_frames inputs s)).1.
Proof. unfold render_frames. by rewrite foldl_app. Qed.

(** X4 — After the Frames widget has set a budget of [v] frames, however
    many frames are rendered and whatever the camera and the timer do, the
    frame counter stays between 0 and [v] and every launch made since
    carries an iteration index from 0 to [v - 1]. *)
Theorem frame_budget_is_kept (v : Z) (inputs : list FrameInput) (s : Application) :
  0 < v <= INT_MAX → 0 <= m_iterationIndex (accum s) →
  within_budget v (render_frames inputs (guiWindow_Frames v s)) ∧
  ∃ ps, launches (trace (device (render_frames inputs (guiWindow_Frames v s)))) =
          launches (trace (device s)) ++ ps ∧
        Forall (λ p, 0 <= iterationIndex p < v) ps.
Proof.
  intros Hv Hi.
  assert (within_budget v (guiWindow_Frames v s) ∧
          launches (trace (device (guiWindow_Frames v s))) = launches (trace (device s)))
    as [Hstart Hl0].
  { unfold guiWindow_Frames. cbn.
    destruct (Z.eqb_spec v 0) as [? | _]; [lia |]. cbn [negb andb].
    destruct (Z.ltb_spec v (m_iterationIndex (accum s))).
    - split; [split; [done | cbn; lia] |].
      cbn. rewrite !launches_app. cbn. by rewrite !app_nil_r.
    - split; [split; [done | cbn; lia] | done]. }
  rewrite <- Hl0. clear Hl0 Hi. revert Hstart. generalize (guiWindow_Frames v s). intros t Ht.
  induction inputs as [| i inputs IH] using rev_ind.
  - split; [done |]. exists []. by rewrite app_nil_r.
  - destruct IH as (Hb & ps & Hps & Hall). rewrite render_frames_snoc.
    destruct (render_within_budget v (in_frustum i) (in_mapped i) (in_seconds i)
                (render_frames inputs t) Hv Hb) as (Hb' & qs & Hqs & Hall').
    split; [done |]. exists (ps ++ qs). rewrite Hqs, Hps, app_assoc.
    split; [done |]. by apply Forall_app.
Qed.

Lemma frame_budget_is_kept_witness :
  (0 < 2 <= INT_MAX ∧ 0 <= m_iterationIndex (accum sample_app)) ∧
  within_budget 2
    (render_frames (replicate 5 {| in_frustum := (false, sample_frame);
                                   in_mapped := 0; in_seconds := F64.one |})
       (guiWindow_Frames 2 sample_app)).
Proof.
  assert (0 < 2 <= INT_MAX ∧ 0 <= m_iterationIndex (accum sample_app)) as H
    by (vm_compute; repeat split; discriminate).
  split; [exact H |].
  exact (proj1 (frame_budget_is_kept 2 _ sample_app (proj1 H) (proj2 H))).
Defined.

(** X5 — With no frame budget and a camera that stays put, [n] calls of
    [render] launch [n] times with consecutive iteration indices starting
    at the counter's value, and leave the counter [n] higher. *)
Theorem unlimited_frames_count_up (inputs : list FrameInput) (s : Application) :
  Forall (λ i, (in_frustum i).1 = false) inputs →
  m_frames (accum s) = 0 →
  0 <= m_iterationIndex (accum s) →
  m_iterationIndex (accum s) + Z.of_nat (length inputs) <= INT_MAX →
  m_iterationIndex (accum (render_frames inputs s)) =
    m_iterationIndex (accum s) + Z.of_nat (length inputs) ∧
  ∃ ps, launches (trace (device (render_frames inputs s))) =
          launches (trace (device s)) ++ ps ∧
        iterationIndex <$> ps =
          seqZ (m_iterationIndex (accum s)) (Z.of_nat (length inputs)).
Proof.
  intros Hstill Hf Hi. induction inputs as [| i inputs IH] using rev_ind; intros Hmax.
  - cbn. split; [lia |]. exists []. by rewrite app_nil_r.
  - rewrite length_app in Hmax. cbn in Hmax.
    apply Forall_app in Hstill as [Hstill Hlast]. apply Forall_inv in Hlast.
    destruct IH as (Hcount & ps & Hps & Hidx); [done | lia |].
    rewrite render_frames_snoc. set (t := render_frames inputs s) in *.
    assert (m_frames (accum t) = 0) as Hft.
    { clear -Hf. subst t. induction inputs as [| j inputs IH] using rev_ind; [done |].
      rewrite render_frames_snoc, render_unfold. cbn [fst snd].
      set (entered := if (in_frustum j).1 then _ else _).
      assert (m_frames (accum entered) = 0) as He.
      { subst entered. by destruct (in_frustum j).1. }
      destruct (render_timing_flag (in_seconds j)
                  (render_present (render_launch (in_mapped j) entered)).1) as (_ & -> & _).
      destruct (render_present_flag (render_launch (in_mapped j) entered))
        as (_ & _ & _ & _ & _ & -> & _).
      by destruct (render_launch_frame (in_mapped j) entered) as (-> & _). }
    destruct (in_frustum i) as [changed frame] eqn:Hfr. cbn in Hlast. subst changed.
    rewrite render_unfold. cbn [fst snd].
    set (entered := set_systemParameter (set_camera frame (m_systemParameter t)) t).
    destruct (render_launch_spec (in_mapped i) entered (or_introl Hft))
      as (p & Hl & Hp & _ & _ & _ & Hnext & _).
    destruct (render_present_flag (render_launch (in_mapped i) entered))
      as (_ & _ & _ & _ & Hci & _ & _ & _ & Hcl).
    destruct (render_timing_frame (in_seconds i)
                (render_present (render_launch (in_mapped i) entered)).1)
      as (Hti & _ & _ & Htl).
    rewrite Hti, Hci, Hnext, Htl, Hcl, Hl. cbn [entered accum device]. unfold INT_MAX in Hmax.
    change (accum entered) with (accum t) in *. change (device entered) with (device t).
    rewrite Hcount, Hps, wrap_int_small by (rewrite ?Hcount; cbn; lia).
    rewrite length_app. cbn [length]. split; [lia |].
    exists (ps ++ [p]). rewrite app_assoc. split; [done |].
    rewrite fmap_app, Hidx. cbn [fmap list_fmap].
    replace (Z.of_nat (length inputs + 1)) with (Z.of_nat (length inputs) + 1) by lia.
    rewrite seqZ_app by lia. f_equal.
    rewrite seqZ_cons, seqZ_nil by lia. by rewrite Hp, Hcount.
Qed.

Lemma unlimited_frames_count_up_witness :
  let inputs := replicate 3 {| in_frustum := (false, sample_frame);
                               in_mapped := 0; in_seconds := F64.one |} in
  (Forall (λ i, (in_frustum i).1 = false) inputs ∧
   m_frames (accum sample_app) = 0 ∧
   0 <= m_iterationIndex (accum sample_app) ∧
   m_iterationIndex (accum sample_app) + Z.of_nat (length inputs) <= INT_MAX) ∧
  m_iterationIndex (accum (render_frames inputs sample_app)) =
    m_iterationIndex (accum sample_app) + Z.of_nat (length inputs).
Proof.
  intros inputs.
  assert (Forall (λ i, (in_frustum i).1 = false) inputs ∧
          m_frames (accum sample_app) = 0 ∧
          0 <= m_iterationIndex (accum sample_app) ∧
          m_iterationIndex (accum sample_app) + Z.of_nat (length inputs) <= INT_MAX)
    as H.
  { split; [by repeat constructor |]. vm_compute. repeat split; discriminate. }
  split; [exact H |].
  destruct H as (H1 & H2 & H3 & H4).
  exact (proj1 (unlimited_frames_count_up inputs sample_app H1 H2 H3 H4)).
Defined.

(** X6 — If the camera reports a change, or the device block equals the
    host block on entry and the camera hands back the frame the host block
    holds, then after [render] the device block equals the host block and
    the launch, if there was one, ran with exactly that block: the partial
    uploads of the iteration index and the output buffer never leave the
    two apart. *)
Theorem render_keeps_device_in_step (frustum : bool * CameraFrame)
    (mapped : CUdeviceptr) (seconds : double) (s : Application) :
  frustum.1 = true ∨ (in_step s ∧ frustum.2 = camera (m_systemParameter s)) →
  in_step (render frustum mapped seconds s).1 ∧
  ∃ ps, launches (trace (device (render frustum mapped seconds s).1)) =
          launches (trace (device s)) ++ ps ∧
        Forall (λ p, p = m_systemParameter (render frustum mapped seconds s).1) ps.
Proof.
  intros H. rewrite render_unfold. cbn [fst snd].
  set (entered := if frustum.1 then _ else _).
  assert (in_step entered ∧
          launches (trace (device entered)) = launches (trace (device s)))
    as [Hstep Hl].
  { subst entered. destruct frustum.1 eqn:Hc.
    - split; [reflexivity |].
      by destruct (restartAccumulation_accum
                     (set_systemParameter (set_camera frustum.2 (m_systemParameter s)) s))
        as (_ & _ & _ & _ & _ & _ & ->).
    - destruct H as [? | [Hs Hframe]]; [done |]. split; [| done].
      unfold in_step in *. cbn. rewrite Hs, Hframe. by destruct (m_systemParameter s). }
  clearbody entered.
  destruct (render_launch_in_step mapped entered Hstep) as (Hstep' & ps & Hps & Hall).
  destruct (render_present_flag (render_launch mapped entered))
    as (_ & _ & _ & _ & _ & _ & Hcp & Hcd & Hcl).
  destruct (render_timing_frame seconds (render_present (render_launch mapped entered)).1)
    as (_ & Htp & Htd & Htl).
  unfold in_step in *. rewrite Htp, Htd, Htl, Hcp, Hcd, Hcl, Hps, Hl.
  split; [done |]. by exists ps.
Qed.

Lemma render_keeps_device_in_step_witness :
  ((false, sample_frame).1 = true ∨
   (in_step sample_app ∧ (false, sample_frame).2 = camera (m_systemParameter sample_app))) ∧
  in_step (render (false, sample_frame) 0 F64.one sample_app).1.
Proof.
  assert ((false, sample_frame).1 = true ∨
          (in_step sample_app ∧
           (false, sample_frame).2 = camera (m_systemParameter sample_app))) as H
    by (right; split; by vm_compute).
  split; [exact H |].
  exact (proj1 (render_keeps_device_in_step (false, sample_frame) 0 F64.one sample_app H)).
Defined.

(** X7 — [render] reports a repaint exactly when the camera changed or a
    present was pending. The frame after presents exactly when less than
    half a second is on the timer, or the timer has passed the present
    threshold (one second after a restart), or this frame presented and
    the Present checkbox is set. *)
Theorem render_presentation (frustum : bool * CameraFrame) (mapped : CUdeviceptr)
    (seconds : double) (s : Application) :
  (render frustum mapped seconds s).2 = frustum.1 || m_presentNext (accum s) ∧
  m_presentNext (accum (render frustum mapped seconds s).1) =
    F64.ltb seconds F64.half ||
    F64.ltb (if frustum.1 then F64.one else m_presentAtSecond (accum s)) seconds ||
    (frustum.1 || m_presentNext (accum s)) && m_present (accum s).
Proof.
  rewrite render_unfold. cbn [fst snd].
  set (entered := if frustum.1 then _ else _).
  assert (m_presentNext (accum entered) = frustum.1 || m_presentNext (accum s) ∧
          m_presentAtSecond (accum entered) =
            (if frustum.1 then F64.one else m_presentAtSecond (accum s)) ∧
          m_present (accum entered) = m_present (accum s)) as (Hn & Ht & Hp).
  { subst entered. by destruct frustum.1. }
  clearbody entered.
  destruct (render_launch_frame mapped entered) as (_ & Hln & Hlp & Hlt).
  destruct (render_present_flag (render_launch mapped entered))
    as (Hrep & Hcn & _ & Hct & _).
  destruct (render_timing_flag seconds (render_present (render_launch mapped entered)).1)
    as (Htn & _).
  by rewrite Hrep, Htn, Hct, Hcn, Hln, Hlp, Hlt, Hn, Ht, Hp.
Qed.

(** ** Further properties: construction *)

Lemma add_instance_built_from build trafo s :
  built_from build s → built_from build (add_instance build trafo s).
Proof.
  intros [Hlen Hall]. rewrite add_instance_eq. unfold built_from.
  rewrite push_instance_instances, createShape_instances.
  change (m_geometries (scene (push_instance trafo
            (gb_handle (build (length (m_geometries (scene s))))) (createShape build s).1)))
    with (m_geometries (scene s) ++ [gb_data (build (length (m_geometries (scene s))))]).
  rewrite !length_app. cbn [length]. split; [lia |].
  intros i Hi. destruct (decide (i < length (m_geometries (scene s)))%nat) as [Hlt | Hge].
  - rewrite !lookup_app_l by lia. by apply Hall.
  - assert (i = length (m_geometries (scene s))) as -> by lia.
    rewrite lookup_app_r by lia. rewrite Nat.sub_diag.
    rewrite <- Hlen at 3. rewrite lookup_app_r by lia. rewrite Nat.sub_diag. done.
Qed.

Lemma createLights_built_from build s :
  built_from build s → built_from build (createLights build s).
Proof.
  intros H. unfold createLights.
  set (s1 := match m_missID s with 1 | 2 => push_light environment_light s | _ => s end).
  assert (built_from build s1) as H1.
  { unfold s1. by destruct (m_missID s) as [|[[]|[]|]|]. }
  assert (m_lightID s1 = m_lightID s) as ->.
  { unfold s1. by destruct (m_missID s) as [|[[]|[]|]|]. }
  destruct (m_lightID s =? 0); cbn [negb]; [done |].
  by apply add_instance_built_from.
Qed.

Lemma initPipeline_instances_built_from build s :
  built_from build s → built_from build (initPipeline_instances build s).
Proof.
  intros H. unfold initPipeline_instances.
  by apply createLights_built_from; do 5 apply add_instance_built_from.
Qed.

Lemma packHitGroupHeaders_interop pack programGroups s s' :
  packHitGroupHeaders pack programGroups s = Some s' → m_interop s' = m_interop s.
Proof.
  unfold packHitGroupHeaders.
  destruct (vec_at programGroups (program_id PROGRAM_ID_HIT_RADIANCE)); [| done].
  destruct (vec_at programGroups (program_id PROGRAM_ID_HIT_SHADOW)); [| done].
  destruct (vec_at programGroups (program_id PROGRAM_ID_HIT_RADIANCE_CUTOUT)); [| done].
  destruct (vec_at programGroups (program_id PROGRAM_ID_HIT_SHADOW_CUTOUT)); [| done].
  cbn [mbind option_bind]. by intros [= <-].
Qed.

Lemma add_instance_interop build trafo s :
  m_interop (add_instance build trafo s) = m_interop s.
Proof. reflexivity. Qed.

Lemma createLights_interop build s : m_interop (createLights build s) = m_interop s.
Proof.
  unfold createLights.
  set (s1 := match m_missID s with 1 | 2 => push_light environment_light s | _ => s end).
  assert (m_interop s1 = m_interop s) as H1.
  { unfold s1. by destruct (m_missID s) as [|[[]|[]|]|]. }
  destruct (negb (m_lightID s1 =? 0)); [| done].
  by rewrite add_instance_interop.
Qed.

Lemma initPipeline_instances_interop build s :
  m_interop (initPipeline_instances build s) = m_interop s.
Proof.
  unfold initPipeline_instances.
  by rewrite createLights_interop, !add_instance_interop.
Qed.

(** The steps of [initRenderer] from a fresh application, with what each
    leaves. *)
Lemma initRenderer_steps logf RT_DEFAULT_MAX FLAG_THINWALLED pack textureAlbedo textureCutout
    e options :
  (∀ pg, length (pack pg) = OPTIX_SBT_RECORD_HEADER_SIZE) →
  ∃ s2 records recs,
    let s1 := initPipeline_instances (env_build e)
                (initMaterials textureAlbedo textureCutout (Application_new options)) in
    let n := length (m_instances (scene s1)) in
    let s3 := store_hitRecords (Z.of_nat n * NUM_RAYTYPES) records s2 in
    let s4 := set_device (emit [MemcpySbtCallables]
                            (set_m_d_sbtRecordCallables recs (device s3)))
                (set_sbt (set_callablesRecordCount 11 (sbt s3)) s3) in
    initRenderer logf RT_DEFAULT_MAX FLAG_THINWALLED pack textureAlbedo textureCutout e
      (Application_new options) =
      Some (initPipeline_systemParameter logf RT_DEFAULT_MAX FLAG_THINWALLED
              (env_root e) (env_outputBuffer e) (env_frustum e) s4) ∧
    scene s2 = scene s1 ∧ m_lightID s2 = getLight options ∧ m_missID s2 = getMiss options ∧
    n = (if (getLight options =? 0)%Z then 5 else 6)%nat ∧
    length (m_guiMaterialParameters (scene s1)) = 6%nat ∧
    built_from (env_build e) s1 ∧
    (∀ k : nat, (k < n)%nat →
       ∃ material geometry,
         m_guiMaterialParameters (scene s1) !! k = Some material ∧
         m_geometries (scene s1) !! k = Some geometry ∧
         records !! (2 * k)%nat =
           Some {| header := header (radiance_group (sbt s2) material);
                   data := payload geometry k (expected_lightIndex s2 n k) |} ∧
         records !! S (2 * k) =
           Some {| header := header (shadow_group (sbt s2) material);
                   data := payload geometry k (expected_lightIndex s2 n k) |}) ∧
    length recs = 11%nat ∧
    (∀ k : nat, (k < 11)%nat →
       ∃ pg, programGroupDescriptions (getMiss options)
               !! (Z.to_nat (program_id PROGRAM_ID_LENS_PINHOLE) + k)%nat = Some pg ∧
             recs !! k = Some (pack pg)) ∧
    m_interop s2 = getInterop options.
Proof.
  intros Hpack. unfold initRenderer, initPipeline.
  pose (s0 := initMaterials textureAlbedo textureCutout (Application_new options)).
  destruct (initPipeline_instances_frame (env_build e) s0) as (Hm & Hs & Hl & Hmi & Hg).
  pose proof (initPipeline_instances_length (env_build e) s0) as Hn.
  assert (m_interop (initPipeline_instances (env_build e) s0) = getInterop options) as Hio
    by (by rewrite initPipeline_instances_interop).
  assert (built_from (env_build e) (initPipeline_instances (env_build e) s0)) as Hbuilt.
  { apply initPipeline_instances_built_from. split; [done |]. cbn. lia. }
  assert (length (m_guiMaterialParameters (scene s0)) = 6%nat) as Hm0 by reflexivity.
  assert (m_sbtRecordGeometryInstanceData (sbt s0) = []) as Hr0 by reflexivity.
  change (m_lightID s0) with (getLight options) in *.
  change (m_missID s0) with (getMiss options) in *.
  change (m_instances (scene s0)) with (@nil OptixInstance) in *.
  change (m_geometries (scene s0)) with (@nil GeometryData) in *.
  simpl length in Hn, Hg.
  fold s0. remember (initPipeline_instances (env_build e) s0) as s1 eqn:Es1.
  clear Es1. clearbody s0.
  destruct (packHitGroupHeaders_scene_ok pack (m_missID s1) s1 Hpack)
    as (s2 & Hrun2 & Hok2 & Hsc2 & Hl2 & Hmi2 & Hpacked).
  { rewrite Hn. unfold INT_MAX, NUM_RAYTYPES. destruct (getLight options =? 0); lia. }
  { rewrite Hn, Hm, Hm0. destruct (getLight options =? 0); lia. }
  { rewrite Hn, Hg. lia. }
  { rewrite Hn. destruct (getLight options =? 0); lia. }
  { rewrite Hs, Hr0. apply Forall_nil_2. }
  rewrite Hrun2. cbn [mbind option_bind].
  destruct (initPipeline_hitRecords_spec s2 Hok2) as (records & Hrun & Hlen & Hrecs & Hdone).
  rewrite Hrun. cbn [mbind option_bind].
  destruct (initPipeline_callables_spec pack
              (optixProgramGroupCreate (programGroupDescriptions (m_missID s1)))
              (store_hitRecords (Z.of_nat (length (m_instances (scene s2))) * NUM_RAYTYPES)
                 records s2))
    as (recs & Hcall & Hrl & Hrd); [apply programGroupDescriptions_length |].
  rewrite Hcall. cbn [mbind option_bind].
  assert (m_interop s2 = getInterop options) as Hio2.
  { by rewrite (packHitGroupHeaders_interop _ _ _ _ Hrun2). }
  exists s2, records, recs. cbn zeta. rewrite Hsc2 in *. rewrite Hmi in *.
  split; [done |]. split; [done |]. split; [congruence |]. split; [congruence |].
  split; [by rewrite Hn |]. split; [congruence |]. split; [done |]. split; [done |].
  split; [done |]. split; [exact Hrd | exact Hio2].
Qed.

(** X8 — After construction, instance [i] refers to the traversable of the
    geometry built [i]-th, sits at SBT offset [2 i], and the two records
    there carry that geometry's index and attribute buffers and the
    material index [i], on the host and on the device. *)
Theorem construction_aligns_instances_with_records (logf : float → float)
    (RT_DEFAULT_MAX : float) (FLAG_THINWALLED : Z)
    (pack : OptixProgramGroup → SbtRecordHeader)
    (textureAlbedo textureCutout : cudaTextureObject_t) (e : PipelineEnv)
    (options : Options) :
  (∀ pg, length (pack pg) = OPTIX_SBT_RECORD_HEADER_SIZE) →
  ∃ s,
    initRenderer logf RT_DEFAULT_MAX FLAG_THINWALLED pack textureAlbedo textureCutout e
      (Application_new options) = Some s ∧
    m_d_sbtRecordGeometryInstanceData (device s) = m_sbtRecordGeometryInstanceData (sbt s) ∧
    ∀ i : nat, (i < length (m_instances (scene s)))%nat →
      ∃ inst r0 r1,
        m_instances (scene s) !! i = Some inst ∧
        traversableHandle inst = gb_handle (env_build e i) ∧
        m_geometries (scene s) !! i = Some (gb_data (env_build e i)) ∧
        m_sbtRecordGeometryInstanceData (sbt s) !! Z.to_nat (sbtOffset inst) = Some r0 ∧
        m_sbtRecordGeometryInstanceData (sbt s) !! Z.to_nat (sbtOffset inst + 1) = Some r1 ∧
        indices (data r0) = gd_indices (gb_data (env_build e i)) ∧
        attributes (data r0) = gd_attributes (gb_data (env_build e i)) ∧
        materialIndex (data r0) = Z.of_nat i ∧
        data r1 = data r0.
Proof.
  intros Hpack.
  destruct (initRenderer_steps logf RT_DEFAULT_MAX FLAG_THINWALLED pack textureAlbedo
              textureCutout e options Hpack)
    as (s2 & records & recs & Hrun & Hsc & _ & _ & Hn & _ & Hbuilt & Hdone & _).
  cbn zeta in *. eexists. split; [exact Hrun |]. cbn. split; [done |].
  rewrite Hsc. intros i Hi.
  set (s1 := initPipeline_instances (env_build e)
               (initMaterials textureAlbedo textureCutout (Application_new options))) in *.
  destruct Hbuilt as [Hlen Hall]. destruct (Hall i) as [Hgeo Hhandle]; [lia |].
  destruct (m_instances (scene s1) !! i) as [inst |] eqn:Hinst; [| done].
  injection Hhandle as Hhandle.
  assert (instances_wf (m_instances (scene s1))) as Hwf.
  { apply initPipeline_instances_wf; [cbn; lia | apply instances_wf_nil]. }
  destruct (Hwf i inst Hinst) as [_ Hoff].
  destruct (Hdone i Hi) as (material & geometry & _ & Hgeo' & H0 & H1).
  rewrite Hgeo in Hgeo'. injection Hgeo' as <-.
  eexists inst, _, _. split; [done |]. split; [done |]. split; [done |].
  rewrite Hoff. unfold NUM_RAYTYPES.
  replace (Z.to_nat (Z.of_nat i * 2)) with (2 * i)%nat by lia.
  replace (Z.to_nat (Z.of_nat i * 2 + 1)) with (S (2 * i)) by lia.
  split; [exact H0 |]. split; [exact H1 |]. done.
Qed.

Lemma construction_aligns_instances_with_records_witness :
  (∀ pg, length (sample_packHeader pg) = OPTIX_SBT_RECORD_HEADER_SIZE) ∧
  ∃ s, sample_run = Some s ∧
       m_d_sbtRecordGeometryInstanceData (device s) = m_sbtRecordGeometryInstanceData (sbt s).
Proof.
  split; [exact sample_packHeader_size |].
  destruct (construction_aligns_instances_with_records logf_table sample_RT_DEFAULT_MAX
              sample_FLAG_THINWALLED sample_packHeader 7 8 sample_env sample_options
              sample_packHeader_size) as (s & Hrun & Hmirror & _).
  exists s. split; [exact Hrun | exact Hmirror].
Defined.

(** X9 — After construction the device's callable record [k] is the header
    the backend packs for the program group of the [k]-th callable
    identifier, that is program identifier [PROGRAM_ID_LENS_PINHOLE + k],
    and each of these groups is of the callables kind. *)
Theorem callable_records_follow_identifiers (logf : float → float)
    (RT_DEFAULT_MAX : float) (FLAG_THINWALLED : Z)
    (pack : OptixProgramGroup → SbtRecordHeader)
    (textureAlbedo textureCutout : cudaTextureObject_t) (e : PipelineEnv)
    (options : Options) :
  (∀ pg, length (pack pg) = OPTIX_SBT_RECORD_HEADER_SIZE) →
  ∃ s,
    initRenderer logf RT_DEFAULT_MAX FLAG_THINWALLED pack textureAlbedo textureCutout e
      (Application_new options) = Some s ∧
    callablesRecordCount (sbt s) = Z.of_nat (length callable_identifiers) ∧
    length (m_d_sbtRecordCallables (device s)) = length callable_identifiers ∧
    ∀ (k : nat) id, callable_identifiers !! k = Some id →
      program_id id = program_id PROGRAM_ID_LENS_PINHOLE + Z.of_nat k ∧
      ∃ pg,
        optixProgramGroupCreate (programGroupDescriptions (getMiss options))
          !! Z.to_nat (program_id id) = Some pg ∧
        kind pg = OPTIX_PROGRAM_GROUP_KIND_CALLABLES ∧
        m_d_sbtRecordCallables (device s) !! k = Some (pack pg).
Proof.
  intros Hpack.
  destruct (initRenderer_steps logf RT_DEFAULT_MAX FLAG_THINWALLED pack textureAlbedo
              textureCutout e options Hpack)
    as (s2 & records & recs & Hrun & _ & _ & _ & _ & _ & _ & _ & Hlen & Hdone & _).
  cbn zeta in *. eexists. split; [exact Hrun |]. cbn.
  split; [done |]. split; [done |].
  intros k id Hk.
  assert (k < 11)%nat as Hk11 by (apply lookup_lt_Some in Hk; cbn in Hk; lia).
  destruct (Hdone k Hk11) as (pg & Hpg & Hrec).
  assert (program_id id = 8 + Z.of_nat k) as Hid.
  { do 11 (destruct k as [| k]; [by injection Hk as <- |]). cbn in Hk11. lia. }
  split; [exact Hid |]. exists pg.
  rewrite Hid. replace (Z.to_nat (8 + Z.of_nat k)) with (8 + k)%nat by lia.
  split; [exact Hpg |]. split; [| exact Hrec].
  clear -Hpg Hk11. change (Z.to_nat (program_id PROGRAM_ID_LENS_PINHOLE)) with 8%nat in Hpg.
  do 11 (destruct k as [| k]; [by injection Hpg as <- |]). lia.
Qed.

Lemma callable_records_follow_identifiers_witness :
  (∀ pg, length (sample_packHeader pg) = OPTIX_SBT_RECORD_HEADER_SIZE) ∧
  ∃ s, sample_run = Some s ∧
       length (m_d_sbtRecordCallables (device s)) = length callable_identifiers.
Proof.
  split; [exact sample_packHeader_size |].
  destruct (callable_records_follow_identifiers logf_table sample_RT_DEFAULT_MAX
              sample_FLAG_THINWALLED sample_packHeader 7 8 sample_env sample_options
              sample_packHeader_size) as (s & Hrun & _ & Hlen & _).
  exists s. split; [exact Hrun | exact Hlen].
Defined.

(** The lights [createLights] appends: the environment light for miss
    programs 1 and 2, then the parallelogram light if there is to be one. *)
Lemma createLights_lights build s :
  m_lightDefinitions (scene (createLights build s)) =
  m_lightDefinitions (scene s) ++
    (if bool_decide (m_missID s = 1 ∨ m_missID s = 2) then [environment_light] else []) ++
    (if negb (m_lightID s =? 0) then [parallelogram_light] else []).
Proof.
  unfold createLights.
  set (s1 := match m_missID s with 1 | 2 => push_light environment_light s | _ => s end).
  assert (m_lightID s1 = m_lightID s ∧
          m_lightDefinitions (scene s1) =
            m_lightDefinitions (scene s) ++
            (if bool_decide (m_missID s = 1 ∨ m_missID s = 2) then [environment_light] else []))
    as [-> Hl].
  { unfold s1. destruct (m_missID s) as [|[[]|[]|]|] eqn:E; cbn;
      rewrite ?app_nil_r; (split; [reflexivity |]);
      first [ reflexivity | rewrite bool_decide_true by (by (left + right)); reflexivity ]. }
  destruct (m_lightID s =? 0); cbn [negb].
  - by rewrite Hl, app_nil_r.
  - change (m_lightDefinitions (scene (add_instance build trafoLight
              (push_light parallelogram_light s1))))
      with (m_lightDefinitions (scene s1) ++ [parallelogram_light]).
    by rewrite Hl, app_assoc.
Qed.

Lemma initPipeline_instances_lights build s :
  m_lightDefinitions (scene (initPipeline_instances build s)) =
  m_lightDefinitions (scene s) ++
    (if bool_decide (m_missID s = 1 ∨ m_missID s = 2) then [environment_light] else []) ++
    (if negb (m_lightID s =? 0) then [parallelogram_light] else []).
Proof. unfold initPipeline_instances. by rewrite createLights_lights. Qed.

(** X10 — After construction with the parallelogram light and a miss
    program 0, 1 or 2, the two records of the last instance carry one
    light index, it lies below the number of lights of the launch
    parameters, and the light at that index, on the host and on the
    device, is the parallelogram light. Every other record carries -1. *)
Theorem light_index_addresses_parallelogram (logf : float → float)
    (RT_DEFAULT_MAX : float) (FLAG_THINWALLED : Z)
    (pack : OptixProgramGroup → SbtRecordHeader)
    (textureAlbedo textureCutout : cudaTextureObject_t) (e : PipelineEnv)
    (options : Options) :
  (∀ pg, length (pack pg) = OPTIX_SBT_RECORD_HEADER_SIZE) →
  getLight options ≠ 0 →
  getMiss options = 0 ∨ getMiss options = 1 ∨ getMiss options = 2 →
  ∃ s r0 r1,
    initRenderer logf RT_DEFAULT_MAX FLAG_THINWALLED pack textureAlbedo textureCutout e
      (Application_new options) = Some s ∧
    length (m_instances (scene s)) = 6%nat ∧
    m_sbtRecordGeometryInstanceData (sbt s) !! 10%nat = Some r0 ∧
    m_sbtRecordGeometryInstanceData (sbt s) !! 11%nat = Some r1 ∧
    lightIndex (data r1) = lightIndex (data r0) ∧
    0 <= lightIndex (data r0) < numLights (m_systemParameter s) ∧
    numLights (m_systemParameter s) = Z.of_nat (length (m_lightDefinitions (scene s))) ∧
    m_lightDefinitions (scene s) !! Z.to_nat (lightIndex (data r0)) =
      Some parallelogram_light ∧
    d_lightDefinitions (device s) = m_lightDefinitions (scene s) ∧
    ∀ (j : nat) r, (j < 10)%nat →
      m_sbtRecordGeometryInstanceData (sbt s) !! j = Some r → lightIndex (data r) = -1.
Proof.
  intros Hpack Hlight Hmiss.
  destruct (initRenderer_steps logf RT_DEFAULT_MAX FLAG_THINWALLED pack textureAlbedo
              textureCutout e options Hpack)
    as (s2 & records & recs & Hrun & Hsc & Hl2 & Hmi2 & Hn & _ & _ & Hdone & _).
  cbn zeta in *.
  set (s1 := initPipeline_instances (env_build e)
               (initMaterials textureAlbedo textureCutout (Application_new options))) in *.
  destruct (Z.eqb_spec (getLight options) 0) as [? | _]; [done |].
  rewrite Hn in Hdone.
  destruct (Hdone 5%nat) as (material & geometry & _ & _ & H0 & H1); [lia |].
  rewrite expected_lightIndex_on in H0, H1 by (done || congruence).
  eexists _, _, _. split; [exact Hrun |]. cbn. rewrite Hsc.
  split; [exact Hn |]. split; [exact H0 |]. split; [exact H1 |]. cbn.
  split; [done |].
  pose proof (initPipeline_instances_lights (env_build e)
                (initMaterials textureAlbedo textureCutout (Application_new options)))
    as Hlights.
  fold s1 in Hlights. cbn in Hlights. rewrite Hlights, Hmi2. clear Hlights.
  destruct (Z.eqb_spec (getLight options) 0) as [? | _]; [done |]. cbn [negb].
  assert (∀ (j : nat) r, (j < 10)%nat → records !! j = Some r → lightIndex (data r) = -1)
    as Hrest.
  { intros j r Hj Hr. destruct (Nat.Even_or_Odd j) as [[c ->] | [c ->]].
    - destruct (Hdone c) as (m & g & _ & _ & Hc & _); [lia |].
      rewrite expected_lightIndex_off in Hc by (right; lia).
      rewrite Hc in Hr. by injection Hr as <-.
    - destruct (Hdone c) as (m & g & _ & _ & _ & Hc); [lia |].
      rewrite expected_lightIndex_off in Hc by (right; lia).
      replace (2 * c + 1)%nat with (S (2 * c)) in Hr by lia.
      rewrite Hc in Hr. by injection Hr as <-. }
  destruct Hmiss as [-> | [-> | ->]]; cbn; by repeat split.
Qed.

Lemma light_index_addresses_parallelogram_witness :
  ((∀ pg, length (sample_packHeader pg) = OPTIX_SBT_RECORD_HEADER_SIZE) ∧
   getLight sample_options ≠ 0 ∧
   (getMiss sample_options = 0 ∨ getMiss sample_options = 1 ∨ getMiss sample_options = 2)) ∧
  ∃ s, sample_run = Some s ∧ length (m_instances (scene s)) = 6%nat.
Proof.
  assert (getLight sample_options ≠ 0) as Hl by done.
  assert (getMiss sample_options = 0 ∨ getMiss sample_options = 1 ∨
          getMiss sample_options = 2) as Hm by (right; left; reflexivity).
  split; [split; [exact sample_packHeader_size | split; [exact Hl | exact Hm]] |].
  destruct (light_index_addresses_parallelogram logf_table sample_RT_DEFAULT_MAX
              sample_FLAG_THINWALLED sample_packHeader 7 8 sample_env sample_options
              sample_packHeader_size Hl Hm) as (s & r0 & r1 & Hrun & Hn & _).
  exists s. split; [exact Hrun | exact Hn].
Defined.

(** ** Further properties: the live update *)

Lemma insert_pair_id {A} (l : list A) (k : nat) (a b : A) :
  l !! k = Some a → l !! S k = Some b → <[S k := b]> (<[k := a]> l) = l.
Proof. intros Ha Hb. by rewrite (list_insert_id l k a), (list_insert_id l (S k) b). Qed.

Lemma lookup_insert_pair {A} (l : list A) (k : nat) (a b : A) :
  (S k < length l)%nat →
  <[S k := b]> (<[k := a]> l) !! k = Some a ∧
  <[S k := b]> (<[k := a]> l) !! S k = Some b.
Proof.
  intros Hk. split.
  - rewrite list_lookup_insert_ne by lia. apply list_lookup_insert_eq. lia.
  - apply list_lookup_insert_eq. rewrite length_insert. lia.
Qed.

(** X11 — Updating the records of an instance a second time changes
    nothing: the host records, the device records and the scene are what the
    first update left. *)
Theorem update_is_idempotent (s : Application) (instance : Z) :
  pipeline_ok s →
  0 <= instance < Z.of_nat (length (m_instances (scene s))) →
  ∃ s1 s2,
    updateShaderBindingTable instance s = Some s1 ∧
    updateShaderBindingTable instance s1 = Some s2 ∧
    m_sbtRecordGeometryInstanceData (sbt s2) = m_sbtRecordGeometryInstanceData (sbt s1) ∧
    m_d_sbtRecordGeometryInstanceData (device s2) =
      m_d_sbtRecordGeometryInstanceData (device s1) ∧
    scene s2 = scene s1.
Proof.
  intros Hok Hi.
  destruct (updateShaderBindingTable_effect s instance Hok Hi)
    as (s1 & m & r0 & r1 & Hrun1 & Hm & H0 & H1 & Hrec1 & Hdev1 & Hsc1 & Hgr1).
  assert (pipeline_ok s1) as Hok1.
  { apply (updateShaderBindingTable_ok s (Z.to_nat instance)); [done | lia |].
    by rewrite Z2Nat.id by lia. }
  assert (S (2 * Z.to_nat instance) < length (m_sbtRecordGeometryInstanceData (sbt s)))%nat
    as Hlen by (by apply lookup_lt_Some in H1).
  destruct (lookup_insert_pair (m_sbtRecordGeometryInstanceData (sbt s))
              (2 * Z.to_nat instance)
              (set_header (header (radiance_group (sbt s) m)) r0)
              (set_header (header (shadow_group (sbt s) m)) r1) Hlen) as [Ha Hb].
  rewrite <- Hrec1 in Ha, Hb.
  destruct (updateShaderBindingTable_effect s1 instance Hok1)
    as (s2 & m' & r0' & r1' & Hrun2 & Hm' & H0' & H1' & Hrec2 & Hdev2 & Hsc2 & _).
  { by rewrite Hsc1. }
  rewrite Hsc1, Hm in Hm'. injection Hm' as <-.
  rewrite Ha in H0'. injection H0' as <-. rewrite Hb in H1'. injection H1' as <-.
  destruct (Hgr1 m) as [-> ->] in Hrec2.
  assert (m_sbtRecordGeometryInstanceData (sbt s2) = m_sbtRecordGeometryInstanceData (sbt s1))
    as Heq.
  { rewrite Hrec2. by apply insert_pair_id. }
  exists s1, s2. by rewrite Hdev2, Hdev1, Heq.
Qed.

Lemma update_is_idempotent_witness :
  (pipeline_ok sample_toggled ∧
   0 <= 0 < Z.of_nat (length (m_instances (scene sample_toggled)))) ∧
  ∃ s1 s2,
    updateShaderBindingTable 0 sample_toggled = Some s1 ∧
    updateShaderBindingTable 0 s1 = Some s2 ∧
    m_sbtRecordGeometryInstanceData (sbt s2) = m_sbtRecordGeometryInstanceData (sbt s1).
Proof.
  destruct sample_toggled_ok as [Hok Hn].
  assert (0 <= 0 < Z.of_nat (length (m_instances (scene sample_toggled)))) as Hi
    by (rewrite Hn; lia).
  split; [split; [exact Hok | exact Hi] |].
  destruct (update_is_idempotent sample_toggled 0 Hok Hi) as (s1 & s2 & H1 & H2 & H3 & _).
  exists s1, s2. split; [exact H1 |]. split; [exact H2 | exact H3].
Defined.

Lemma pipeline_ok_insert_material s (k : nat) m :
  pipeline_ok s →
  pipeline_ok (set_scene
                 (set_m_guiMaterialParameters
                    (<[k := m]> (m_guiMaterialParameters (scene s))) (scene s)) s).
Proof.
  intros (Hint & Hmat & Hlen & Hmirror & Hgroups & Hrecs).
  unfold pipeline_ok. cbn. rewrite length_insert. done.
Qed.

(** What one click on "Use Cutout Texture" of an instance's material
    leaves. *)
Lemma toggleCutout_spec s (i : nat) material r0 r1 :
  pipeline_ok s → (i < length (m_instances (scene s)))%nat →
  m_guiMaterialParameters (scene s) !! i = Some material →
  m_sbtRecordGeometryInstanceData (sbt s) !! (2 * i)%nat = Some r0 →
  m_sbtRecordGeometryInstanceData (sbt s) !! S (2 * i) = Some r1 →
  let material' := set_useCutoutTexture (negb (useCutoutTexture material)) material in
  ∃ s',
    toggleCutout (Z.of_nat i) s = Some s' ∧
    pipeline_ok s' ∧
    m_instances (scene s') = m_instances (scene s) ∧
    m_guiMaterialParameters (scene s') = <[i := material']> (m_guiMaterialParameters (scene s)) ∧
    m_sbtRecordGeometryInstanceData (sbt s') =
      <[S (2 * i) := set_header (header (shadow_group (sbt s) material')) r1]>
        (<[(2 * i)%nat := set_header (header (radiance_group (sbt s) material')) r0]>
           (m_sbtRecordGeometryInstanceData (sbt s))) ∧
    m_d_sbtRecordGeometryInstanceData (device s') = m_sbtRecordGeometryInstanceData (sbt s') ∧
    (∀ x, radiance_group (sbt s') x = radiance_group (sbt s) x ∧
          shadow_group (sbt s') x = shadow_group (sbt s) x).
Proof.
  intros Hok Hi Hm H0 H1 material'.
  pose proof Hok as (Hint & _).
  unfold INT_MAX, NUM_RAYTYPES in Hint.
  unfold toggleCutout. rewrite (vec_at_nat (m_guiMaterialParameters (scene s))) by lia.
  rewrite Hm. cbn [mbind option_bind].
  rewrite to_size_t_small by lia. rewrite Nat2Z.id. fold material'.
  set (t := set_scene _ s).
  assert (pipeline_ok t) as Hokt by (by apply pipeline_ok_insert_material).
  destruct (updateShaderBindingTable_effect t (Z.of_nat i) Hokt)
    as (s' & m & a & b & Hrun & Hm' & Ha & Hb & Hrec & Hdev & Hsc & Hgr).
  { cbn. lia. }
  rewrite Nat2Z.id in *.
  change (sbt t) with (sbt s) in *.
  change (m_guiMaterialParameters (scene t))
    with (<[i := material']> (m_guiMaterialParameters (scene s))) in Hm'.
  rewrite list_lookup_insert_eq in Hm' by (by apply lookup_lt_Some in Hm).
  injection Hm' as <-. rewrite H0 in Ha. injection Ha as <-.
  rewrite H1 in Hb. injection Hb as <-.
  exists s'. split; [exact Hrun |].
  split. { apply (updateShaderBindingTable_ok t i); [done | cbn; lia | done]. }
  rewrite Hsc. do 2 (split; [done |]). split; [exact Hrec |]. split; [exact Hdev |]. exact Hgr.
Qed.

(** X12 — Two clicks on "Use Cutout Texture" of an instance whose records
    carry the headers its material selects bring back the material, the
    host records and the device records of before. *)
Theorem toggle_twice_restores (s : Application) (instance : Z) :
  pipeline_ok s →
  0 <= instance < Z.of_nat (length (m_instances (scene s))) →
  headers_follow s (Z.to_nat instance) →
  ∃ s1 s2,
    toggleCutout instance s = Some s1 ∧
    toggleCutout instance s1 = Some s2 ∧
    headers_follow s1 (Z.to_nat instance) ∧
    m_guiMaterialParameters (scene s2) = m_guiMaterialParameters (scene s) ∧
    m_sbtRecordGeometryInstanceData (sbt s2) = m_sbtRecordGeometryInstanceData (sbt s) ∧
    m_d_sbtRecordGeometryInstanceData (device s2) = m_sbtRecordGeometryInstanceData (sbt s).
Proof.
  intros Hok Hi.
  assert (∃ i : nat, instance = Z.of_nat i) as [i ->] by (exists (Z.to_nat instance); lia).
  rewrite Nat2Z.id. intros (material & r0 & r1 & Hm & H0 & H1 & Hh0 & Hh1).
  assert (i < length (m_instances (scene s)))%nat as Hi' by lia.
  destruct (toggleCutout_spec s i material r0 r1 Hok Hi' Hm H0 H1)
    as (s1 & Hrun1 & Hok1 & Hinst1 & Hmat1 & Hrec1 & Hdev1 & Hgr1).
  cbn zeta in *.
  set (material' := set_useCutoutTexture (negb (useCutoutTexture material)) material) in *.
  assert (S (2 * i) < length (m_sbtRecordGeometryInstanceData (sbt s)))%nat
    as Hlen by (by apply lookup_lt_Some in H1).
  destruct (lookup_insert_pair (m_sbtRecordGeometryInstanceData (sbt s)) (2 * i)
              (set_header (header (radiance_group (sbt s) material')) r0)
              (set_header (header (shadow_group (sbt s) material')) r1) Hlen) as [Ha Hb].
  rewrite <- Hrec1 in Ha, Hb.
  assert (m_guiMaterialParameters (scene s1) !! i = Some material') as Hm1.
  { rewrite Hmat1. apply list_lookup_insert_eq. by apply lookup_lt_Some in Hm. }
  assert (i < length (m_instances (scene s1)))%nat as Hi1 by (by rewrite Hinst1).
  destruct (toggleCutout_spec s1 i material'
              (set_header (header (radiance_group (sbt s) material')) r0)
              (set_header (header (shadow_group (sbt s) material')) r1) Hok1 Hi1 Hm1 Ha Hb)
    as (s2 & Hrun2 & Hok2 & Hinst2 & Hmat2 & Hrec2 & Hdev2 & _).
  cbn zeta in *.
  assert (set_useCutoutTexture (negb (useCutoutTexture material')) material' = material)
    as Hback.
  { destruct material as [? ? ? []]; reflexivity. }
  rewrite Hback in *.
  exists s1, s2. split; [exact Hrun1 |]. split; [exact Hrun2 |].
  split.
  { eexists material', _, _. split; [exact Hm1 |]. split; [exact Ha |]. split; [exact Hb |].
    destruct (Hgr1 material') as [-> ->]. done. }
  assert (m_sbtRecordGeometryInstanceData (sbt s2) = m_sbtRecordGeometryInstanceData (sbt s))
    as Heq.
  { rewrite Hrec2, Hrec1. destruct (Hgr1 material) as [-> ->].
    rewrite list_insert_insert_ne by lia. rewrite list_insert_insert_eq.
    rewrite list_insert_insert_ne by lia. rewrite list_insert_insert_eq.
    apply insert_pair_id.
    - rewrite H0. f_equal. rewrite <- Hh0. by destruct r0.
    - rewrite H1. f_equal. rewrite <- Hh1. by destruct r1. }
  split.
  { rewrite Hmat2, Hmat1, list_insert_insert_eq. by apply list_insert_id. }
  split; [exact Heq |]. by rewrite Hdev2.
Qed.

Lemma sample_app_headers_follow : headers_follow sample_app 0.
Proof.
  unfold headers_follow. eexists _, _, _.
  split; [vm_compute; reflexivity |]. split; [vm_compute; reflexivity |].
  split; [vm_compute; reflexivity |]. split; vm_compute; reflexivity.
Qed.

Lemma toggle_twice_restores_witness :
  (pipeline_ok sample_app ∧
   0 <= 0 < Z.of_nat (length (m_instances (scene sample_app))) ∧
   headers_follow sample_app (Z.to_nat 0)) ∧
  ∃ s1 s2,
    toggleCutout 0 sample_app = Some s1 ∧
    toggleCutout 0 s1 = Some s2 ∧
    m_sbtRecordGeometryInstanceData (sbt s2) =
      m_sbtRecordGeometryInstanceData (sbt sample_app).
Proof.
  destruct sample_app_ok as [Hok Hn].
  assert (0 <= 0 < Z.of_nat (length (m_instances (scene sample_app)))) as Hi
    by (rewrite Hn; lia).
  pose proof sample_app_headers_follow as Hf.
  split; [split; [exact Hok | split; [exact Hi | exact Hf]] |].
  destruct (toggle_twice_restores sample_app 0 Hok Hi Hf)
    as (s1 & s2 & H1 & H2 & _ & _ & H3 & _).
  exists s1, s2. split; [exact H1 |]. split; [exact H2 | exact H3].
Defined.

(** ** Further properties: the material and light panels *)

Lemma headers_follow_edit s (i j : nat) m m' :
  m_guiMaterialParameters (scene s) !! i = Some m →
  j ≠ i ∨ useCutoutTexture m' = useCutoutTexture m →
  headers_follow s j →
  headers_follow
    (set_scene (set_m_guiMaterialParameters
                  (<[i := m']> (m_guiMaterialParameters (scene s))) (scene s)) s) j.
Proof.
  intros Hm Hor (mj & r0 & r1 & Hmj & H0 & H1 & Hh0 & Hh1).
  unfold headers_follow.
  cbn [scene sbt set_scene m_guiMaterialParameters set_m_guiMaterialParameters].
  destruct (decide (j = i)) as [-> | Hne].
  - destruct Hor as [? | Hflag]; [done |]. rewrite Hm in Hmj. injection Hmj as <-.
    exists m', r0, r1. split.
    { apply list_lookup_insert_eq. by apply lookup_lt_Some in Hm. }
    split; [exact H0 |]. split; [exact H1 |].
    unfold radiance_group, shadow_group in *. by rewrite Hflag.
  - exists mj, r0, r1. split; [by rewrite list_lookup_insert_ne |]. done.
Qed.

(** [updateShaderBindingTable] on an instance puts its records in line
    with its material and leaves the others as they are. *)
Lemma update_consistent s (i : nat) :
  pipeline_ok s → (i < length (m_instances (scene s)))%nat →
  (∀ j : nat, (j < length (m_instances (scene s)))%nat → j ≠ i → headers_follow s j) →
  ∃ s',
    updateShaderBindingTable (Z.of_nat i) s = Some s' ∧
    sbt_consistent s' ∧
    scene s' = scene s ∧ m_systemParameter s' = m_systemParameter s ∧
    accum s' = accum s ∧
    d_lightDefinitions (device s') = d_lightDefinitions (device s) ∧
    d_materialParameters (device s') = d_materialParameters (device s) ∧
    m_d_systemParameter (device s') = m_d_systemParameter (device s) ∧
    launches (trace (device s')) = launches (trace (device s)).
Proof.
  intros Hok Hi Hothers.
  destruct (updateShaderBindingTable_spec s i Hok Hi)
    as (material & r0 & r1 & Hm & H0 & H1 & Heq).
  cbn zeta in Heq. eexists. split; [exact Heq |].
  split.
  2:{ do 5 (split; [reflexivity |]). split; [reflexivity |].
      cbn [device set_device emit trace set_m_d_records]. rewrite launches_app. cbn.
      by rewrite app_nil_r. }
  split.
  { eapply updateShaderBindingTable_ok; [exact Hok | exact Hi | exact Heq]. }
  assert (S (2 * i) < length (m_sbtRecordGeometryInstanceData (sbt s)))%nat
    as Hlen by (by apply lookup_lt_Some in H1).
  intros j Hj. unfold headers_follow.
  cbn [scene sbt set_device set_sbt set_records m_sbtRecordGeometryInstanceData].
  destruct (decide (j = i)) as [-> | Hne].
  - destruct (lookup_insert_pair (m_sbtRecordGeometryInstanceData (sbt s)) (2 * i)
                (set_header (header (radiance_group (sbt s) material)) r0)
                (set_header (header (shadow_group (sbt s) material)) r1) Hlen) as [Ha Hb].
    eexists material, _, _. split; [exact Hm |]. split; [exact Ha |]. split; [exact Hb |].
    split; reflexivity.
  - destruct (Hothers j Hj Hne) as (mj & a & b & Hmj & Ha & Hb & Hha & Hhb).
    exists mj, a, b. split; [exact Hmj |].
    split; [by rewrite !list_lookup_insert_ne by lia |].
    split; [by rewrite !list_lookup_insert_ne by lia |]. done.
Qed.

Lemma materials_inv_init s0 (k : nat) : sbt_consistent s0 → materials_inv s0 k (s0, false).
Proof. intros Hc. split; [exact Hc |]. by do 8 (split; [try reflexivity |]). Qed.

Lemma materials_inv_mono s0 (k k' : nat) st :
  (k ≤ k')%nat → materials_inv s0 k st → materials_inv s0 k' st.
Proof.
  intros Hk (H1 & H2 & H3 & H4 & H5 & H6 & H7 & H8 & H9 & H10).
  repeat (split; [done |]). split; [| done]. intros j Hj. apply H9. lia.
Qed.

Lemma material_widget_inv {A} (answer : option A)
    (set : A → MaterialParameterGUI → MaterialParameterGUI) (i : nat) s0 st :
  (∀ v m, useCutoutTexture (set v m) = useCutoutTexture m) →
  Z.of_nat i < 2 ^ 31 →
  (i < length (m_guiMaterialParameters (scene s0)))%nat →
  materials_inv s0 (S i) st →
  ∃ st', material_widget answer set (Z.of_nat i) st = Some st' ∧ materials_inv s0 (S i) st'.
Proof.
  intros Hflag Hi31 Hi Hinv. pose proof Hinv as (Hc & H2 & H3 & H4 & H5 & H6 & H7 & H8 & H9 & _).
  destruct st as [s c]. cbn [fst snd] in *.
  destruct answer as [v |]; cbn [material_widget]; [| by exists (s, c)].
  destruct (lookup_lt_is_Some_2 (m_guiMaterialParameters (scene s)) i) as [m Hm]; [lia |].
  cbn [fst]. erewrite vec_update_nat; [| lia | exact Hm]. cbn [mbind option_bind].
  eexists. split; [reflexivity |]. unfold materials_inv. cbn [fst snd].
  split.
  { destruct Hc as [Hok Hall]. split; [by apply pipeline_ok_insert_material |].
    intros j Hj. apply (headers_follow_edit s i j m); [done | by right | by apply Hall]. }
  cbn [scene set_scene m_instances m_lightDefinitions m_textureAlbedo m_textureCutout
       m_guiMaterialParameters set_m_guiMaterialParameters m_systemParameter device].
  rewrite length_insert. do 7 (split; [done |]).
  split; [| done]. intros j Hj. rewrite list_lookup_insert_ne by lia. apply H9. lia.
Qed.

Lemma cutout_widget_inv (answer : option bool) (i : nat) s0 st :
  Z.of_nat i < 2 ^ 31 →
  (i < length (m_guiMaterialParameters (scene s0)))%nat →
  materials_inv s0 (S i) st →
  ∃ st', cutout_widget answer (Z.of_nat i) st = Some st' ∧ materials_inv s0 (S i) st'.
Proof.
  intros Hi31 Hi Hinv. pose proof Hinv as (Hc & H2 & H3 & H4 & H5 & H6 & H7 & H8 & H9 & _).
  destruct st as [s c]. cbn [fst snd] in *.
  destruct answer as [v |]; cbn [cutout_widget]; [| by exists (s, c)].
  destruct (lookup_lt_is_Some_2 (m_guiMaterialParameters (scene s)) i) as [m Hm]; [lia |].
  cbn [fst]. erewrite vec_update_nat; [| lia | exact Hm]. cbn [mbind option_bind].
  set (t := set_scene _ s). destruct Hc as [Hok Hall].
  assert (pipeline_ok t) as Hokt by (by apply pipeline_ok_insert_material).
  assert (∀ j : nat, (j < length (m_instances (scene t)))%nat → j ≠ i → headers_follow t j)
    as Hothers.
  { intros j Hj Hne. apply (headers_follow_edit s i j m); [done | by left | by apply Hall]. }
  assert (∃ s', updateShaderBindingTable (Z.of_nat i) t = Some s' ∧
                sbt_consistent s' ∧ scene s' = scene t ∧
                m_systemParameter s' = m_systemParameter t ∧
                d_lightDefinitions (device s') = d_lightDefinitions (device t))
    as (s' & Hrun & Hc' & Hsc & Hsp & Hdl).
  { destruct (decide (i < length (m_instances (scene t)))%nat) as [Hin | Hout].
    - destruct (update_consistent t i Hokt Hin Hothers)
        as (s' & Hrun & Hc' & Hsc & Hsp & _ & Hdl & _).
      by exists s'.
    - exists t. split.
      + apply updateShaderBindingTable_outside.
        * unfold in_int. lia.
        * destruct Hokt as (Hint & _). unfold INT_MAX, NUM_RAYTYPES in Hint. lia.
        * lia.
      + split; [| done]. split; [done |]. intros j Hj. apply Hothers; lia. }
  rewrite Hrun. cbn [mbind option_bind]. eexists. split; [reflexivity |].
  unfold materials_inv. cbn [fst snd]. rewrite Hsc, Hsp, Hdl.
  split; [done |].
  cbn [scene set_scene m_instances m_lightDefinitions m_textureAlbedo m_textureCutout
       m_guiMaterialParameters set_m_guiMaterialParameters m_systemParameter device t].
  rewrite length_insert. do 7 (split; [done |]).
  split; [| done]. intros j Hj. rewrite list_lookup_insert_ne by lia. apply H9. lia.
Qed.

Lemma guiWindow_material_inv (w : MaterialWidgets) (i : nat) s0 st :
  Z.of_nat i < 2 ^ 31 →
  (i < length (m_guiMaterialParameters (scene s0)))%nat →
  materials_inv s0 (S i) st →
  ∃ st', guiWindow_material w (Z.of_nat i) st = Some st' ∧ materials_inv s0 (S i) st'.
Proof.
  intros Hi31 Hi Hinv. unfold guiWindow_material.
  destruct (w_TreeNode w); [| by exists st].
  assert (∀ st, materials_inv s0 (S i) st →
            is_Some (vec_at (m_guiMaterialParameters (scene st.1)) (Z.of_nat i))) as Hat.
  { intros st0 (_ & _ & _ & _ & _ & _ & _ & Hlen & _).
    rewrite vec_at_nat by lia. apply lookup_lt_is_Some_2. lia. }
  destruct (Hat st Hinv) as [m0 ->]. cbn [mbind option_bind].
  destruct (material_widget_inv (w_BSDFType w) set_indexBSDF i s0 st)
    as (st1 & -> & Hinv1); [done .. |]. cbn [mbind option_bind].
  destruct (material_widget_inv (w_Albedo w) set_albedo i s0 st1)
    as (st2 & -> & Hinv2); [done .. |]. cbn [mbind option_bind].
  destruct (material_widget_inv (w_UseAlbedoTexture w) set_useAlbedoTexture i s0 st2)
    as (st3 & -> & Hinv3); [done .. |]. cbn [mbind option_bind].
  destruct (cutout_widget_inv (w_UseCutoutTexture w) i s0 st3)
    as (st4 & -> & Hinv4); [done .. |]. cbn [mbind option_bind].
  destruct (material_widget_inv (w_ThinWalled w) set_thinwalled i s0 st4)
    as (st5 & -> & Hinv5); [done .. |]. cbn [mbind option_bind].
  destruct (Hat st5 Hinv5) as [parameters ->]. cbn [mbind option_bind].
  destruct (indexBSDF parameters); [by exists st5 | by exists st5 |].
  destruct (material_widget_inv (w_Absorption w) set_absorptionColor i s0 st5)
    as (st6 & -> & Hinv6); [done .. |]. cbn [mbind option_bind].
  destruct (material_widget_inv (w_VolumeScale w) set_volumeDistanceScale i s0 st6)
    as (st7 & -> & Hinv7); [done .. |]. cbn [mbind option_bind].
  by apply material_widget_inv.
Qed.

Lemma guiWindow_materials_loop (widgets : Z → MaterialWidgets) s0 (k : nat) :
  sbt_consistent s0 →
  Z.of_nat (length (m_guiMaterialParameters (scene s0))) < 2 ^ 31 →
  (k ≤ length (m_guiMaterialParameters (scene s0)))%nat →
  ∃ st, for_int k (λ i st, guiWindow_material (widgets i) i st) (s0, false) = Some st ∧
        materials_inv s0 k st.
Proof.
  intros Hc Hlen. induction k as [| k IH]; intros Hk.
  - exists (s0, false). split; [done |]. by apply materials_inv_init.
  - destruct IH as (st & Hrun & Hinv); [lia |].
    cbn [for_int]. rewrite Hrun. cbn [mbind option_bind].
    apply guiWindow_material_inv; [lia | lia |].
    apply (materials_inv_mono s0 k); [lia | done].
Qed.

(** What the "Materials" header leaves. *)
Lemma guiWindow_Materials_spec logf RT_DEFAULT_MAX FLAG_THINWALLED header widgets s :
  sbt_consistent s →
  Z.of_nat (length (m_guiMaterialParameters (scene s))) < 2 ^ 31 →
  ∃ st,
    materials_inv s (length (m_guiMaterialParameters (scene s)) - 1) st ∧
    guiWindow_Materials logf RT_DEFAULT_MAX FLAG_THINWALLED header widgets s =
      Some (if st.2
            then restartAccumulation
                   (updateMaterialParameters logf RT_DEFAULT_MAX FLAG_THINWALLED st.1)
            else st.1).
Proof.
  intros Hc Hlen. unfold guiWindow_Materials. destruct header.
  2:{ exists (s, false). split; [| done]. by apply materials_inv_init. }
  set (n := length (m_guiMaterialParameters (scene s))) in *.
  rewrite (wrap_int_small (Z.of_nat n)) by lia.
  rewrite wrap_int_small by lia.
  replace (Z.to_nat (Z.of_nat n - 1)) with (n - 1)%nat by lia.
  destruct (guiWindow_materials_loop widgets s (n - 1) Hc Hlen) as ([s' c] & -> & Hinv);
    [lia |].
  exists (s', c). split; [done |]. by destruct c.
Qed.

Lemma sbt_consistent_frame s s' :
  scene s' = scene s → sbt s' = sbt s →
  m_d_sbtRecordGeometryInstanceData (device s') = m_d_sbtRecordGeometryInstanceData (device s) →
  sbt_consistent s → sbt_consistent s'.
Proof.
  intros Hsc Hsbt Hdev [Hok Hall]. split.
  - apply (pipeline_ok_frame s); by rewrite ?Hsc, ?Hsbt.
  - intros j Hj. rewrite Hsc in Hj. unfold headers_follow. rewrite Hsc, Hsbt. by apply Hall.
Qed.

(** X13 — Whatever is edited in the material panel during a frame, the
    panel runs through without an access out of range, and if the SBT was
    consistent on entry (every instance's two records carry the headers
    of the hit groups its material's cutout flag selects, the device copy
    equal to the host's) it is consistent on exit. *)
Theorem material_panel_keeps_sbt_consistent (logf : float → float)
    (RT_DEFAULT_MAX : float) (FLAG_THINWALLED : Z) (header : bool)
    (widgets : Z → MaterialWidgets) (s : Application) :
  sbt_consistent s →
  Z.of_nat (length (m_guiMaterialParameters (scene s))) < 2 ^ 31 →
  ∃ s',
    guiWindow_Materials logf RT_DEFAULT_MAX FLAG_THINWALLED header widgets s = Some s' ∧
    sbt_consistent s' ∧
    m_instances (scene s') = m_instances (scene s).
Proof.
  intros Hc Hlen.
  destruct (guiWindow_Materials_spec logf RT_DEFAULT_MAX FLAG_THINWALLED header widgets s
              Hc Hlen) as ([s1 c] & (Hc1 & Hinst & _) & Hrun).
  cbn [fst snd] in *. eexists. split; [exact Hrun |].
  destruct c; [| done]. split; [| done].
  by apply (sbt_consistent_frame s1).
Qed.

(** X14 — The material panel never edits the last material, the one of the
    light, and keeps the number of materials; the lights and the launch
    parameters other than the iteration index are not its business
    either. *)
Theorem material_panel_spares_last_material (logf : float → float)
    (RT_DEFAULT_MAX : float) (FLAG_THINWALLED : Z) (header : bool)
    (widgets : Z → MaterialWidgets) (s : Application) :
  sbt_consistent s →
  Z.of_nat (length (m_guiMaterialParameters (scene s))) < 2 ^ 31 →
  ∃ s',
    guiWindow_Materials logf RT_DEFAULT_MAX FLAG_THINWALLED header widgets s = Some s' ∧
    length (m_guiMaterialParameters (scene s')) = length (m_guiMaterialParameters (scene s)) ∧
    last (m_guiMaterialParameters (scene s')) = last (m_guiMaterialParameters (scene s)) ∧
    m_lightDefinitions (scene s') = m_lightDefinitions (scene s) ∧
    d_lightDefinitions (device s') = d_lightDefinitions (device s) ∧
    m_systemParameter s' = m_systemParameter s.
Proof.
  intros Hc Hlen.
  destruct (guiWindow_Materials_spec logf RT_DEFAULT_MAX FLAG_THINWALLED header widgets s
              Hc Hlen)
    as ([s1 c] & (_ & _ & Hl & _ & _ & Hsp & Hdl & Hn & Hrest & _) & Hrun).
  cbn [fst snd] in *. eexists. split; [exact Hrun |].
  assert (length (m_guiMaterialParameters (scene s1)) =
            length (m_guiMaterialParameters (scene s)) ∧
          last (m_guiMaterialParameters (scene s1)) = last (m_guiMaterialParameters (scene s)) ∧
          m_lightDefinitions (scene s1) = m_lightDefinitions (scene s) ∧
          d_lightDefinitions (device s1) = d_lightDefinitions (device s) ∧
          m_systemParameter s1 = m_systemParameter s) as H.
  { split; [done |]. split; [| done].
    rewrite !last_lookup, Hn. apply Hrest. lia. }
  by destruct c.
Qed.

(** X15 — After the material panel the device's material array is the
    conversion of the GUI's materials if it was before, and either nothing
    at all has changed or the accumulation has been restarted with the
    device's launch parameters equal to the host's. *)
Theorem material_panel_uploads_edits (logf : float → float)
    (RT_DEFAULT_MAX : float) (FLAG_THINWALLED : Z) (header : bool)
    (widgets : Z → MaterialWidgets) (s : Application) :
  sbt_consistent s →
  Z.of_nat (length (m_guiMaterialParameters (scene s))) < 2 ^ 31 →
  materials_uploaded logf RT_DEFAULT_MAX FLAG_THINWALLED s →
  ∃ s',
    guiWindow_Materials logf RT_DEFAULT_MAX FLAG_THINWALLED header widgets s = Some s' ∧
    materials_uploaded logf RT_DEFAULT_MAX FLAG_THINWALLED s' ∧
    (s' = s ∨
     (m_iterationIndex (accum s') = 0 ∧ m_presentNext (accum s') = true ∧ in_step s')).
Proof.
  intros Hc Hlen Hup.
  destruct (guiWindow_Materials_spec logf RT_DEFAULT_MAX FLAG_THINWALLED header widgets s
              Hc Hlen) as ([s1 c] & Hinv & Hrun).
  cbn [fst snd] in *. eexists. split; [exact Hrun |].
  destruct c.
  - split; [reflexivity |]. right. by repeat split.
  - destruct Hinv as (_ & _ & _ & _ & _ & _ & _ & _ & _ & Hsame).
    cbn [snd fst] in Hsame. rewrite (Hsame eq_refl). split; [done | by left].
Qed.

Lemma lights_inv_init s0 : lights_inv s0 (s0, false).
Proof.
  split; [done |]. split; [| by repeat split].
  intros j l0 Hl. exists l0. split; [exact Hl |]. split; [done |]. by destruct l0.
Qed.

Lemma guiWindow_light_inv (w : LightWidgets) (i : nat) s0 st :
  Z.of_nat i < 2 ^ 31 →
  (i < length (m_lightDefinitions (scene s0)))%nat →
  lights_inv s0 st →
  ∃ st', guiWindow_light w (Z.of_nat i) st = Some st' ∧ lights_inv s0 st'.
Proof.
  intros Hi31 Hi Hinv.
  pose proof Hinv as (Hlen & Hall & Hsp & Hm & Hin & Hsbt & Hdev & Hta & Htc & _).
  destruct st as [s c]. cbn [fst snd] in *. unfold guiWindow_light. cbn [fst].
  destruct (lookup_lt_is_Some_2 (m_lightDefinitions (scene s)) i) as [l Hl]; [lia |].
  rewrite vec_at_nat, Hl by lia. cbn [mbind option_bind].
  destruct (type l) eqn:Htype; [by exists (s, c) |].
  destruct (l_TreeNode w); [| by exists (s, c)].
  destruct (l_Emission w) as [v |]; [| by exists (s, c)].
  erewrite vec_update_nat; [| lia | exact Hl]. cbn [mbind option_bind].
  eexists. split; [reflexivity |]. unfold lights_inv. cbn [fst snd].
  cbn [scene set_scene m_lightDefinitions set_m_lightDefinitions m_systemParameter
       m_guiMaterialParameters m_instances sbt device m_textureAlbedo m_textureCutout].
  rewrite length_insert. split; [done |]. split; [| by repeat split].
  intros j l0 Hl0. destruct (Hall j l0 Hl0) as (l' & Hl' & Henv & Heq).
  destruct (decide (j = i)) as [-> | Hne].
  - rewrite Hl in Hl'. injection Hl' as <-.
    exists (set_emission v l). split; [apply list_lookup_insert_eq; lia |].
    split.
    + intros Hty. rewrite Heq in Htype. cbn in Htype. congruence.
    + rewrite Heq. reflexivity.
  - exists l'. split; [by rewrite list_lookup_insert_ne |]. done.
Qed.

Lemma guiWindow_lights_loop (widgets : Z → LightWidgets) s0 (k : nat) :
  Z.of_nat (length (m_lightDefinitions (scene s0))) < 2 ^ 31 →
  (k ≤ length (m_lightDefinitions (scene s0)))%nat →
  ∃ st, for_int k (λ i st, guiWindow_light (widgets i) i st) (s0, false) = Some st ∧
        lights_inv s0 st.
Proof.
  intros Hlen. induction k as [| k IH]; intros Hk.
  - exists (s0, false). split; [done | apply lights_inv_init].
  - destruct IH as (st & Hrun & Hinv); [lia |].
    cbn [for_int]. rewrite Hrun. cbn [mbind option_bind].
    apply guiWindow_light_inv; [lia | lia | done].
Qed.

(** X16 — The light panel changes nothing of a light but the emission, and
    nothing at all of an environment light; it keeps the number of lights,
    and afterwards the device's light array is the host's if it was
    before. Either nothing has changed or the accumulation has been
    restarted. *)
Theorem light_panel_edits_emission_only (header : bool) (widgets : Z → LightWidgets)
    (s : Application) :
  Z.of_nat (length (m_lightDefinitions (scene s))) < 2 ^ 31 →
  lights_uploaded s →
  ∃ s',
    guiWindow_Lights header widgets s = Some s' ∧
    lights_uploaded s' ∧
    length (m_lightDefinitions (scene s')) = length (m_lightDefinitions (scene s)) ∧
    (∀ (j : nat) l0, m_lightDefinitions (scene s) !! j = Some l0 →
       ∃ l, m_lightDefinitions (scene s') !! j = Some l ∧
            (type l0 = LIGHT_ENVIRONMENT → l = l0) ∧
            l = set_emission (emission l) l0) ∧
    (s' = s ∨ (m_iterationIndex (accum s') = 0 ∧ in_step s')).
Proof.
  intros Hlen [Hup Hnum]. unfold guiWindow_Lights. destruct header.
  2:{ exists s. split; [done |]. split; [done |]. split; [done |].
      split; [| by left]. apply (lights_inv_init s). }
  rewrite wrap_int_small by lia. rewrite Nat2Z.id.
  destruct (guiWindow_lights_loop widgets s (length (m_lightDefinitions (scene s))) Hlen)
    as ([s1 c] & -> & Hinv); [lia |].
  pose proof Hinv as (Hl & Hall & Hsp & _ & _ & _ & Hdev & _ & _ & Hsame).
  cbn [fst snd] in *.
  destruct c.
  - eexists. split; [reflexivity |]. unfold lights_uploaded. cbn. rewrite Hsp, Hl.
    split; [done |]. split; [done |]. split; [exact Hall |]. right. by split.
  - rewrite (Hsame eq_refl) in *. exists s. split; [done |]. split; [done |].
    split; [done |]. split; [exact Hall | by left].
Qed.

(** Construction leaves a consistent SBT and the device arrays in step
    with the host. *)
Lemma initRenderer_consistent logf RT_DEFAULT_MAX FLAG_THINWALLED pack textureAlbedo
    textureCutout e options :
  (∀ pg, length (pack pg) = OPTIX_SBT_RECORD_HEADER_SIZE) →
  ∃ s,
    initRenderer logf RT_DEFAULT_MAX FLAG_THINWALLED pack textureAlbedo textureCutout e
      (Application_new options) = Some s ∧
    sbt_consistent s ∧
    materials_uploaded logf RT_DEFAULT_MAX FLAG_THINWALLED s ∧
    lights_uploaded s ∧ in_step s ∧
    length (m_guiMaterialParameters (scene s)) = 6%nat ∧
    (length (m_lightDefinitions (scene s)) ≤ 2)%nat.
Proof.
  intros Hpack.
  destruct (initRenderer_ok logf RT_DEFAULT_MAX FLAG_THINWALLED pack textureAlbedo
              textureCutout e options Hpack) as (s & Hrun & Hok & _).
  destruct (initRenderer_steps logf RT_DEFAULT_MAX FLAG_THINWALLED pack textureAlbedo
              textureCutout e options Hpack)
    as (s2 & records & recs & Hrun' & Hsc & _ & Hmi2 & Hn & Hmat & _ & Hdone & _).
  cbn zeta in *. rewrite Hrun in Hrun'. injection Hrun' as ->.
  exists (initPipeline_systemParameter logf RT_DEFAULT_MAX FLAG_THINWALLED (env_root e)
            (env_outputBuffer e) (env_frustum e)
            (set_device
               (emit [MemcpySbtCallables]
                  (set_m_d_sbtRecordCallables recs
                     (device (store_hitRecords
                                (Z.of_nat (length (m_instances (scene
                                   (initPipeline_instances (env_build e)
                                      (initMaterials textureAlbedo textureCutout
                                         (Application_new options)))))) * NUM_RAYTYPES)
                                records s2))))
               (set_sbt
                  (set_callablesRecordCount 11
                     (sbt (store_hitRecords
                             (Z.of_nat (length (m_instances (scene
                                (initPipeline_instances (env_build e)
                                   (initMaterials textureAlbedo textureCutout
                                      (Application_new options)))))) * NUM_RAYTYPES)
                             records s2)))
                  (store_hitRecords
                     (Z.of_nat (length (m_instances (scene
                        (initPipeline_instances (env_build e)
                           (initMaterials textureAlbedo textureCutout
                              (Application_new options)))))) * NUM_RAYTYPES)
                     records s2)))).
  split; [exact Hrun |]. split.
  { split; [exact Hok |]. intros j Hj. unfold headers_follow.
    cbn [scene sbt device initPipeline_systemParameter updateMaterialParameters set_device
         set_sbt set_systemParameter store_hitRecords set_records set_hitgroupRecordCount
         set_callablesRecordCount m_sbtRecordGeometryInstanceData m_instances] in Hj |- *.
    rewrite Hsc in Hj |- *.
    destruct (Hdone j Hj) as (material & geometry & Hm & _ & H0 & H1).
    eexists material, _, _. split; [exact Hm |]. split; [exact H0 |]. split; [exact H1 |].
    split; reflexivity. }
  split; [reflexivity |].
  pose proof (initPipeline_instances_lights (env_build e)
                (initMaterials textureAlbedo textureCutout (Application_new options)))
    as Hlights.
  cbn [initMaterials scene set_scene m_lightDefinitions set_m_guiMaterialParameters
       set_textures Application_new app] in Hlights.
  assert (length (m_lightDefinitions (scene s2)) ≤ 2)%nat as Hle.
  { rewrite Hsc, Hlights. destruct (bool_decide _), (negb _); cbn; lia. }
  split.
  { split; [reflexivity |]. cbn. apply to_uint_small. lia. }
  split; [reflexivity |]. cbn. rewrite Hsc. split; [exact Hmat | by rewrite <- Hsc].
Qed.

Lemma sample_app_consistent :
  sample_run = Some sample_app ∧
  sbt_consistent sample_app ∧
  materials_uploaded logf_table sample_RT_DEFAULT_MAX sample_FLAG_THINWALLED sample_app ∧
  lights_uploaded sample_app ∧ in_step sample_app ∧
  Z.of_nat (length (m_guiMaterialParameters (scene sample_app))) < 2 ^ 31 ∧
  Z.of_nat (length (m_lightDefinitions (scene sample_app))) < 2 ^ 31.
Proof.
  destruct (initRenderer_consistent logf_table sample_RT_DEFAULT_MAX sample_FLAG_THINWALLED
              sample_packHeader 7 8 sample_env sample_options sample_packHeader_size)
    as (s & Hrun & Hc & Hm & Hl & Hs & Hn & Hk).
  unfold sample_app, sample_run. rewrite Hrun. cbn [default from_option id].
  do 5 (split; [done |]). lia.
Qed.

Lemma material_panel_keeps_sbt_consistent_witness :
  (sbt_consistent sample_app ∧
   Z.of_nat (length (m_guiMaterialParameters (scene sample_app))) < 2 ^ 31) ∧
  ∃ s',
    guiWindow_Materials logf_table sample_RT_DEFAULT_MAX sample_FLAG_THINWALLED true
      sample_material_widgets sample_app = Some s' ∧
    sbt_consistent s'.
Proof.
  destruct sample_app_consistent as (_ & Hc & _ & _ & _ & Hn & _).
  split; [split; [exact Hc | exact Hn] |].
  destruct (material_panel_keeps_sbt_consistent logf_table sample_RT_DEFAULT_MAX
              sample_FLAG_THINWALLED true sample_material_widgets sample_app Hc Hn)
    as (s' & Hrun & Hc' & _).
  exists s'. split; [exact Hrun | exact Hc'].
Defined.

Lemma material_panel_spares_last_material_witness :
  (sbt_consistent sample_app ∧
   Z.of_nat (length (m_guiMaterialParameters (scene sample_app))) < 2 ^ 31) ∧
  ∃ s',
    guiWindow_Materials logf_table sample_RT_DEFAULT_MAX sample_FLAG_THINWALLED true
      sample_material_widgets sample_app = Some s' ∧
    last (m_guiMaterialParameters (scene s')) =
      last (m_guiMaterialParameters (scene sample_app)).
Proof.
  destruct sample_app_consistent as (_ & Hc & _ & _ & _ & Hn & _).
  split; [split; [exact Hc | exact Hn] |].
  destruct (material_panel_spares_last_material logf_table sample_RT_DEFAULT_MAX
              sample_FLAG_THINWALLED true sample_material_widgets sample_app Hc Hn)
    as (s' & Hrun & _ & Hlast & _).
  exists s'. split; [exact Hrun | exact Hlast].
Defined.

Lemma material_panel_uploads_edits_witness :
  (sbt_consistent sample_app ∧
   Z.of_nat (length (m_guiMaterialParameters (scene sample_app))) < 2 ^ 31 ∧
   materials_uploaded logf_table sample_RT_DEFAULT_MAX sample_FLAG_THINWALLED sample_app) ∧
  ∃ s',
    guiWindow_Materials logf_table sample_RT_DEFAULT_MAX sample_FLAG_THINWALLED true
      sample_material_widgets sample_app = Some s' ∧
    materials_uploaded logf_table sample_RT_DEFAULT_MAX sample_FLAG_THINWALLED s'.
Proof.
  destruct sample_app_consistent as (_ & Hc & Hm & _ & _ & Hn & _).
  split; [split; [exact Hc | split; [exact Hn | exact Hm]] |].
  destruct (material_panel_uploads_edits logf_table sample_RT_DEFAULT_MAX
              sample_FLAG_THINWALLED true sample_material_widgets sample_app Hc Hn Hm)
    as (s' & Hrun & Hm' & _).
  exists s'. split; [exact Hrun | exact Hm'].
Defined.

Lemma light_panel_edits_emission_only_witness :
  (Z.of_nat (length (m_lightDefinitions (scene sample_app))) < 2 ^ 31 ∧
   lights_uploaded sample_app) ∧
  ∃ s',
    guiWindow_Lights true sample_light_widgets sample_app = Some s' ∧
    lights_uploaded s'.
Proof.
  destruct sample_app_consistent as (_ & _ & _ & Hl & _ & _ & Hn).
  split; [split; [exact Hn | exact Hl] |].
  destruct (light_panel_edits_emission_only true sample_light_widgets sample_app Hn Hl)
    as (s' & Hrun & Hl' & _).
  exists s'. split; [exact Hrun | exact Hl'].
Defined.

(** ** Further properties: the window *)

Lemma drag_run_snoc d calls c :
  drag_run d (calls ++ [c]) = (d' ← drag_run d calls; drag_step d' c).
Proof. unfold drag_run. by rewrite foldl_app. Qed.

Lemma drag_run_nil_r d calls : drag_run d (calls ++ []) = drag_run d calls.
Proof. by rewrite app_nil_r. Qed.

Lemma last_viewport_snoc calls c :
  last_viewport (calls ++ [c]) =
  match c with
  | setViewport width height => Some (width, height)
  | _ => last_viewport calls
  end.
Proof.
  unfold last_viewport. rewrite omap_app.
  destruct c; cbn; rewrite ?app_nil_r; try done; by rewrite last_snoc.
Qed.

Lemma reshape_size_inv width height pointer w :
  size_inv w → size_inv (reshape width height pointer w).
Proof.
  intros (Hw & Hh & Hv). unfold reshape.
  destruct (Z.eqb_spec width 0), (Z.eqb_spec height 0); cbn [negb andb]; try done.
  destruct (negb (m_width w =? width) || negb (m_height w =? height)); [| done].
  unfold size_inv. cbn [m_width m_height m_pinholeCamera].
  by rewrite last_viewport_snoc.
Qed.

Lemma reshape_gui_inv width height pointer w :
  gui_inv w → gui_inv (reshape width height pointer w).
Proof.
  intros (d & Hrun & Hst). unfold reshape.
  destruct ((negb (width =? 0) && negb (height =? 0)) &&
            (negb (m_width w =? width) || negb (m_height w =? height)));
    [| by exists d].
  exists d. cbn [m_guiState m_pinholeCamera]. split; [| done].
  by rewrite drag_run_snoc, Hrun.
Qed.

Lemma guiEventHandler_size_inv io w : size_inv w → size_inv (guiEventHandler io w).
Proof.
  intros (Hw & Hh & Hv). unfold guiEventHandler, size_inv.
  destruct (IsKeyPressed_space io), (m_guiState w) eqn:Hs; cbn -[last_viewport];
    rewrite ?Hs;
    repeat match goal with
           | |- context [if ?b then _ else _] => destruct b
           end;
    cbn -[last_viewport]; rewrite ?last_viewport_snoc, ?app_nil_r; done.
Qed.

Lemma guiEventHandler_gui_inv io w : gui_inv w → gui_inv (guiEventHandler io w).
Proof.
  intros (d & Hrun & Hst). unfold guiEventHandler, gui_inv.
  destruct (IsKeyPressed_space io), (m_guiState w) eqn:Hs; cbn -[drag_run]; rewrite ?Hs;
    repeat match goal with
           | |- context [if ?b then _ else _] => destruct b
           end;
    cbn -[drag_run]; rewrite ?drag_run_snoc, ?app_nil_r, Hrun, ?Hs; cbn -[drag_run];
    try (eexists; split; [reflexivity |]; by auto);
    destruct Hst as [-> | ->]; cbn -[drag_run]; eexists; (split; [reflexivity |]); by auto.
Qed.

Lemma handle_all_inv (events : list WindowEvent) w :
  size_inv w → gui_inv w →
  size_inv (handle_all events w) ∧ gui_inv (handle_all events w).
Proof.
  unfold handle_all. revert w. induction events as [| e events IH]; intros w Hs Hg; [done |].
  cbn [foldl]. apply IH; destruct e; cbn [handle];
    auto using reshape_size_inv, reshape_gui_inv, guiEventHandler_size_inv,
               guiEventHandler_gui_inv.
Qed.

Lemma Application_ctor_window p renderer getClientWidth getClientHeight options w errors :
  Application_ctor p renderer getClientWidth getClientHeight options = Some (w, errors) →
  m_width w = Z.max 1 getClientWidth ∧ m_height w = Z.max 1 getClientHeight ∧
  m_guiState w = GUI_STATE_NONE ∧ m_isVisibleGUI w = true ∧
  m_pinholeCamera w = [setViewport (Z.max 1 getClientWidth) (Z.max 1 getClientHeight)] ∧
  initOptiX p renderer (Application_new options) = Some (app w, m_isValid w, errors).
Proof.
  unfold Application_ctor.
  destruct (initOptiX p renderer (Application_new options)) as [[[s valid] errs] |];
    [| done].
  intros [= <- <-]. done.
Qed.


(** X18 — From construction on, whatever resize and mouse events arrive,
    the calls made on the camera are in order: every orbit, pan or dolly
    comes after base coordinates were set, with nothing but moves of its
    own kind and viewport changes in between. *)
Theorem camera_moves_follow_base_coordinates (p : Platform)
    (renderer : Application → option Application) (getClientWidth getClientHeight : Z)
    (options : Options) (w : Window) (errors : list InitError)
    (events : list WindowEvent) :
  Application_ctor p renderer getClientWidth getClientHeight options = Some (w, errors) →
  is_Some (drag_run NoBase (m_pinholeCamera (handle_all events w))).
Proof.
  intros Hctor.
  destruct (Application_ctor_window _ _ _ _ _ _ _ Hctor) as (Hw & Hh & Hs & _ & Hc & _).
  assert (size_inv w) as Hsize.
  { unfold size_inv. rewrite Hw, Hh, Hc. repeat split; lia. }
  assert (gui_inv w) as Hgui.
  { exists NoBase. rewrite Hc, Hs. done. }
  destruct (handle_all_inv events w Hsize Hgui) as [_ (d & Hrun & _)].
  by exists d.
Qed.

(** X19 — While the GUI wants the mouse and no drag is in progress, mouse
    events start no camera interaction: after any number of them the
    camera has been called no further and no drag is in progress. *)
Theorem gui_capture_keeps_camera_still (ios : list ImGuiIO) (w : Window) :
  m_guiState w = GUI_STATE_NONE →
  Forall (λ io, WantCaptureMouse io = true) ios →
  m_guiState (handle_all (Mouse <$> ios) w) = GUI_STATE_NONE ∧
  m_pinholeCamera (handle_all (Mouse <$> ios) w) = m_pinholeCamera w ∧
  app (handle_all (Mouse <$> ios) w) = app w.
Proof.
  unfold handle_all. revert w. induction ios as [| io ios IH]; intros w Hs Hall; [done |].
  apply Forall_cons in Hall as [Hio Hall]. cbn [fmap list_fmap foldl handle].
  assert (m_guiState (guiEventHandler io w) = GUI_STATE_NONE ∧
          m_pinholeCamera (guiEventHandler io w) = m_pinholeCamera w ∧
          app (guiEventHandler io w) = app w) as (Hs' & Hc' & Ha').
  { unfold guiEventHandler. rewrite Hio.
    destruct (IsKeyPressed_space io); cbn; by rewrite Hs. }
  destruct (IH (guiEventHandler io w) Hs' Hall) as (-> & -> & ->). done.
Qed.

Lemma sample_ctor :
  Application_ctor sample_platform sample_renderer 512 512 sample_options =
  Some (sample_window, []).
Proof. vm_compute. reflexivity. Qed.


Lemma camera_moves_follow_base_coordinates_witness :
  Application_ctor sample_platform sample_renderer 512 512 sample_options =
    Some (sample_window, []) ∧
  is_Some (drag_run NoBase (m_pinholeCamera (handle_all sample_events sample_window))).
Proof.
  split; [exact sample_ctor |].
  exact (camera_moves_follow_base_coordinates sample_platform sample_renderer 512 512
           sample_options sample_window [] sample_events sample_ctor).
Defined.

Lemma gui_capture_keeps_camera_still_witness :
  let io := {| IsKeyPressed_space := true; mouse_x := 5; mouse_y := 6;
               WantCaptureMouse := true; IsMouseDown := λ _, true;
               IsMouseReleased := λ _, false; MouseWheel := F32.one |} in
  (m_guiState sample_window = GUI_STATE_NONE ∧
   Forall (λ io, WantCaptureMouse io = true) [io; io]) ∧
  m_pinholeCamera (handle_all (Mouse <$> [io; io]) sample_window) =
    m_pinholeCamera sample_window.
Proof.
  intros io.
  assert (m_guiState sample_window = GUI_STATE_NONE) as Hs by reflexivity.
  assert (Forall (λ io, WantCaptureMouse io = true) [io; io]) as Hall
    by (by repeat constructor).
  split; [split; [exact Hs | exact Hall] |].
  exact (proj1 (proj2 (gui_capture_keeps_camera_still [io; io] sample_window Hs Hall))).
Defined.

Ltac ctor_fails :=
  eexists _, _; (split; [reflexivity |]); unfold isValid, platform_ok;
  cbn [m_isValid app cudaFree_0 cuCtxGetCurrent cudaStreamCreate dlopen dlsym
       optixQueryFunctionTable optixDeviceContextCreate length];
  split; [split; [done | by intros (? & ? & ? & ? & ? & ? & ?)] |];
  split; [done | by intros _].

(** X20 — The application reports itself valid exactly when every step of
    [initOptiX] succeeded. Then nothing was written to the error stream,
    and the SBT is consistent and the device arrays and launch parameters
    are in step with the host. Otherwise the renderer was not initialised
    at all and exactly one error was reported. *)
Theorem construction_is_valid_iff_platform_ok (logf : float → float)
    (RT_DEFAULT_MAX : float) (FLAG_THINWALLED : Z)
    (pack : OptixProgramGroup → SbtRecordHeader)
    (textureAlbedo textureCutout : cudaTextureObject_t) (e : PipelineEnv)
    (p : Platform) (getClientWidth getClientHeight : Z) (options : Options) :
  (∀ pg, length (pack pg) = OPTIX_SBT_RECORD_HEADER_SIZE) →
  ∃ w errors,
    Application_ctor p
      (initRenderer logf RT_DEFAULT_MAX FLAG_THINWALLED pack textureAlbedo textureCutout e)
      getClientWidth getClientHeight options = Some (w, errors) ∧
    (isValid w = true ↔ platform_ok p) ∧
    (isValid w = true →
     errors = [] ∧ sbt_consistent (app w) ∧
     materials_uploaded logf RT_DEFAULT_MAX FLAG_THINWALLED (app w) ∧
     lights_uploaded (app w) ∧ in_step (app w)) ∧
    (isValid w = false → app w = Application_new options ∧ length errors = 1%nat).
Proof.
  intros Hpack.
  destruct (initRenderer_consistent logf RT_DEFAULT_MAX FLAG_THINWALLED pack textureAlbedo
              textureCutout e options Hpack) as (s & Hrun & Hc & Hm & Hl & Hs & _).
  unfold Application_ctor, initOptiX, initOptiXFunctionTable.
  destruct p as [f c st dl ds q dc].
  cbn [cudaFree_0 cuCtxGetCurrent cudaStreamCreate dlopen dlsym optixQueryFunctionTable
       optixDeviceContextCreate].
  destruct f; [| ctor_fails]. destruct c; [| ctor_fails]. destruct st; [| ctor_fails].
  destruct dl; cbn [negb]; [| ctor_fails]. destruct ds; cbn [negb]; [| ctor_fails].
  destruct q; [| ctor_fails ..]. destruct dc; [| ctor_fails ..].
  rewrite Hrun. cbn [mbind option_bind].
  eexists _, _. split; [reflexivity |]. unfold isValid, platform_ok. cbn [m_isValid app].
  split; [done |]. split; [done | by intros [=]].
Qed.

Lemma construction_is_valid_iff_platform_ok_witness :
  (∀ pg, length (sample_packHeader pg) = OPTIX_SBT_RECORD_HEADER_SIZE) ∧
  ∃ w errors,
    Application_ctor sample_platform_no_library
      (initRenderer logf_table sample_RT_DEFAULT_MAX sample_FLAG_THINWALLED sample_packHeader
         7 8 sample_env) 512 512 sample_options = Some (w, errors) ∧
    (isValid w = true ↔ platform_ok sample_platform_no_library).
Proof.
  split; [exact sample_packHeader_size |].
  destruct (construction_is_valid_iff_platform_ok logf_table sample_RT_DEFAULT_MAX
              sample_FLAG_THINWALLED sample_packHeader 7 8 sample_env
              sample_platform_no_library 512 512 sample_options sample_packHeader_size)
    as (w & errors & Hrun & Hiff & _).
  exists w, errors. split; [exact Hrun | exact Hiff].
Defined.

(** The frame after a restart launches with the block the restart
    uploaded, at iteration 0 and, with interop, into the mapped buffer. *)
Lemma render_after_restart frame mapped seconds s0 :
  0 <= m_frames (accum s0) →
  ∃ p,
    launches (trace (device (render (false, frame) mapped seconds
                               (restartAccumulation s0)).1)) =
      launches (trace (device s0)) ++ [p] ∧
    iterationIndex p = 0 ∧
    outputBuffer p = (if m_interop s0 then mapped else outputBuffer (m_systemParameter s0)) ∧
    topObject p = topObject (m_systemParameter s0) ∧
    pathLengths p = pathLengths (m_systemParameter s0) ∧
    numLights p = numLights (m_systemParameter s0) ∧
    cameraType p = cameraType (m_systemParameter s0) ∧
    camera p = camera (m_systemParameter s0).
Proof.
  intros Hf. rewrite render_unfold. cbn [fst snd].
  set (entered := set_systemParameter _ (restartAccumulation s0)).
  destruct (render_present_flag (render_launch mapped entered))
    as (_ & _ & _ & _ & _ & _ & _ & _ & Hcl).
  destruct (render_timing_frame seconds (render_present (render_launch mapped entered)).1)
    as (_ & _ & _ & Htl).
  rewrite Htl, Hcl. unfold render_launch.
  assert ((0 =? m_frames (accum entered)) ||
          (m_iterationIndex (accum entered) <? m_frames (accum entered)) = true) as ->.
  { change (m_frames (accum entered)) with (m_frames (accum s0)).
    change (m_iterationIndex (accum entered)) with 0.
    apply orb_true_iff. lia. }
  cbn. destruct (m_interop s0); cbn; rewrite !launches_app; cbn; rewrite ?app_nil_r;
    eexists; (split; [reflexivity |]); by repeat split.
Qed.



(** X22 — A change of the camera type or of a path length in the system
    panel reaches the device before the next launch: the frame after
    launches at iteration 0 with the new value in the block it reads. *)
Theorem system_widgets_reach_next_launch (v : Z) (frame : CameraFrame)
    (mapped : CUdeviceptr) (seconds : double) (s : Application) :
  0 <= m_frames (accum s) →
  (∃ p, launches (trace (device (render (false, frame) mapped seconds
                                   (guiWindow_Camera v s)).1)) =
          launches (trace (device s)) ++ [p] ∧
        iterationIndex p = 0 ∧ cameraType p = v ∧
        pathLengths p = pathLengths (m_systemParameter s)) ∧
  (∃ p, launches (trace (device (render (false, frame) mapped seconds
                                   (guiWindow_MinPathLength v s)).1)) =
          launches (trace (device s)) ++ [p] ∧
        iterationIndex p = 0 ∧ cameraType p = cameraType (m_systemParameter s) ∧
        pathLengths p = (v, (pathLengths (m_systemParameter s)).2)) ∧
  (∃ p, launches (trace (device (render (false, frame) mapped seconds
                                   (guiWindow_MaxPathLength v s)).1)) =
          launches (trace (device s)) ++ [p] ∧
        iterationIndex p = 0 ∧ cameraType p = cameraType (m_systemParameter s) ∧
        pathLengths p = ((pathLengths (m_systemParameter s)).1, v)).
Proof.
  intros Hf. unfold guiWindow_Camera, guiWindow_MinPathLength, guiWindow_MaxPathLength.
  repeat split;
    match goal with
    | |- context [restartAccumulation ?s0] =>
        destruct (render_after_restart frame mapped seconds s0 Hf)
          as (p & Hl & Hi & _ & _ & Hp & _ & Hc & _);
        exists p; split; [exact Hl |]; split; [exact Hi |]; split; [exact Hc | exact Hp]
    end.
Qed.

Lemma system_widgets_reach_next_launch_witness :
  0 <= m_frames (accum sample_app) ∧
  ∃ p, launches (trace (device (render (false, sample_frame) 0 F64.one
                                  (guiWindow_Camera 1 sample_app)).1)) =
         launches (trace (device sample_app)) ++ [p] ∧
       iterationIndex p = 0 ∧ cameraType p = 1.
Proof.
  assert (0 <= m_frames (accum sample_app)) as Hf by (by vm_compute).
  split; [exact Hf |].
  destruct (system_widgets_reach_next_launch 1 sample_frame 0 F64.one sample_app Hf)
    as [(p & Hl & Hi & Hc & _) _].
  exists p. split; [exact Hl |]. split; [exact Hi | exact Hc].
Defined.

(** ** Further properties: stack sizes, versions, destruction *)

Lemma le_stackSizes_refl a : le_stackSizes a a.
Proof. unfold le_stackSizes. lia. Qed.

Lemma le_stackSizes_trans a b c : le_stackSizes a b → le_stackSizes b c → le_stackSizes a c.
Proof. unfold le_stackSizes. lia. Qed.

Lemma max_stackSizes_ge a s :
  le_stackSizes a (max_stackSizes a s) ∧ le_stackSizes s (max_stackSizes a s).
Proof. unfold le_stackSizes, max_stackSizes. cbn. lia. Qed.

Lemma stackSizes_fold_ge (getStackSize : OptixProgramGroup → OptixStackSizes)
    (programGroups : list OptixProgramGroup) : ∀ acc,
  le_stackSizes acc
    (foldl (λ p pg, max_stackSizes p (getStackSize pg)) acc programGroups) ∧
  ∀ pg, pg ∈ programGroups →
    le_stackSizes (getStackSize pg)
      (foldl (λ p pg, max_stackSizes p (getStackSize pg)) acc programGroups).
Proof.
  induction programGroups as [| g programGroups IH]; intros acc.
  - split; [apply le_stackSizes_refl |]. intros pg Hpg. by apply elem_of_nil in Hpg.
  - cbn [foldl]. destruct (IH (max_stackSizes acc (getStackSize g))) as [Hacc Hall].
    destruct (max_stackSizes_ge acc (getStackSize g)) as [Ha Hg].
    split; [by eapply le_stackSizes_trans |].
    intros pg Hpg. apply elem_of_cons in Hpg as [-> | Hpg].
    + by eapply le_stackSizes_trans.
    + by apply Hall.
Qed.

(** X23 — Unless the [unsigned int] arithmetic overflows, the continuation
    stack size set for the pipeline covers, for any program groups of the
    pipeline, a ray generation program that traces into a closest-hit or
    miss program that traces again into a closest-hit or miss program or
    into an any-hit with an intersection program; and the direct callable
    stack sizes cover every group's. *)
Theorem continuation_stack_covers_two_traces
    (getStackSize : OptixProgramGroup → OptixStackSizes)
    (programGroups : list OptixProgramGroup) :
  let p := stackSizesPipeline getStackSize programGroups in
  let size := pipelineStackSize p in
  cssRG p + cssCC p + (Z.max (cssCH p) (cssMS p) + cssCC p) +
    Z.max (Z.max (cssCH p) (cssMS p) + cssCC p) (cssAH p + cssIS p) < 2 ^ 32 →
  continuationStackSize size =
    cssRG p + cssCC p + (Z.max (cssCH p) (cssMS p) + cssCC p) +
    Z.max (Z.max (cssCH p) (cssMS p) + cssCC p) (cssAH p + cssIS p) ∧
  ∀ rg first second ah is_ dc,
    rg ∈ programGroups → first ∈ programGroups → second ∈ programGroups →
    ah ∈ programGroups → is_ ∈ programGroups → dc ∈ programGroups →
    cssRG (getStackSize rg) +
      Z.max (cssCH (getStackSize first)) (cssMS (getStackSize first)) +
      Z.max (cssCH (getStackSize second)) (cssMS (getStackSize second))
      <= continuationStackSize size ∧
    cssRG (getStackSize rg) +
      Z.max (cssCH (getStackSize first)) (cssMS (getStackSize first)) +
      (cssAH (getStackSize ah) + cssIS (getStackSize is_))
      <= continuationStackSize size ∧
    dssDC (getStackSize dc) <= directCallableStackSizeFromState size ∧
    dssDC (getStackSize dc) <= directCallableStackSizeFromTraversal size.
Proof.
  intros p size Hfit.
  destruct (stackSizes_fold_ge getStackSize programGroups zero_stackSizes) as [Hzero Hall].
  fold (stackSizesPipeline getStackSize programGroups) in Hzero, Hall. fold p in Hzero, Hall.
  destruct Hzero as (H1 & H2 & H3 & H4 & H5 & H6 & H7). cbn in H1, H2, H3, H4, H5, H6, H7.
  assert (continuationStackSize size =
            cssRG p + cssCC p + (Z.max (cssCH p) (cssMS p) + cssCC p) +
            Z.max (Z.max (cssCH p) (cssMS p) + cssCC p) (cssAH p + cssIS p)) as Heq.
  { unfold size, pipelineStackSize, maxTraceDepth. cbn [continuationStackSize].
    change (Z.max 1 2 - 1) with 1. change (Z.min 1 2) with 1.
    rewrite (to_uint_small 1) by lia.
    rewrite (to_uint_small (Z.max (cssCH p) (cssMS p) + cssCC p)) by lia.
    rewrite (to_uint_small (cssAH p + cssIS p)) by lia.
    rewrite (to_uint_small (cssRG p + cssCC p)) by lia.
    rewrite !Z.mul_1_r, !Z.mul_1_l.
    rewrite (to_uint_small (Z.max (cssCH p) (cssMS p) + cssCC p)) by lia.
    rewrite (to_uint_small (Z.max _ (cssAH p + cssIS p))) by lia.
    rewrite (to_uint_small (cssRG p + cssCC p + _)) by lia.
    apply to_uint_small. lia. }
  split; [exact Heq |].
  intros rg first second ah is_ dc Hrg Hfirst Hsecond Hah His Hdc. rewrite Heq.
  pose proof (Hall rg Hrg) as (? & _).
  pose proof (Hall first Hfirst) as (_ & ? & ? & _).
  pose proof (Hall second Hsecond) as (_ & ? & ? & _).
  pose proof (Hall ah Hah) as (_ & _ & _ & ? & _).
  pose proof (Hall is_ His) as (_ & _ & _ & _ & ? & _).
  pose proof (Hall dc Hdc) as (_ & _ & _ & _ & _ & _ & ?).
  cbn [size pipelineStackSize directCallableStackSizeFromState
       directCallableStackSizeFromTraversal]. lia.
Qed.

Lemma continuation_stack_covers_two_traces_witness :
  let p := stackSizesPipeline sample_getStackSize
             (optixProgramGroupCreate (programGroupDescriptions 1)) in
  cssRG p + cssCC p + (Z.max (cssCH p) (cssMS p) + cssCC p) +
    Z.max (Z.max (cssCH p) (cssMS p) + cssCC p) (cssAH p + cssIS p) < 2 ^ 32 ∧
  continuationStackSize (pipelineStackSize p) =
    cssRG p + cssCC p + (Z.max (cssCH p) (cssMS p) + cssCC p) +
    Z.max (Z.max (cssCH p) (cssMS p) + cssCC p) (cssAH p + cssIS p).
Proof.
  intros p.
  assert (cssRG p + cssCC p + (Z.max (cssCH p) (cssMS p) + cssCC p) +
            Z.max (Z.max (cssCH p) (cssMS p) + cssCC p) (cssAH p + cssIS p) < 2 ^ 32)
    as Hfit by (by vm_compute).
  split; [exact Hfit |].
  exact (proj1 (continuation_stack_covers_two_traces sample_getStackSize
                  (optixProgramGroupCreate (programGroupDescriptions 1)) Hfit)).
Defined.

(** X24 — [getSystemInformation] decodes a version number built as
    [1000 * major + 10 * minor], with or without a last digit, back into
    [major] and [minor]. *)
Theorem version_decoding_round_trip (major minor patch : Z) :
  0 <= major → 0 <= minor < 100 → 0 <= patch < 10 →
  1000 * major + 10 * minor + patch <= INT_MAX →
  version_major (1000 * major + 10 * minor + patch) = major ∧
  version_minor (1000 * major + 10 * minor + patch) = minor.
Proof.
  intros Hmajor Hminor Hpatch Hmax. unfold INT_MAX in Hmax.
  assert (version_major (1000 * major + 10 * minor + patch) = major) as Hm.
  { unfold version_major. rewrite Z.quot_div_nonneg by lia.
    symmetry. apply (Z.div_unique _ _ _ (10 * minor + patch)); lia. }
  split; [exact Hm |]. unfold version_minor. rewrite Hm.
  rewrite (wrap_int_small (major * 1000)) by lia.
  rewrite wrap_int_small by lia.
  rewrite Z.quot_div_nonneg by lia.
  symmetry. apply (Z.div_unique _ _ _ patch); lia.
Qed.

Lemma version_decoding_round_trip_witness :
  (0 <= 11 ∧ 0 <= 7 < 100 ∧ 0 <= 0 < 10 ∧ 1000 * 11 + 10 * 7 + 0 <= INT_MAX) ∧
  version_major 11070 = 11 ∧ version_minor 11070 = 7.
Proof.
  assert (0 <= 11 ∧ 0 <= 7 < 100 ∧ 0 <= 0 < 10 ∧ 1000 * 11 + 10 * 7 + 0 <= INT_MAX)
    as (H1 & H2 & H3 & H4) by (unfold INT_MAX; lia).
  split; [by repeat split |].
  exact (version_decoding_round_trip 11 7 0 H1 H2 H3 H4).
Defined.

Lemma freed_geometries (geometries : list GeometryData) :
  freed (flat_map (λ g, [cudaFree (gd_indices g); cudaFree (gd_attributes g);
                         cudaFree (gd_gas g)]) geometries) =
  flat_map geometry_buffers geometries.
Proof.
  induction geometries as [| g geometries IH]; [done |].
  cbn [flat_map]. unfold freed in *. rewrite omap_app, IH. reflexivity.
Qed.

Lemma freed_app a b : freed (a ++ b) = freed a ++ freed b.
Proof. apply omap_app. Qed.

Lemma built_from_geometries build s :
  built_from build s →
  m_geometries (scene s) =
    (λ i, gb_data (build i)) <$> seq 0 (length (m_instances (scene s))).
Proof.
  intros [Hlen Hall]. apply list_eq. intros i. rewrite list_lookup_fmap.
  destruct (decide (i < length (m_geometries (scene s)))%nat) as [Hlt | Hge].
  - destruct (Hall i Hlt) as [-> _]. rewrite lookup_seq_lt by lia. done.
  - rewrite lookup_ge_None_2 by lia. rewrite lookup_seq_ge by lia. done.
Qed.

(** Construction either finds the platform in order and runs the renderer's
    initialisation, or reports one error and leaves the renderer alone. *)
Lemma Application_ctor_cases p renderer getClientWidth getClientHeight options s :
  renderer (Application_new options) = Some s →
  ∃ w errors,
    Application_ctor p renderer getClientWidth getClientHeight options = Some (w, errors) ∧
    ((m_isValid w = true ∧ app w = s) ∨
     (m_isValid w = false ∧ app w = Application_new options)).
Proof.
  intros Hrun. unfold Application_ctor, initOptiX, initOptiXFunctionTable.
  destruct (cudaFree_0 p); [| by eexists _, _; split; [| right]].
  destruct (cuCtxGetCurrent p); [| by eexists _, _; split; [| right]].
  destruct (cudaStreamCreate p); [| by eexists _, _; split; [| right]].
  destruct (dlopen p); cbn [negb]; [| by eexists _, _; split; [| right]].
  destruct (dlsym p); cbn [negb]; [| by eexists _, _; split; [| right]].
  destruct (optixQueryFunctionTable p); try (by eexists _, _; split; [| right]).
  destruct (optixDeviceContextCreate p); try (by eexists _, _; split; [| right]).
  rewrite Hrun. cbn [mbind option_bind]. by eexists _, _; split; [| left].
Qed.

(** X25 — Of the buffers construction was handed by the device, the
    destructor of a valid application passes to [cudaFree] the output
    buffer (without interop) and then, geometry by geometry in the order
    they were built, the index, attribute and acceleration-structure
    buffers of every geometry, each once. The destructor of an application
    that is not valid releases nothing but the GUI. *)
Theorem destruction_frees_what_construction_built (logf : float → float)
    (RT_DEFAULT_MAX : float) (FLAG_THINWALLED : Z)
    (pack : OptixProgramGroup → SbtRecordHeader)
    (textureAlbedo textureCutout : cudaTextureObject_t) (e : PipelineEnv)
    (p : Platform) (getClientWidth getClientHeight : Z) (options : Options) :
  (∀ pg, length (pack pg) = OPTIX_SBT_RECORD_HEADER_SIZE) →
  ∃ w errors,
    Application_ctor p
      (initRenderer logf RT_DEFAULT_MAX FLAG_THINWALLED pack textureAlbedo textureCutout e)
      getClientWidth getClientHeight options = Some (w, errors) ∧
    (isValid w = false → Application_dtor w = [ImGui_Shutdown]) ∧
    (isValid w = true →
     freed (Application_dtor w) =
       (if getInterop options then [] else [env_outputBuffer e]) ++
       flat_map (λ i, geometry_buffers (gb_data (env_build e i)))
         (seq 0 (if getLight options =? 0 then 5 else 6))).
Proof.
  intros Hpack.
  destruct (initRenderer_steps logf RT_DEFAULT_MAX FLAG_THINWALLED pack textureAlbedo
              textureCutout e options Hpack)
    as (s2 & records & recs & Hrun & Hsc & _ & _ & Hn & _ & Hbuilt & _ & _ & _ & Hio).
  cbn zeta in *.
  destruct (Application_ctor_cases p _ getClientWidth getClientHeight options _ Hrun)
    as (w & errors & Hctor & [[Hvalid Happ] | [Hvalid Happ]]);
    exists w, errors; (split; [exact Hctor |]); unfold isValid, Application_dtor;
    rewrite Hvalid; (split; [done |]); [| done].
  intros _. rewrite !freed_app, freed_geometries, Happ.
  cbn [app scene m_interop m_systemParameter outputBuffer initPipeline_systemParameter
       updateMaterialParameters set_device set_sbt set_systemParameter store_hitRecords].
  rewrite Hio.
  rewrite Hsc, (built_from_geometries _ _ Hbuilt), Hn.
  assert (∀ l : list nat,
            flat_map geometry_buffers ((λ i, gb_data (env_build e i)) <$> l) =
            flat_map (λ i, geometry_buffers (gb_data (env_build e i))) l) as ->.
  { induction l as [| i l IH]; [done |]. cbn [fmap list_fmap flat_map]. by rewrite IH. }
  destruct (getInterop options); cbn; by destruct (getLight options =? 0).
Qed.

Lemma destruction_frees_what_construction_built_witness :
  (∀ pg, length (sample_packHeader pg) = OPTIX_SBT_RECORD_HEADER_SIZE) ∧
  ∃ w errors,
    Application_ctor sample_platform
      (initRenderer logf_table sample_RT_DEFAULT_MAX sample_FLAG_THINWALLED sample_packHeader
         7 8 sample_env) 512 512 sample_options = Some (w, errors) ∧
    (isValid w = true →
     freed (Application_dtor w) =
       (if getInterop sample_options then [] else [env_outputBuffer sample_env]) ++
       flat_map (λ i, geometry_buffers (gb_data (env_build sample_env i)))
         (seq 0 (if getLight sample_options =? 0 then 5 else 6))).
Proof.
  split; [exact sample_packHeader_size |].
  destruct (destruction_frees_what_construction_built logf_table sample_RT_DEFAULT_MAX
              sample_FLAG_THINWALLED sample_packHeader 7 8 sample_env sample_platform
              512 512 sample_options sample_packHeader_size)
    as (w & errors & Hrun & _ & Hfreed).
  exists w, errors. split; [exact Hrun | exact Hfreed].
Defined.

Lemma render_continues_accumulation_witness :
  (m_frames (accum sample_app) = 0 ∨
   m_iterationIndex (accum sample_app) < m_frames (accum sample_app)) ∧
  0 <= m_iterationIndex (accum sample_app) < INT_MAX ∧
  m_iterationIndex (accum (render (false, sample_frame) 0 F64.one sample_app).1) =
    m_iterationIndex (accum sample_app) + 1.
Proof.
  assert (m_frames (accum sample_app) = 0 ∨
          m_iterationIndex (accum sample_app) < m_frames (accum sample_app)) as Hb
    by (left; by vm_compute).
  assert (0 <= m_iterationIndex (accum sample_app) < INT_MAX) as Hr
    by (by vm_compute).
  split; [exact Hb |]. split; [exact Hr |].
  destruct (render_continues_accumulation sample_frame 0 F64.one sample_app Hb Hr)
    as (p & _ & _ & Hcount & _).
  exact Hcount.
Defined.

Lemma render_stops_at_budget_witness :
  let s := (render (false, sample_frame) 0 F64.one (guiWindow_Frames 1 sample_app)).1 in
  (m_frames (accum s) ≠ 0 ∧ m_frames (accum s) <= m_iterationIndex (accum s)) ∧
  launches (trace (device (render (false, sample_frame) 0 F64.one s).1)) =
    launches (trace (device s)).
Proof.
  intros s.
  assert (m_frames (accum s) ≠ 0) as Hne by (by vm_compute).
  assert (m_frames (accum s) <= m_iterationIndex (accum s)) as Hle by (by vm_compute).
  split; [split; [exact Hne | exact Hle] |].
  exact (proj1 (render_stops_at_budget sample_frame 0 F64.one s Hne Hle)).
Defined.

(** ** Further properties: a whole session *)



Lemma restartAccumulation_same_arrays s : same_arrays s (restartAccumulation s).
Proof. by repeat split. Qed.
















(** X27 — [getSystemInformation] appends to [m_deviceProperties] the
    properties of the devices 0 to [countDevices - 1], in this order, and
    nothing when the count is zero or negative. *)
Theorem device_properties_in_order {cudaDeviceProp} (countDevices : Z)
    (properties : Z → cudaDeviceProp) (m_deviceProperties : list cudaDeviceProp) :
  getSystemInformation_devices countDevices properties m_deviceProperties =
    Some (m_deviceProperties ++ (properties <$> seqZ 0 countDevices)) ∧
  (countDevices <= 0 →
   getSystemInformation_devices countDevices properties m_deviceProperties =
     Some m_deviceProperties).
Proof.
  assert (∀ n : nat,
            for_int n (λ i l, Some (l ++ [properties i])) m_deviceProperties =
            Some (m_deviceProperties ++ (properties <$> seqZ 0 (Z.of_nat n)))) as Hloop.
  { induction n as [| n IH].
    - by rewrite seqZ_nil, app_nil_r by lia.
    - cbn [for_int]. rewrite IH. cbn [mbind option_bind].
      replace (Z.of_nat (S n)) with (Z.of_nat n + 1) by lia.
      rewrite seqZ_app by lia. rewrite fmap_app, app_assoc.
      rewrite (seqZ_cons (0 + Z.of_nat n) 1) by lia.
      rewrite (seqZ_nil _ (Z.pred 1)) by lia. cbn. by rewrite Z.add_0_l. }
  unfold getSystemInformation_devices. split.
  - rewrite Hloop. destruct (Z_le_gt_dec countDevices 0).
    + rewrite Z2Nat.nonpos by lia. by rewrite !seqZ_nil by lia.
    + by rewrite Z2Nat.id by lia.
  - intros Hle. rewrite Z2Nat.nonpos by lia. done.
Qed.

(** X28 — Whatever the options, construction makes the light list the
    environment light for miss programs 1 and 2 followed by the
    parallelogram light if one is asked for, copies it to the device and
    sets the launch parameters' light count to its length; there are five
    instances, and a sixth for the parallelogram light. *)
Theorem lights_follow_options (logf : float → float)
    (RT_DEFAULT_MAX : float) (FLAG_THINWALLED : Z)
    (pack : OptixProgramGroup → SbtRecordHeader)
    (textureAlbedo textureCutout : cudaTextureObject_t) (e : PipelineEnv)
    (options : Options) :
  (∀ pg, length (pack pg) = OPTIX_SBT_RECORD_HEADER_SIZE) →
  ∃ s,
    initRenderer logf RT_DEFAULT_MAX FLAG_THINWALLED pack textureAlbedo textureCutout e
      (Application_new options) = Some s ∧
    m_lightDefinitions (scene s) =
      (if bool_decide (getMiss options = 1 ∨ getMiss options = 2)
       then [environment_light] else []) ++
      (if getLight options =? 0 then [] else [parallelogram_light]) ∧
    d_lightDefinitions (device s) = m_lightDefinitions (scene s) ∧
    numLights (m_systemParameter s) = Z.of_nat (length (m_lightDefinitions (scene s))) ∧
    numLights (m_d_systemParameter (device s)) = numLights (m_systemParameter s) ∧
    length (m_instances (scene s)) = (if (getLight options =? 0)%Z then 5 else 6)%nat.
Proof.
  intros Hpack.
  destruct (initRenderer_steps logf RT_DEFAULT_MAX FLAG_THINWALLED pack textureAlbedo
              textureCutout e options Hpack)
    as (s2 & records & recs & Hrun & Hsc & _ & _ & Hn & _).
  cbn zeta in *. eexists. split; [exact Hrun |]. cbn. rewrite Hsc.
  pose proof (initPipeline_instances_lights (env_build e)
                (initMaterials textureAlbedo textureCutout (Application_new options)))
    as Hlights.
  cbn [initMaterials scene set_scene m_lightDefinitions set_m_guiMaterialParameters
       set_textures Application_new app m_missID m_lightID] in Hlights.
  rewrite Hlights, Hn.
  split; [by destruct (getLight options =? 0) |]. split; [done |].
  split; [| done]. apply to_uint_small.
  destruct (bool_decide _), (negb _); cbn; lia.
Qed.

Lemma lights_follow_options_witness :
  (∀ pg, length (sample_packHeader pg) = OPTIX_SBT_RECORD_HEADER_SIZE) ∧
  ∃ s, sample_run = Some s ∧
       m_lightDefinitions (scene s) = [environment_light; parallelogram_light].
Proof.
  split; [exact sample_packHeader_size |].
  destruct (lights_follow_options logf_table sample_RT_DEFAULT_MAX
              sample_FLAG_THINWALLED sample_packHeader 7 8 sample_env sample_options
              sample_packHeader_size) as (s & Hrun & Hl & _).
  exists s. split; [exact Hrun | exact Hl].
Defined.

Lemma guiEventHandler_drag io w :
  m_guiState w ≠ GUI_STATE_NONE →
  guiEventHandler io w =
  (if IsMouseReleased io (drag_button (m_guiState w))
   then set_gui GUI_STATE_NONE []
   else set_gui (m_guiState w) (drag_call (m_guiState w) io))
    (if IsKeyPressed_space io then set_m_isVisibleGUI (negb (m_isVisibleGUI w)) w else w).
Proof.
  intros Hs. unfold guiEventHandler.
  destruct (IsKeyPressed_space io), (m_guiState w) eqn:E; cbn; rewrite ?E; cbn; try done;
    repeat match goal with
           | |- context [if ?b then _ else _] => destruct b
           end; done.
Qed.

(** X29 — A drag follows the mouse until its own button is released:
    while the button that began it is not released, every call of
    [guiEventHandler] makes exactly one camera call of the drag's kind with
    the mouse position, whatever the other buttons, the wheel and the GUI
    do; the release ends the drag without a camera call. *)
Theorem drag_follows_mouse_until_release (ios : list ImGuiIO) (release : ImGuiIO)
    (w : Window) :
  m_guiState w ≠ GUI_STATE_NONE →
  Forall (λ io, IsMouseReleased io (drag_button (m_guiState w)) = false) ios →
  IsMouseReleased release (drag_button (m_guiState w)) = true →
  m_guiState (handle_all (Mouse <$> ios) w) = m_guiState w ∧
  m_pinholeCamera (handle_all (Mouse <$> ios) w) =
    m_pinholeCamera w ++ flat_map (drag_call (m_guiState w)) ios ∧
  m_guiState (handle_all (Mouse <$> ios ++ [release]) w) = GUI_STATE_NONE ∧
  m_pinholeCamera (handle_all (Mouse <$> ios ++ [release]) w) =
    m_pinholeCamera w ++ flat_map (drag_call (m_guiState w)) ios.
Proof.
  intros Hs Hall Hrel.
  assert (m_guiState (handle_all (Mouse <$> ios) w) = m_guiState w ∧
          m_pinholeCamera (handle_all (Mouse <$> ios) w) =
            m_pinholeCamera w ++ flat_map (drag_call (m_guiState w)) ios) as [Hk Hc].
  { induction ios as [| io ios IH] using rev_ind.
    - cbn. by rewrite app_nil_r.
    - apply Forall_app in Hall as [Hall Hio]. apply Forall_inv in Hio.
      destruct (IH Hall) as [Hk Hc]. unfold handle_all in *.
      rewrite fmap_app, foldl_app. cbn [fmap list_fmap foldl handle].
      rewrite guiEventHandler_drag by congruence. rewrite Hk, Hio.
      rewrite flat_map_app. cbn [flat_map]. rewrite app_nil_r, app_assoc, <- Hc.
      by destruct (IsKeyPressed_space io). }
  do 2 (split; [done |]). unfold handle_all in *.
  rewrite fmap_app, foldl_app. cbn [fmap list_fmap foldl handle].
  rewrite guiEventHandler_drag by congruence. rewrite Hk, Hrel, <- Hc.
  destruct (IsKeyPressed_space release); cbn; by rewrite app_nil_r.
Qed.

Lemma drag_follows_mouse_until_release_witness :
  let w := handle_all [Mouse (sample_io 10 20 true false)] sample_window in
  let ios := [sample_io 30 40 true false; sample_io 50 60 true false] in
  (m_guiState w ≠ GUI_STATE_NONE ∧
   Forall (λ io, IsMouseReleased io (drag_button (m_guiState w)) = false) ios ∧
   IsMouseReleased (sample_io 50 60 false true) (drag_button (m_guiState w)) = true) ∧
  m_pinholeCamera (handle_all (Mouse <$> ios) w) =
    m_pinholeCamera w ++ flat_map (drag_call (m_guiState w)) ios.
Proof.
  intros w ios.
  assert (m_guiState w ≠ GUI_STATE_NONE) as Hs by (by vm_compute).
  assert (Forall (λ io, IsMouseReleased io (drag_button (m_guiState w)) = false) ios)
    as Hall by (by repeat constructor).
  assert (IsMouseReleased (sample_io 50 60 false true) (drag_button (m_guiState w)) = true)
    as Hrel by reflexivity.
  split; [split; [exact Hs | split; [exact Hall | exact Hrel]] |].
  exact (proj1 (proj2 (drag_follows_mouse_until_release ios (sample_io 50 60 false true) w
                         Hs Hall Hrel))).
Defined.
